(** * Image upload service: a shallow embedding of the three server programs

    The repository holds three versions of one small Express server:

    - [ServerA]  (src/server.js, first program): upload with a declared-type
      filter, a size ceiling, a content check after the write, and a gallery;
    - [ServerB]  (src/server.js, second program): upload with a declared-type
      filter and a size ceiling, a gallery, and the batch deletion endpoint;
    - [Part000]  (src/unnamed/part_000): upload without any validation, the
      single-item deletion endpoint, and the EJS dashboard.

    Handlers are functions from a request and a file system to an answer
    and a file system; the deletion handlers also return the file-system
    calls they made, in order. A [throw] is a [Throw] of [completion].

    - JavaScript strings are Rocq strings: sequences of code units below
      256, the range multipart file names are decoded into.
    - The file system is the upload directory, a list of regular files in
      enumeration order, and the regular files that live elsewhere, by
      absolute path; the upload directory and its ancestors exist.
    - Node's [path] and [fs], [Array.prototype.sort], Multer and the
      file-type detector are libraries the servers call: they are modelled
      after their documentation, as far as the servers use them, and the
      detector is a parameter of [ServerA]. *)

From Stdlib Require Import ZArith NArith List String Ascii Bool Lia.
From Stdlib Require Import Permutation Sorted DecimalString.
From Stdlib.Strings Require Import Byte.
Import ListNotations.

Local Open Scope list_scope.
Local Open Scope string_scope.

(** ** Characters and strings *)

Module Js.

Definition code (c : ascii) : N := N_of_ascii c.

Definition between (lo hi : N) (c : ascii) : bool :=
  ((lo <=? code c) && (code c <=? hi))%N.

Definition is_upper (c : ascii) : bool := between 65 90 c.
Definition is_lower (c : ascii) : bool := between 97 122 c.
Definition is_digit (c : ascii) : bool := between 48 57 c.

(** [\w] of a regular expression without the [u] flag: [[A-Za-z0-9_]]. *)
Definition is_word (c : ascii) : bool :=
  is_upper c || is_lower c || is_digit c || Ascii.eqb c "_".

(** Upper-case letters of the Latin-1 supplement: U+00C0..U+00DE but U+00D7. *)
Definition is_upper_latin1 (c : ascii) : bool :=
  between 192 222 c && negb (code c =? 215)%N.

(** [String.prototype.toLowerCase] on one code unit below 256. *)
Definition char_toLowerCase (c : ascii) : ascii :=
  if is_upper c || is_upper_latin1 c then ascii_of_N (code c + 32) else c.

Fixpoint toLowerCase (s : string) : string :=
  match s with
  | EmptyString => EmptyString
  | String c s' => String (char_toLowerCase c) (toLowerCase s')
  end.

(** Case folding of the [i] flag, restricted to what can match an ASCII
    letter of a pattern: only [A-Z] fold onto [a-z]; a code unit above 127
    never folds onto an ASCII one. *)
Definition char_fold (c : ascii) : ascii :=
  if is_upper c then ascii_of_N (code c + 32) else c.

Fixpoint fold_case (s : string) : string :=
  match s with
  | EmptyString => EmptyString
  | String c s' => String (char_fold c) (fold_case s')
  end.

Fixpoint forall_chars (p : ascii -> bool) (s : string) : bool :=
  match s with
  | EmptyString => true
  | String c s' => p c && forall_chars p s'
  end.

Fixpoint exists_char (p : ascii -> bool) (s : string) : bool :=
  match s with
  | EmptyString => false
  | String c s' => p c || exists_char p s'
  end.

(** [s.startsWith(p)] *)
Fixpoint startsWith (p s : string) : bool :=
  match p, s with
  | EmptyString, _ => true
  | String a p', String b s' => Ascii.eqb a b && startsWith p' s'
  | String _ _, EmptyString => false
  end.

(** [s.includes(p)]: [p] occurs somewhere in [s]. *)
Fixpoint includes (p s : string) : bool :=
  startsWith p s ||
  match s with
  | EmptyString => false
  | String _ s' => includes p s'
  end.

(** A number that is a non-negative integer below 1e21 prints in decimal;
    [Date.now()] and [Math.round(Math.random() * 1E9)] are such numbers. *)
Definition number_toString (n : N) : string :=
  NilZero.string_of_uint (N.to_uint n).

(** [s.endsWith(c)] for one character [c]. *)
Fixpoint endsWith (c : ascii) (s : string) : bool :=
  match s with
  | EmptyString => false
  | String a EmptyString => Ascii.eqb a c
  | String _ s' => endsWith c s'
  end.

(** [s.split(sep)] for a one-character separator. *)
Fixpoint split (sep : ascii) (s : string) : list string :=
  match s with
  | EmptyString => [EmptyString]
  | String c s' =>
      if Ascii.eqb c sep then EmptyString :: split sep s'
      else match split sep s' with
           | [] => [String c EmptyString]
           | seg :: segs => String c seg :: segs
           end
  end.

End Js.

(** ** Regular expressions of the source, as their [test] functions *)

Module Regex.

(** [/^[\w\-\.]+$/.test(s)]: one or more characters, each a word character,
    a hyphen or a dot, and nothing else. *)
Definition safe_char (c : ascii) : bool :=
  Js.is_word c || Ascii.eqb c "-" || Ascii.eqb c ".".

Definition safe_name_test (s : string) : bool :=
  negb (String.eqb s "") && Js.forall_chars safe_char s.

(** The words of [jpe?g|png|gif]: [jpe?g] is [jpg] or [jpeg]. *)
Definition filetypes_words : list string := ["jpg"; "jpeg"; "png"; "gif"].

(** [/jpe?g|png|gif/.test(s)]: unanchored, case-sensitive. *)
Definition filetypes_test (s : string) : bool :=
  existsb (fun w => Js.includes w s) filetypes_words.

(** [/jpe?g|png|gif|webp/i.test(s)]: unanchored, case-insensitive. *)
Definition filetypes_webp_i_test (s : string) : bool :=
  existsb (fun w => Js.includes w (Js.fold_case s)) (filetypes_words ++ ["webp"])%list.

End Regex.

(** ** Paths: the parts of Node's [path] module the servers call *)

Module Path.

(** The last non-empty component of a path. *)
Definition last_component (p : string) : string :=
  last (filter (fun seg => negb (String.eqb seg "")) (Js.split "/" p)) "".

(** The string split at its last dot: what precedes it, and the rest from
    the dot on. *)
Fixpoint last_dot (s : string) : option (string * string) :=
  match s with
  | EmptyString => None
  | String c s' =>
      match last_dot s' with
      | Some (pre, ext) => Some (String c pre, ext)
      | None => if Ascii.eqb c "." then Some (EmptyString, s) else None
      end
  end.

(** [path.extname(p)]: from the last dot of the last component to its end;
    empty when there is no dot, when the only dot starts the component, or
    when the component is [".."]. *)
Definition extname (p : string) : string :=
  let comp := last_component p in
  match last_dot comp with
  | None => ""
  | Some (pre, ext) =>
      if String.eqb pre "" || String.eqb comp ".." then "" else ext
  end.

(** An absolute, normalized path is the list of its components. *)
Definition path := list string.

Definition join_step (acc : path) (seg : string) : path :=
  if String.eqb seg "" || String.eqb seg "." then acc
  else if String.eqb seg ".." then removelast acc
  else (acc ++ [seg])%list.

(** [path.join(base, arg)] for an absolute normalized [base]: the segments
    of [arg] are applied to [base] one by one. *)
Definition join (base : path) (arg : string) : path :=
  fold_left join_step (Js.split "/" arg) base.

End Path.

(** ** Exceptions *)

Inductive errno := ENOENT | EISDIR | ENOTDIR.

Inductive multer_code := LIMIT_FILE_SIZE | LIMIT_FILE_COUNT | LIMIT_UNEXPECTED_FILE.

(** What a [throw] or an error callback carries. *)
Inductive error :=
| FsError (code : errno) (syscall : string) (p : Path.path)
| InvalidArgValue               (* a path with a null byte *)
| InvalidArgType                (* [path.join] on something that is no string *)
| PropertyOfUndefined (property : string)
                                (* the [TypeError] of [undefined.property]; the words of
                                   its message are those of the version of Node *)
| MulterError (code : multer_code)
| Error (message : string).     (* [new Error(message)] *)

Inductive completion (A : Type) :=
| Return (a : A)
| Throw (e : error).
Arguments Return {A} a.
Arguments Throw {A} e.

(** ** The file system *)

Module Fs.

Record file := { mtimeMs : Z; data : list byte }.

(** Association lists: a directory in enumeration order. *)
Section Assoc.
Context {K V : Type} (eqb : K -> K -> bool).

Fixpoint lookup (k : K) (l : list (K * V)) : option V :=
  match l with
  | [] => None
  | (k', v) :: l' => if eqb k' k then Some v else lookup k l'
  end.

Definition remove (k : K) (l : list (K * V)) : list (K * V) :=
  filter (fun e => negb (eqb (fst e) k)) l.

Fixpoint replace (k : K) (v : V) (l : list (K * V)) : list (K * V) :=
  match l with
  | [] => []
  | (k', v') :: l' =>
      if eqb k' k then (k', v) :: replace k v l' else (k', v') :: replace k v l'
  end.

Definition put (k : K) (v : V) (l : list (K * V)) : list (K * V) :=
  match lookup k l with
  | Some _ => replace k v l
  | None => (l ++ [(k, v)])%list
  end.
End Assoc.

Fixpoint path_eqb (p q : Path.path) : bool :=
  match p, q with
  | [], [] => true
  | a :: p', b :: q' => String.eqb a b && path_eqb p' q'
  | _, _ => false
  end.

(** [strip p q]: what is left of [q] after its prefix [p]. *)
Fixpoint strip (p q : Path.path) : option Path.path :=
  match p, q with
  | [], _ => Some q
  | a :: p', b :: q' => if String.eqb a b then strip p' q' else None
  | _ :: _, [] => None
  end.

(** The upload directory holds regular files only, [store], by entry name;
    [elsewhere] are the regular files outside of it, by absolute path. *)
Record t := { store : list (string * file); elsewhere : list (Path.path * file) }.

Inductive location :=
| Entry (name : string)       (* a direct child of the upload directory *)
| Directory                   (* the upload directory or one of its ancestors *)
| Elsewhere (p : Path.path).

Section Ops.
(** The upload directory; the servers create it when they start, so it
    exists, and so do its ancestors. *)
Variable dir : Path.path.

Definition locate (p : Path.path) : location :=
  match strip p dir with
  | Some _ => Directory
  | None =>
      match strip dir p with
      | Some [name] => Entry name
      | _ => Elsewhere p
      end
  end.

Definition find (p : Path.path) (fs : t) : option file :=
  match locate p with
  | Entry name => lookup String.eqb name (store fs)
  | Directory => None
  | Elsewhere q => lookup path_eqb q (elsewhere fs)
  end.

Definition existsSync (p : Path.path) (fs : t) : bool :=
  match locate p with
  | Directory => true
  | _ => match find p fs with Some _ => true | None => false end
  end.

Definition unlinkSync (p : Path.path) (fs : t) : completion t :=
  match locate p with
  | Directory => Throw (FsError EISDIR "unlink" p)
  | Entry name =>
      match lookup String.eqb name (store fs) with
      | Some _ => Return {| store := remove String.eqb name (store fs);
                            elsewhere := elsewhere fs |}
      | None => Throw (FsError ENOENT "unlink" p)
      end
  | Elsewhere q =>
      match lookup path_eqb q (elsewhere fs) with
      | Some _ => Return {| store := store fs;
                            elsewhere := remove path_eqb q (elsewhere fs) |}
      | None => Throw (FsError ENOENT "unlink" p)
      end
  end.

Definition readFileSync (p : Path.path) (fs : t) : completion (list byte) :=
  match locate p with
  | Directory => Throw (FsError EISDIR "read" p)
  | _ => match find p fs with
         | Some f => Return (data f)
         | None => Throw (FsError ENOENT "open" p)
         end
  end.

(** Creating or truncating a file and writing [f] to it. *)
Definition writeFile (p : Path.path) (f : file) (fs : t) : completion t :=
  match locate p with
  | Directory => Throw (FsError EISDIR "open" p)
  | Entry name => Return {| store := put String.eqb name f (store fs);
                            elsewhere := elsewhere fs |}
  | Elsewhere q => Return {| store := store fs;
                             elsewhere := put path_eqb q f (elsewhere fs) |}
  end.
End Ops.

(** [leq dir fs' fs]: every path that names a file in [fs'] names the same
    file in [fs]; nothing was added and nothing was changed. *)
Definition leq (dir : Path.path) (fs' fs : t) : Prop :=
  forall p f, find dir p fs' = Some f -> find dir p fs = Some f.

(** [fs.readdirSync(uploadDir)]: the entry names, in enumeration order. *)
Definition readdirSync (fs : t) : list string := map fst (store fs).

(** [fs.statSync(path.join(uploadDir, name)).mtimeMs] for [name] an entry
    that [readdirSync] returned: the path names that very entry. *)
Definition entry_mtimeMs (fs : t) (name : string) : Z :=
  match lookup String.eqb name (store fs) with
  | Some f => mtimeMs f
  | None => 0%Z
  end.

(** The file-system calls a handler makes, in order. *)
Inductive call :=
| ExistsSync (p : Path.path)
| UnlinkSync (p : Path.path)
| Unlink (p : Path.path).

Definition call_path (c : call) : Path.path :=
  match c with ExistsSync p | UnlinkSync p | Unlink p => p end.

End Fs.

(** ** [Array.prototype.sort] with a comparison function

    The result is ordered by the comparison function and keeps the order of
    the elements it rates equal (the sort is stable). *)

Module JsArray.
Section Sort.
Context {A : Type} (comparefn : A -> A -> Z).

Fixpoint insert (x : A) (l : list A) : list A :=
  match l with
  | [] => [x]
  | y :: l' => if (comparefn x y <=? 0)%Z then x :: l else y :: insert x l'
  end.

Definition sort (l : list A) : list A := fold_right insert [] l.
End Sort.
End JsArray.

(** ** Multer: [multer(options).single(field)] with disk storage

    The file parts of a request are taken in order. A part beyond
    [limits.files] fails with [LIMIT_FILE_COUNT]; a part in another field
    than [field], or a second part in [field], fails with
    [LIMIT_UNEXPECTED_FILE]; then [fileFilter] decides; a file that passes
    is written to [destination] under the name [filename] gives it; a file
    of more than [limits.fileSize] bytes is cut there and fails with
    [LIMIT_FILE_SIZE]. On an error the files written for the request are
    removed and the error goes to the error-handling middleware. *)

Module Multer.

(** A file part of a multipart request: one that carries a file name. *)
Record part := {
  fieldname : string;
  originalname : string;
  mimetype : string;
  buffer : list byte
}.

(** [req.file] *)
Record uploaded := {
  file_part : part;
  filename : string;
  path : Path.path;
  size : N
}.

(** What the run of a request draws from its environment: [Date.now()],
    [Math.round(Math.random() * 1E9)], and the modification time the
    operating system stamps on the file written. *)
Record env := { now : N; random : N; clock : Z }.

Record options := {
  destination : Path.path;
  storage_filename : env -> part -> string;
  fileFilter : option (part -> completion bool);   (* absent: every file passes *)
  limit_fileSize : option N;
  limit_files : option N
}.

Definition part_size (p : part) : N := N.of_nat (List.length (buffer p)).

(** The first [n] bytes of a buffer. *)
Fixpoint take (n : N) (l : list byte) : list byte :=
  match l with
  | [] => []
  | b :: l' => if (n =? 0)%N then [] else b :: take (N.pred n) l'
  end.

Section Single.
Variable dir : Path.path.       (* the upload directory of the file system *)
Variable o : options.
Variable field : string.
Variable e : env.

(** On an error Multer removes the files it has stored for the request
    before it hands the error on. *)
Definition remove_uploaded (files : list Path.path) (fs : Fs.t) : Fs.t :=
  fold_left (fun fs p => match Fs.unlinkSync dir p fs with
                         | Return fs' => fs'
                         | Throw _ => fs
                         end) files fs.

Definition filter_result (p : part) : completion bool :=
  match fileFilter o with
  | Some f => f p
  | None => Return true
  end.

Definition over_limit (p : part) : bool :=
  match limit_fileSize o with
  | Some n => (n <? part_size p)%N
  | None => false
  end.

Definition written (p : part) : list byte :=
  match limit_fileSize o with
  | Some n => if (n <? part_size p)%N then take n (buffer p) else buffer p
  | None => buffer p
  end.

(** The parts in order: [seen] counts the file parts met so far, [left]
    is how many files [field] may still take (one at the start), [done]
    is the file stored so far. *)
Fixpoint run (parts : list part) (seen left : N) (done : option uploaded) (fs : Fs.t)
  : completion (option uploaded) * Fs.t :=
  let stored := match done with Some u => [path u] | None => [] end in
  match parts with
  | [] => (Return done, fs)
  | p :: rest =>
      if match limit_files o with Some n => (n <=? seen)%N | None => false end
      then (Throw (MulterError LIMIT_FILE_COUNT), remove_uploaded stored fs)
      else if negb (String.eqb (fieldname p) field) || (left =? 0)%N
      then (Throw (MulterError LIMIT_UNEXPECTED_FILE), remove_uploaded stored fs)
      else
        match filter_result p with
        | Throw err => (Throw err, remove_uploaded stored fs)
        | Return false => run rest (seen + 1)%N (left - 1)%N done fs
        | Return true =>
            let name := storage_filename o e p in
            let dest := Path.join (destination o) name in
            match Fs.writeFile dir dest
                    {| Fs.mtimeMs := clock e; Fs.data := written p |} fs with
            | Throw err => (Throw err, remove_uploaded stored fs)
            | Return fs' =>
                if over_limit p
                then (Throw (MulterError LIMIT_FILE_SIZE),
                      remove_uploaded (stored ++ [dest])%list fs')
                else run rest (seen + 1)%N (left - 1)%N
                       (Some {| file_part := p; filename := name;
                                path := dest; size := part_size p |}) fs'
            end
        end
  end.

(** [single(field)]: at most one file, in [field]. *)
Definition single (parts : list part) (fs : Fs.t) : completion (option uploaded) * Fs.t :=
  run parts 0%N 1%N None fs.
End Single.

End Multer.

(** ** Values of a JSON body *)

(** An element of a JSON array is a string or something else; of the latter
    only its conversion to a string matters here. The type holds the values
    that have one: numbers, booleans, [null], arrays and objects that
    print. An object with a [toString] of its own that is no function has
    none, and is no value of this type. *)
Inductive value :=
| Str (s : string)
| NotStr (toString : string).

Definition toString (v : value) : string :=
  match v with Str s | NotStr s => s end.

(** [path.join(base, v)] throws on an argument that is no string. *)
Definition join_value (base : Path.path) (v : value) : completion Path.path :=
  match v with
  | Str s => Return (Path.join base s)
  | NotStr _ => Throw InvalidArgType
  end.

(** ** What the file-type package returns for a buffer *)

Record file_type := { ext : string; mime : string }.

(** [fileType.fromBuffer(buffer)] does not return the detected type: it
    returns a Promise, which is fulfilled with it later. A Promise is an
    object, so it is truthy, and it has no property [mime]. *)
Inductive promise (A : Type) := Promise (fulfilled_with : A).
Arguments Promise {A} fulfilled_with.

Definition truthy {A : Type} (p : promise A) : bool := true.

(** [p.mime]: [None] is [undefined]. *)
Definition mime_of {A : Type} (p : promise A) : option string := None.

(** A detector for a handful of signatures, in the manner of the file-type
    package, to run the servers on concrete buffers. *)
Module Magic.

Fixpoint starts (signature buffer : list byte) : bool :=
  match signature, buffer with
  | [], _ => true
  | a :: signature', b :: buffer' => Byte.eqb a b && starts signature' buffer'
  | _ :: _, [] => false
  end.

Definition fromBuffer (buffer : list byte) : option file_type :=
  if starts [xff; xd8; xff] buffer
  then Some {| ext := "jpg"; mime := "image/jpeg" |}
  else if starts [x89; x50; x4e; x47; x0d; x0a; x1a; x0a] buffer
  then Some {| ext := "png"; mime := "image/png" |}
  else if starts [x47; x49; x46] buffer
  then Some {| ext := "gif"; mime := "image/gif" |}
  else if starts [x52; x49; x46; x46] buffer && starts [x57; x45; x42; x50] (skipn 8 buffer)
  then Some {| ext := "webp"; mime := "image/webp" |}
  else if starts [x42; x4d] buffer
  then Some {| ext := "bmp"; mime := "image/bmp" |}
  else if starts [x25; x50; x44; x46] buffer
  then Some {| ext := "pdf"; mime := "application/pdf" |}
  else None.

End Magic.

(** ** src/server.js, first program *)

Module ServerA.
Section Server.
Variable dirname : Path.path.                       (* [__dirname] *)
(** The type the file-type package detects from the leading bytes of a
    buffer, if any: what the Promise of [fileType.fromBuffer] is fulfilled
    with. *)
Variable fromBuffer : list byte -> option file_type.

Definition fileType_fromBuffer (buffer : list byte) : promise (option file_type) :=
  Promise (fromBuffer buffer).

Definition uploadDir : Path.path :=
  Path.join (Path.join dirname "public") "uploads".

Definition storage_filename (e : Multer.env) (file : Multer.part) : string :=
  let uniqueSuffix :=
    Js.number_toString (Multer.now e) ++ "-" ++ Js.number_toString (Multer.random e) in
  uniqueSuffix ++ Js.toLowerCase (Path.extname (Multer.originalname file)).

Definition fileFilter (file : Multer.part) : completion bool :=
  let mimetype := Regex.filetypes_webp_i_test (Multer.mimetype file) in
  let extname := Regex.filetypes_webp_i_test (Path.extname (Multer.originalname file)) in
  if mimetype && extname then Return true
  else Throw (Error "Only /jpe?g|png|gif|webp/i files allowed").

Definition upload : Multer.options :=
  {| Multer.destination := uploadDir;
     Multer.storage_filename := storage_filename;
     Multer.fileFilter := Some fileFilter;
     Multer.limit_fileSize := Some (10 * 1024 * 1024)%N;
     Multer.limit_files := Some 1%N |}.

(** [validateImage] does not await the Promise: [type] is the Promise
    itself, [!type] is false, [type.mime] is [undefined], and
    [type.mime.startsWith] throws before the condition has a value. *)
Definition validateImage (filePath : Path.path) (fs : Fs.t) : completion bool * Fs.t :=
  match Fs.readFileSync uploadDir filePath fs with
  | Throw err => (Throw err, fs)
  | Return buffer =>
      let type := fileType_fromBuffer buffer in
      let invalid (condition : bool) : completion bool * Fs.t :=
        if condition
        then match Fs.unlinkSync uploadDir filePath fs with
             | Throw err => (Throw err, fs)
             | Return fs' => (Throw (Error "Invalid image content"), fs')
             end
        else (Return true, fs) in
      if negb (truthy type) then invalid true
      else
        match mime_of type with
        | None => (Throw (PropertyOfUndefined "startsWith"), fs)
        | Some mime => invalid (negb (Js.startsWith "image/" mime))
        end
  end.

(** [GET /]: the list the gallery is rendered from, or the 500 answer. *)
Definition image_extensions : list string := [".jpg"; ".jpeg"; ".png"; ".gif"; ".webp"].

Definition is_image (file : string) : bool :=
  existsb (String.eqb (Js.toLowerCase (Path.extname file))) image_extensions.

Definition by_mtime_desc (fs : Fs.t) (a b : string) : Z :=
  (Fs.entry_mtimeMs fs b - Fs.entry_mtimeMs fs a)%Z.

Definition images (fs : Fs.t) : list string :=
  let files := Fs.readdirSync fs in
  JsArray.sort (by_mtime_desc fs) (filter is_image files).

Definition allowedTypes : list string :=
  ["image/jpeg"; "image/png"; "image/gif"; "image/webp"].

Inductive response :=
| Created (filename url : string)                          (* 201, JSON *)
| NoFileUploaded                                           (* 400, JSON *)
| Rejected (err : error) (allowed : list string)           (* 400, JSON *)
| RedirectMulterError (code : multer_code)                 (* redirect to /?error=... *)
| RedirectServerError.                                     (* redirect to /?error=Server error *)

(** The error-handling middleware. *)
Definition on_error (err : error) : response :=
  match err with
  | MulterError code => RedirectMulterError code
  | _ => RedirectServerError
  end.

(** [POST /upload], from [upload.single('image')] on. *)
Definition post_upload (e : Multer.env) (parts : list Multer.part) (fs : Fs.t)
  : response * Fs.t :=
  match Multer.single uploadDir upload "image" e parts fs with
  | (Throw err, fs1) => (on_error err, fs1)
  | (Return None, fs1) => (NoFileUploaded, fs1)
  | (Return (Some file), fs1) =>
      match validateImage (Path.join uploadDir (Multer.filename file)) fs1 with
      | (Throw err, fs2) => (Rejected err allowedTypes, fs2)
      | (Return _, fs2) =>
          (Created (Multer.filename file) ("/uploads/" ++ Multer.filename file), fs2)
      end
  end.

Definition accepted (r : response) : bool :=
  match r with Created _ _ => true | _ => false end.
End Server.
End ServerA.

(** ** src/server.js, second program *)

Module ServerB.
Section Server.
Variable dirname : Path.path.

Definition uploadDir : Path.path :=
  Path.join (Path.join dirname "public") "uploads".

Definition storage_filename (e : Multer.env) (file : Multer.part) : string :=
  let uniqueSuffix :=
    Js.number_toString (Multer.now e) ++ "-" ++ Js.number_toString (Multer.random e) in
  uniqueSuffix ++ Js.toLowerCase (Path.extname (Multer.originalname file)).

Definition fileFilter (file : Multer.part) : completion bool :=
  let mimetype := Regex.filetypes_test (Multer.mimetype file) in
  let extname :=
    Regex.filetypes_test (Js.toLowerCase (Path.extname (Multer.originalname file))) in
  if mimetype && extname then Return true
  else Throw (Error "Only image files (JPEG, PNG, GIF) are allowed!").

Definition upload : Multer.options :=
  {| Multer.destination := uploadDir;
     Multer.storage_filename := storage_filename;
     Multer.fileFilter := Some fileFilter;
     Multer.limit_fileSize := Some (10 * 1024 * 1024)%N;
     Multer.limit_files := Some 1%N |}.

Definition image_extensions : list string := [".jpg"; ".jpeg"; ".png"; ".gif"].

Definition is_image (file : string) : bool :=
  let ext := Js.toLowerCase (Path.extname file) in
  existsb (String.eqb ext) image_extensions.

Definition by_mtime_desc (fs : Fs.t) (a b : string) : Z :=
  (Fs.entry_mtimeMs fs b - Fs.entry_mtimeMs fs a)%Z.

(** [GET /] *)
Definition images (fs : Fs.t) : list string :=
  let files := Fs.readdirSync fs in
  JsArray.sort (by_mtime_desc fs) (filter is_image files).

Inductive upload_response :=
| Created (filename : string) (size : N) (url : string) (mimetype : string)   (* 201 *)
| NoFileUploaded                                                             (* 400 *)
| FileTooLarge                                                               (* 400 *)
| MulterFailure (code : multer_code)                                         (* 400 *)
| InternalServerError.                                                       (* 500 *)

(** The error-handling middleware. *)
Definition on_error (err : error) : upload_response :=
  match err with
  | MulterError LIMIT_FILE_SIZE => FileTooLarge
  | MulterError code => MulterFailure code
  | _ => InternalServerError
  end.

(** [POST /upload], from [upload.single('image')] on. *)
Definition post_upload (e : Multer.env) (parts : list Multer.part) (fs : Fs.t)
  : upload_response * Fs.t :=
  match Multer.single uploadDir upload "image" e parts fs with
  | (Throw err, fs1) => (on_error err, fs1)
  | (Return None, fs1) => (NoFileUploaded, fs1)
  | (Return (Some file), fs1) =>
      let fileUrl := "/uploads/" ++ Multer.filename file in
      (Created (Multer.filename file) (Multer.size file) fileUrl
         (Multer.mimetype (Multer.file_part file)), fs1)
  end.

Definition accepted (r : upload_response) : bool :=
  match r with Created _ _ _ _ => true | _ => false end.

(** *** [POST /delete] *)

Inductive status :=
| success
| error (message : error).

Record result := { filename : value; item_status : status }.

Definition InvalidFilename : status := error (Error "Invalid filename").
Definition FileNotFound : status := error (Error "File not found").

(** The body of the [map] callback: one item against the current file
    system; the state after it, the calls it made, and its outcome. *)
Definition delete_item (image : value) (fs : Fs.t) : Fs.t * list Fs.call * result :=
  if negb (Regex.safe_name_test (toString image))
  then (fs, [], {| filename := image; item_status := InvalidFilename |})
  else
    match join_value uploadDir image with
    | Throw err => (fs, [], {| filename := image; item_status := error err |})
    | Return filePath =>
        if Fs.existsSync uploadDir filePath fs
        then match Fs.unlinkSync uploadDir filePath fs with
             | Return fs' =>
                 (fs', [Fs.ExistsSync filePath; Fs.UnlinkSync filePath],
                  {| filename := image; item_status := success |})
             | Throw err =>
                 (fs, [Fs.ExistsSync filePath; Fs.UnlinkSync filePath],
                  {| filename := image; item_status := error err |})
             end
        else (fs, [Fs.ExistsSync filePath],
              {| filename := image; item_status := FileNotFound |})
    end.

(** [imagesToDelete.map(...)], left to right over one file system. *)
Fixpoint delete_items (images : list value) (fs : Fs.t)
  : Fs.t * list Fs.call * list result :=
  match images with
  | [] => (fs, [], [])
  | image :: rest =>
      let '(fs1, calls1, r) := delete_item image fs in
      let '(fs2, calls2, rs) := delete_items rest fs1 in
      (fs2, (calls1 ++ calls2)%list, r :: rs)
  end.

Definition is_success (r : result) : bool :=
  match item_status r with success => true | error _ => false end.

Inductive delete_response :=
| NoImagesSelected                                          (* 400 *)
| NoFilesDeleted (details : list result)                    (* 400 *)
| Deleted (deleted total : nat) (details : list result).    (* 200 *)

Definition delete_status (r : delete_response) : Z :=
  match r with
  | NoImagesSelected | NoFilesDeleted _ => 400
  | Deleted _ _ _ => 200
  end.

(** [req.body.imagesToDelete]: [None] when it is no array. *)
Definition post_delete (body : option (list value)) (fs : Fs.t)
  : delete_response * Fs.t * list Fs.call :=
  let imagesToDelete := match body with Some l => l | None => [] end in
  if (List.length imagesToDelete =? 0)%nat then (NoImagesSelected, fs, [])
  else
    let '(fs', calls, results) := delete_items imagesToDelete fs in
    let successCount := List.length (filter is_success results) in
    if (successCount =? 0)%nat then (NoFilesDeleted results, fs', calls)
    else (Deleted successCount (List.length imagesToDelete) results, fs', calls).
End Server.
End ServerB.

(** ** src/unnamed/part_000 *)

Module Part000.
Section Server.
Variable dirname : Path.path.

Definition uploadDir : Path.path :=
  Path.join (Path.join dirname "public") "uploads".

Definition storage_filename (e : Multer.env) (file : Multer.part) : string :=
  Js.number_toString (Multer.now e) ++ Path.extname (Multer.originalname file).

Definition upload : Multer.options :=
  {| Multer.destination := uploadDir;
     Multer.storage_filename := storage_filename;
     Multer.fileFilter := None;
     Multer.limit_fileSize := None;
     Multer.limit_files := None |}.

Inductive upload_response :=
| Uploaded (url : string)          (* 200 {success: true, url} *)
| NoFileUploaded                   (* 400 *)
| Unhandled (err : error).         (* no error middleware: Express answers 500 *)

Definition post_upload (e : Multer.env) (parts : list Multer.part) (fs : Fs.t)
  : upload_response * Fs.t :=
  match Multer.single uploadDir upload "image" e parts fs with
  | (Throw err, fs1) => (Unhandled err, fs1)
  | (Return None, fs1) => (NoFileUploaded, fs1)
  | (Return (Some file), fs1) => (Uploaded ("/uploads/" ++ Multer.filename file), fs1)
  end.

Definition accepted (r : upload_response) : bool :=
  match r with Uploaded _ => true | _ => false end.

Inductive delete_response :=
| DeleteSuccess                    (* 200 {success: true} *)
| FailedToDelete                   (* 500 {error: 'Failed to delete'} *)
| DeleteUnhandled (err : error).   (* [fs.unlink] threw: Express answers 500 *)

Definition delete_status (r : delete_response) : Z :=
  match r with DeleteSuccess => 200 | _ => 500 end.

Definition has_null_byte (s : string) : bool :=
  Js.exists_char (fun c => Ascii.eqb c "000") s.

(** [fs.unlink(filePath, callback)]: [path.join] keeps the slash a name
    ends with, and a path that ends with a slash names a directory or
    nothing, so that [unlink] fails on it. *)
Definition unlink (filename : string) (filePath : Path.path) (fs : Fs.t) : completion Fs.t :=
  if Js.endsWith "/" filename then Throw (FsError ENOTDIR "unlink" filePath)
  else Fs.unlinkSync uploadDir filePath fs.

(** [DELETE /image/:filename]; [fs.unlink] refuses a path with a null
    byte before it makes any call. *)
Definition delete_image (filename : string) (fs : Fs.t)
  : delete_response * Fs.t * list Fs.call :=
  let filePath := Path.join uploadDir filename in
  if has_null_byte filename then (DeleteUnhandled InvalidArgValue, fs, [])
  else
    match unlink filename filePath fs with
    | Throw _ => (FailedToDelete, fs, [Fs.Unlink filePath])
    | Return fs' => (DeleteSuccess, fs', [Fs.Unlink filePath])
    end.

Record image := { name : string; url : string }.

(** [GET /dashboard]: the list handed to the template. *)
Definition images (fs : Fs.t) : list image :=
  let files := Fs.readdirSync fs in
  map (fun file => {| name := file; url := "/uploads/" ++ file |}) files.
End Server.
End Part000.

(** ** Vocabulary of the statements *)

(** The size ceiling of the two programs of src/server.js, in bytes. *)
Definition ceiling : N := (10 * 1024 * 1024)%N.

(** The file [p] of a request with other bytes in it. *)
Definition with_buffer (p : Multer.part) (bytes : list byte) : Multer.part :=
  {| Multer.fieldname := Multer.fieldname p;
     Multer.originalname := Multer.originalname p;
     Multer.mimetype := Multer.mimetype p;
     Multer.buffer := bytes |}.

(** [occurs w s]: the word [w] occurs somewhere in [s]. *)
Definition occurs (w s : string) : Prop :=
  exists pre post, s = (pre ++ w ++ post)%string.

(** [names_word words s]: one of [words] occurs somewhere in [s]. *)
Definition names_word (words : list string) (s : string) : Prop :=
  exists w, In w words /\ occurs w s.

(** The pattern [<timestamp>-<random><lowercased extension>] for a file sent
    under the name [original]. *)
Definition follows_pattern (original name : string) : Prop :=
  exists timestamp random : N,
    name = (Js.number_toString timestamp ++ "-" ++ Js.number_toString random
            ++ Js.toLowerCase (Path.extname original))%string.

(** The items of a deletion request, against the file system it meets. *)
Section DeletionVocabulary.
Variable dirname : Path.path.
Variable fs : Fs.t.

(** The item fails the safe pattern. *)
Definition malformed (v : value) : bool :=
  negb (Regex.safe_name_test (toString v)).

(** The item is a well-formed name of a file that exists in the store. *)
Definition stored_file (v : value) : bool :=
  match v with
  | Str s =>
      Regex.safe_name_test s &&
      match Fs.find (ServerB.uploadDir dirname)
              (Path.join (ServerB.uploadDir dirname) s) fs with
      | Some _ => true
      | None => false
      end
  | NotStr _ => false
  end.

(** The item is a well-formed name of nothing that exists. *)
Definition absent_file (v : value) : bool :=
  match v with
  | Str s =>
      Regex.safe_name_test s &&
      negb (Fs.existsSync (ServerB.uploadDir dirname)
              (Path.join (ServerB.uploadDir dirname) s) fs)
  | NotStr _ => false
  end.
End DeletionVocabulary.

(** The file system with the entry [s] of the upload directory removed. *)
Definition minus (s : string) (fs : Fs.t) : Fs.t :=
  {| Fs.store := Fs.remove String.eqb s (Fs.store fs); Fs.elsewhere := Fs.elsewhere fs |}.

(** An item the specification speaks of: a stored file, a malformed name,
    or the name of an absent file. *)
Definition classified (dirname : Path.path) (fs : Fs.t) (v : value) : Prop :=
  stored_file dirname fs v || malformed v || absent_file dirname fs v = true.

Definition value_eq_dec (a b : value) : {a = b} + {a <> b}.
Proof. decide equality; apply string_dec. Defined.

Definition is_invalid_name (r : ServerB.result) : bool :=
  match ServerB.item_status r with
  | ServerB.error (Error m) => String.eqb m "Invalid filename"
  | _ => false
  end.

Definition is_not_found (r : ServerB.result) : bool :=
  match ServerB.item_status r with
  | ServerB.error (Error m) => String.eqb m "File not found"
  | _ => false
  end.

Definition details (r : ServerB.delete_response) : list ServerB.result :=
  match r with
  | ServerB.NoImagesSelected => []
  | ServerB.NoFilesDeleted l | ServerB.Deleted _ _ l => l
  end.

(** ** Concrete inputs of the runs *)

Definition srv : Path.path := ["srv"; "app"].

Definition empty_fs : Fs.t := {| Fs.store := []; Fs.elsewhere := [] |}.

(** An upload directory that holds one older picture. *)
Definition old_fs : Fs.t :=
  {| Fs.store := [("1600000000000-42.png", {| Fs.mtimeMs := 1600000000000; Fs.data := [x89; x50] |})];
     Fs.elsewhere := [] |}.

Definition env0 : Multer.env :=
  {| Multer.now := 1700000000000; Multer.random := 123456789; Multer.clock := 1700000000005 |}.

(** A file of one byte more than 10 MiB. *)
Definition big_part : Multer.part :=
  {| Multer.fieldname := "image"; Multer.originalname := "big.png";
     Multer.mimetype := "image/png";
     Multer.buffer := repeat x00 (N.to_nat 10485761) |}.

(** A PNG signature followed by one byte. *)
Definition png_bytes : list byte := [x89; x50; x4e; x47; x0d; x0a; x1a; x0a; x00].


(** The start of a PDF document. *)
Definition pdf_bytes : list byte := [x25; x50; x44; x46; x2d; x31].

(** A batch that names the stored picture twice, a path out of the
    directory, and a file that does not exist. *)
Definition batch0 : list value :=
  [Str "1600000000000-42.png"; Str "../etc/passwd"; Str "nope.png"; Str "1600000000000-42.png"].

(** An upload directory with a file whose name has a space in it. *)
Definition spaced_fs : Fs.t :=
  {| Fs.store := [("my photo.png", {| Fs.mtimeMs := 1600000000000; Fs.data := [x89; x50] |})];
     Fs.elsewhere := [(["srv"; "app"; "server.js"], {| Fs.mtimeMs := 1500000000000; Fs.data := [] |})] |}.

(** An upload directory that enumerates a text file, then an older and a
    newer picture. *)
Definition mixed_fs : Fs.t :=
  {| Fs.store := [("notes.txt", {| Fs.mtimeMs := 30; Fs.data := [] |});
                  ("old.png", {| Fs.mtimeMs := 10; Fs.data := [] |});
                  ("new.JPG", {| Fs.mtimeMs := 20; Fs.data := [] |});
                  ("anim.webp", {| Fs.mtimeMs := 20; Fs.data := [] |})];
     Fs.elsewhere := [] |}.

Definition png_part : Multer.part :=
  {| Multer.fieldname := "image"; Multer.originalname := "pic.PNG";
     Multer.mimetype := "image/png"; Multer.buffer := png_bytes |}.


(** A PDF document sent as if it were a PNG. *)
Definition pdf_part : Multer.part :=
  {| Multer.fieldname := "image"; Multer.originalname := "paper.png";
     Multer.mimetype := "image/png"; Multer.buffer := pdf_bytes |}.

Definition html_part : Multer.part :=
  {| Multer.fieldname := "image"; Multer.originalname := "page.html";
     Multer.mimetype := "text/html"; Multer.buffer := [x3c; x68; x31; x3e] |}.

Definition fake_png_part : Multer.part :=
  {| Multer.fieldname := "image"; Multer.originalname := "x.png";
     Multer.mimetype := "application/x-png-fake"; Multer.buffer := png_bytes |}.

(** ** Further vocabulary *)

From Stdlib Require Import DecimalN DecimalPos.

(** [target v name]: the item [v] of a deletion request is a string that
    passes the safe pattern, is neither [.] nor [..], and is [name]. *)
Definition target (v : value) (name : string) : bool :=
  match v with
  | Str s =>
      Regex.safe_name_test s && negb (String.eqb s ".") && negb (String.eqb s "..")
      && String.eqb name s
  | NotStr _ => false
  end.

Definition targeted (items : list value) (name : string) : bool :=
  existsb (fun v => target v name) items.

(** [Array.isArray(req.body.imagesToDelete) ? req.body.imagesToDelete : []] *)
Definition items_of (body : option (list value)) : list value :=
  match body with Some l => l | None => [] end.

(** The names a directory can enumerate: not empty, not [.] or [..],
    without slash and without null byte. *)
Definition entry_name (s : string) : bool :=
  negb (String.eqb s "") && negb (String.eqb s ".") && negb (String.eqb s "..")
  && negb (Js.exists_char (Ascii.eqb "/") s) && negb (Part000.has_null_byte s).

(** A string is empty or starts with something that is no digit. *)
Definition no_digit_ahead (s : string) : Prop :=
  match s with
  | EmptyString => True
  | String c _ => Js.is_digit c = false
  end.

(** ** src/views/dashboard.ejs *)

Module Dashboard.

(** What the template puts on the page for the [images] it is handed: a
    card for each image, in their order, with the picture of [url] and the
    [name] as caption, or the paragraph that says that no images were
    uploaded yet. *)
Inductive view :=
| ImageGrid (cards : list Part000.image)
| NoImages.

Definition render (images : list Part000.image) : view :=
  if (0 <? List.length images)%nat then ImageGrid images else NoImages.

End Dashboard.

(** A client that sends [DELETE /image/<name>] for each of [names], one
    after the other. *)
Fixpoint delete_each (dirname : Path.path) (names : list string) (fs : Fs.t)
  : list Part000.delete_response * Fs.t :=
  match names with
  | [] => ([], fs)
  | n :: rest =>
      let '(r, fs1, _) := Part000.delete_image dirname n fs in
      let '(rs, fs2) := delete_each dirname rest fs1 in
      (r :: rs, fs2)
  end.

(** ** Further inputs *)

(** An animated PNG: the filter finds [png] in its type and extension. *)
Definition apng_part : Multer.part :=
  {| Multer.fieldname := "image"; Multer.originalname := "anim.apng";
     Multer.mimetype := "image/apng"; Multer.buffer := png_bytes |}.

(** A file of which the name goes on after the extension. *)
Definition spaced_part : Multer.part :=
  {| Multer.fieldname := "image"; Multer.originalname := "shot.png (1)";
     Multer.mimetype := "image/png"; Multer.buffer := png_bytes |}.


(** * Properties *)

Local Open Scope list_scope.

(** ** Strings and paths *)

Section StringFacts.

Lemma split_no_sep (sep : ascii) (s : string) :
  Js.exists_char (Ascii.eqb sep) s = false -> Js.split sep s = [s].
Proof.
  induction s as [|c s IH]; simpl; intros H; [reflexivity|].
  apply orb_false_iff in H as [Hc Hs].
  rewrite (Ascii.eqb_sym c sep), Hc, (IH Hs). reflexivity.
Qed.

Lemma safe_char_not_slash (c : ascii) :
  Regex.safe_char c = true -> Ascii.eqb "/" c = false.
Proof.
  destruct c as [[] [] [] [] [] [] [] []]; vm_compute; congruence.
Qed.

Lemma safe_chars_no_slash (s : string) :
  Js.forall_chars Regex.safe_char s = true -> Js.exists_char (Ascii.eqb "/") s = false.
Proof.
  induction s as [|c s IH]; cbn [Js.exists_char Js.forall_chars]; intros H; [reflexivity|].
  apply andb_true_iff in H as [Hc Hs].
  now rewrite (safe_char_not_slash _ Hc), (IH Hs).
Qed.

Lemma safe_name_nonempty (s : string) :
  Regex.safe_name_test s = true -> s <> "".
Proof.
  unfold Regex.safe_name_test. intros H ->. discriminate.
Qed.

(** [path.join] on a name that passes the safe pattern: a single segment. *)
Lemma join_safe (base : Path.path) (s : string) :
  Regex.safe_name_test s = true ->
  Path.join base s =
    if String.eqb s "." then base
    else if String.eqb s ".." then removelast base
    else (base ++ [s])%list.
Proof.
  intros H. pose proof (safe_name_nonempty _ H) as Hne.
  unfold Regex.safe_name_test in H. apply andb_true_iff in H as [_ H].
  unfold Path.join. rewrite (split_no_sep _ _ (safe_chars_no_slash _ H)).
  simpl. unfold Path.join_step.
  apply String.eqb_neq in Hne. rewrite Hne. simpl.
  reflexivity.
Qed.

Lemma uploadDir_eq (dirname : Path.path) :
  Path.join (Path.join dirname "public") "uploads" = (dirname ++ ["public"; "uploads"])%list.
Proof.
  cbn. now rewrite <- app_assoc.
Qed.

End StringFacts.

(** ** The file system *)

Section AssocFacts.
Context {K V : Type} (eqb : K -> K -> bool).
Hypothesis eqb_spec : forall a b, eqb a b = true <-> a = b.

Lemma eqb_same (a : K) : eqb a a = true.
Proof. now apply eqb_spec. Qed.

Lemma eqb_diff (a b : K) : a <> b -> eqb a b = false.
Proof.
  intros H. destruct (eqb a b) eqn:E; [|reflexivity].
  now apply eqb_spec in E.
Qed.

Lemma lookup_remove_same (k : K) (l : list (K * V)) :
  Fs.lookup eqb k (Fs.remove eqb k l) = None.
Proof.
  induction l as [|[k' v] l IH]; simpl; [reflexivity|].
  destruct (eqb k' k) eqn:E; simpl; [exact IH|].
  now rewrite E.
Qed.

Lemma lookup_remove_other (k k' : K) (l : list (K * V)) :
  k <> k' -> Fs.lookup eqb k' (Fs.remove eqb k l) = Fs.lookup eqb k' l.
Proof.
  intros Hne. induction l as [|[k0 v] l IH]; simpl; [reflexivity|].
  destruct (eqb k0 k) eqn:E; simpl.
  - apply eqb_spec in E. subst k0. now rewrite (eqb_diff _ _ Hne).
  - now rewrite IH.
Qed.

Lemma lookup_remove_some (k k' : K) (v : V) (l : list (K * V)) :
  Fs.lookup eqb k' (Fs.remove eqb k l) = Some v -> Fs.lookup eqb k' l = Some v.
Proof.
  induction l as [|[k0 v0] l IH]; simpl; [discriminate|].
  destruct (eqb k0 k) eqn:E; simpl.
  - intros H. destruct (eqb k0 k') eqn:E'.
    + apply eqb_spec in E, E'. subst k k'.
      now rewrite lookup_remove_same in H.
    + now apply IH.
  - destruct (eqb k0 k'); [easy|apply IH].
Qed.

Lemma remove_replace (k : K) (v : V) (l : list (K * V)) :
  Fs.remove eqb k (Fs.replace eqb k v l) = Fs.remove eqb k l.
Proof.
  induction l as [|[k0 v0] l IH]; simpl; [reflexivity|].
  destruct (eqb k0 k) eqn:E; simpl; rewrite E; simpl; now rewrite IH.
Qed.

Lemma remove_absent (k : K) (l : list (K * V)) :
  Fs.lookup eqb k l = None -> Fs.remove eqb k l = l.
Proof.
  induction l as [|[k0 v0] l IH]; simpl; [reflexivity|].
  destruct (eqb k0 k) eqn:E; [discriminate|]. simpl.
  intros H. now rewrite (IH H).
Qed.

Lemma remove_put (k : K) (v : V) (l : list (K * V)) :
  Fs.remove eqb k (Fs.put eqb k v l) = Fs.remove eqb k l.
Proof.
  unfold Fs.put. destruct (Fs.lookup eqb k l) eqn:E.
  - apply remove_replace.
  - unfold Fs.remove. rewrite filter_app. simpl. rewrite eqb_same. simpl.
    now rewrite app_nil_r.
Qed.

Lemma lookup_replace (k : K) (v v0 : V) (l : list (K * V)) :
  Fs.lookup eqb k l = Some v0 -> Fs.lookup eqb k (Fs.replace eqb k v l) = Some v.
Proof.
  induction l as [|[k0 v1] l IH]; simpl; [discriminate|].
  destruct (eqb k0 k) eqn:E; simpl; rewrite E; [reflexivity|apply IH].
Qed.

Lemma lookup_app_absent (k : K) (v : V) (l : list (K * V)) :
  Fs.lookup eqb k l = None -> Fs.lookup eqb k (l ++ [(k, v)]) = Some v.
Proof.
  induction l as [|[k0 v1] l IH]; simpl.
  - now rewrite eqb_same.
  - destruct (eqb k0 k); [discriminate|apply IH].
Qed.

Lemma lookup_put (k : K) (v : V) (l : list (K * V)) :
  Fs.lookup eqb k (Fs.put eqb k v l) = Some v.
Proof.
  unfold Fs.put. destruct (Fs.lookup eqb k l) eqn:E.
  - eapply lookup_replace; eassumption.
  - now apply lookup_app_absent.
Qed.

Lemma lookup_in_keys (k : K) (v : V) (l : list (K * V)) :
  Fs.lookup eqb k l = Some v -> In k (map fst l).
Proof.
  induction l as [|[k0 v0] l IH]; simpl; [discriminate|].
  destruct (eqb k0 k) eqn:E.
  - apply eqb_spec in E. now left.
  - intros H. right. now apply IH.
Qed.

Lemma keys_lookup (k : K) (l : list (K * V)) :
  In k (map fst l) -> exists v, Fs.lookup eqb k l = Some v.
Proof.
  induction l as [|[k0 v0] l IH]; simpl; [easy|].
  intros [->|H].
  - rewrite eqb_same. now exists v0.
  - destruct (eqb k0 k); [now exists v0|now apply IH].
Qed.
End AssocFacts.

Lemma path_eqb_spec (p q : Path.path) : Fs.path_eqb p q = true <-> p = q.
Proof.
  revert q. induction p as [|a p IH]; intros [|b q]; simpl; try easy.
  rewrite andb_true_iff, String.eqb_eq, IH. split.
  - now intros [-> ->].
  - intros H. now inversion H.
Qed.

Section LocateFacts.
Variable dir : Path.path.

Lemma strip_app (p r : Path.path) : Fs.strip p (p ++ r) = Some r.
Proof.
  induction p as [|a p IH]; simpl; [reflexivity|].
  now rewrite String.eqb_refl.
Qed.

Lemma strip_some (p q r : Path.path) : Fs.strip p q = Some r -> q = (p ++ r)%list.
Proof.
  revert q. induction p as [|a p IH]; intros q; simpl.
  - now intros [= ->].
  - destruct q as [|b q]; [discriminate|].
    destruct (String.eqb a b) eqn:E; [|discriminate].
    apply String.eqb_eq in E. subst b. intros H. now rewrite (IH _ H).
Qed.

Lemma strip_longer (p : Path.path) (x : string) (r : Path.path) :
  Fs.strip (p ++ x :: r) p = None.
Proof.
  destruct (Fs.strip (p ++ x :: r) p) as [s|] eqn:E; [|reflexivity].
  apply strip_some in E. apply (f_equal (@List.length string)) in E.
  rewrite !length_app in E. simpl in E. lia.
Qed.

Lemma locate_dir : Fs.locate dir dir = Fs.Directory.
Proof.
  unfold Fs.locate. rewrite <- (app_nil_r dir) at 2. now rewrite strip_app.
Qed.

Lemma locate_ancestor (p r : Path.path) :
  dir = (p ++ r)%list -> Fs.locate dir p = Fs.Directory.
Proof.
  intros ->. unfold Fs.locate. now rewrite strip_app.
Qed.

Lemma locate_entry (name : string) :
  Fs.locate dir (dir ++ [name]) = Fs.Entry name.
Proof.
  unfold Fs.locate. now rewrite strip_longer, strip_app.
Qed.

Lemma find_leq_refl (fs : Fs.t) : Fs.leq dir fs fs.
Proof. now intros p f. Qed.

Lemma find_leq_trans (a b c : Fs.t) : Fs.leq dir a b -> Fs.leq dir b c -> Fs.leq dir a c.
Proof. intros H1 H2 p f H. now apply H2, H1. Qed.

Lemma unlink_leq (q : Path.path) (fs fs' : Fs.t) :
  Fs.unlinkSync dir q fs = Return fs' -> Fs.leq dir fs' fs.
Proof.
  unfold Fs.unlinkSync, Fs.leq, Fs.find.
  destruct (Fs.locate dir q) as [n| |q'] eqn:Eq; [| discriminate |].
  - destruct (Fs.lookup String.eqb n (Fs.store fs)); [|discriminate].
    intros [= <-] p g. simpl.
    destruct (Fs.locate dir p); trivial.
    apply lookup_remove_some. apply String.eqb_eq.
  - destruct (Fs.lookup Fs.path_eqb q' (Fs.elsewhere fs)); [|discriminate].
    intros [= <-] p g. simpl.
    destruct (Fs.locate dir p); trivial.
    apply lookup_remove_some. apply path_eqb_spec.
Qed.

Lemma unlink_find (q : Path.path) (fs fs' : Fs.t) :
  Fs.unlinkSync dir q fs = Return fs' -> Fs.find dir q fs' = None.
Proof.
  unfold Fs.unlinkSync, Fs.find.
  destruct (Fs.locate dir q) as [n| |q'] eqn:Eq; [| discriminate |].
  - destruct (Fs.lookup String.eqb n (Fs.store fs)); [|discriminate].
    intros [= <-]. simpl. apply lookup_remove_same.
  - destruct (Fs.lookup Fs.path_eqb q' (Fs.elsewhere fs)); [|discriminate].
    intros [= <-]. simpl. apply lookup_remove_same.
Qed.

Lemma write_find (q : Path.path) (f : Fs.file) (fs fs' : Fs.t) :
  Fs.writeFile dir q f fs = Return fs' -> Fs.find dir q fs' = Some f.
Proof.
  unfold Fs.writeFile, Fs.find.
  destruct (Fs.locate dir q) as [n| |q'] eqn:Eq; [| discriminate |];
    intros [= <-]; simpl; apply lookup_put.
  - apply String.eqb_eq.
  - apply path_eqb_spec.
Qed.

(** A file written and then unlinked leaves nothing new behind. *)
Lemma write_unlink (q : Path.path) (f : Fs.file) (fs fs1 : Fs.t) :
  Fs.writeFile dir q f fs = Return fs1 ->
  exists fs2, Fs.unlinkSync dir q fs1 = Return fs2 /\ Fs.leq dir fs2 fs.
Proof.
  intros Hw. pose proof (write_find _ _ _ _ Hw) as Hf.
  revert Hw Hf. unfold Fs.writeFile, Fs.unlinkSync, Fs.find, Fs.leq.
  destruct (Fs.locate dir q) as [n| |q'] eqn:Eq; [| discriminate |];
    intros [= <-]; simpl; intros ->; eexists; (split; [reflexivity|]);
    intros p g; unfold Fs.find; simpl; destruct (Fs.locate dir p); trivial.
  - rewrite remove_put by apply String.eqb_eq.
    apply lookup_remove_some, String.eqb_eq.
  - rewrite remove_put by apply path_eqb_spec.
    apply lookup_remove_some, path_eqb_spec.
Qed.
End LocateFacts.

(** ** Multer *)

Section MulterFacts.
Variable dir : Path.path.
Variable o : Multer.options.
Variable field : string.
Variable e : Multer.env.

Lemma written_within (p : Multer.part) :
  Multer.over_limit o p = false -> Multer.written o p = Multer.buffer p.
Proof.
  unfold Multer.over_limit, Multer.written.
  destruct (Multer.limit_fileSize o); [|reflexivity]. now intros ->.
Qed.

Lemma remove_written (dest : Path.path) (f : Fs.file) (fs fs1 : Fs.t) :
  Fs.writeFile dir dest f fs = Return fs1 ->
  Fs.leq dir (Multer.remove_uploaded dir [dest] fs1) fs.
Proof.
  intros Hw. destruct (write_unlink dir _ _ _ _ Hw) as (fs2 & Hu & Hle).
  simpl. now rewrite Hu.
Qed.

(** What [single] comes to: a request is either refused, and then nothing
    new is left behind; or it carried no file; or it carried exactly one
    file, in [field], which passed the filter and the size limit and was
    written under its generated name. *)
Lemma single_outcome (parts : list Multer.part) (fs : Fs.t) :
  match Multer.single dir o field e parts fs with
  | (Throw _, fs') => Fs.leq dir fs' fs
  | (Return None, fs') => fs' = fs /\ (List.length parts <= 1)%nat
  | (Return (Some u), fs') =>
      let p := Multer.file_part u in
      parts = [p] /\
      Multer.fieldname p = field /\
      Multer.filter_result o p = Return true /\
      Multer.over_limit o p = false /\
      Multer.filename u = Multer.storage_filename o e p /\
      Multer.path u = Path.join (Multer.destination o) (Multer.filename u) /\
      Multer.size u = Multer.part_size p /\
      Fs.writeFile dir (Multer.path u)
        {| Fs.mtimeMs := Multer.clock e; Fs.data := Multer.buffer p |} fs = Return fs'
  end.
Proof.
  unfold Multer.single.
  destruct parts as [|p rest]; [cbn; split; [reflexivity|lia]|].
  cbn [Multer.run].
  destruct (match Multer.limit_files o with Some n => (n <=? 0)%N | None => false end);
    [apply find_leq_refl|].
  destruct (String.eqb (Multer.fieldname p) field) eqn:Ef; cbn [negb orb N.eqb];
    [|apply find_leq_refl].
  apply String.eqb_eq in Ef.
  destruct (Multer.filter_result o p) as [[|]|err] eqn:Efilter; [| |apply find_leq_refl].
  - destruct (Fs.writeFile dir _ _ fs) as [fs1|err] eqn:Ew; [|apply find_leq_refl].
    destruct (Multer.over_limit o p) eqn:Eover.
    + eapply remove_written; eassumption.
    + rewrite (written_within _ Eover) in Ew.
      destruct rest as [|q rest]; cbn [Multer.run Multer.path].
      * cbn. repeat split; assumption.
      * replace (1 - 1 =? 0)%N with true by reflexivity.
        rewrite orb_true_r.
        destruct (match Multer.limit_files o with
                  | Some n => (n <=? 0 + 1)%N | None => false end);
          eapply remove_written; eassumption.
  - destruct rest as [|q rest]; cbn [Multer.run]; [cbn; split; [reflexivity|lia]|].
    replace (1 - 1 =? 0)%N with true by reflexivity.
    rewrite orb_true_r.
    destruct (match Multer.limit_files o with
              | Some n => (n <=? 0 + 1)%N | None => false end);
      apply find_leq_refl.
Qed.

(** A request that carries two files or more is refused. *)
Lemma single_many (parts : list Multer.part) (fs : Fs.t) :
  (2 <= List.length parts)%nat ->
  exists err, fst (Multer.single dir o field e parts fs) = Throw err.
Proof.
  intros Hlen. pose proof (single_outcome parts fs) as H.
  destruct (Multer.single dir o field e parts fs) as [[[u|]|err] fs']; simpl in *.
  - destruct H as [-> _]. simpl in Hlen. lia.
  - lia.
  - now exists err.
Qed.
End MulterFacts.

(** ** The upload endpoints *)

Section UploadA.
Variable dirname : Path.path.
Variable fromBuffer : list byte -> option file_type.

Let uploadDir := ServerA.uploadDir dirname.

(** What [POST /upload] of the first program comes to: [validateImage]
    throws on every file that Multer has stored, and leaves it there. *)
Lemma validateImage_throws (filePath : Path.path) (fs : Fs.t) (buffer : list byte) :
  Fs.readFileSync uploadDir filePath fs = Return buffer ->
  ServerA.validateImage dirname fromBuffer filePath fs
  = (Throw (PropertyOfUndefined "startsWith"), fs).
Proof.
  intros Hread. unfold ServerA.validateImage. fold uploadDir. now rewrite Hread.
Qed.

Lemma postA_spec (e : Multer.env) (parts : list Multer.part) (fs : Fs.t) :
  let '(r, fs') := ServerA.post_upload dirname fromBuffer e parts fs in
  match r with
  | ServerA.Created name url => False
  | ServerA.Rejected err allowed =>
      exists p,
        let filePath := Path.join uploadDir (ServerA.storage_filename e p) in
        parts = [p] /\
        Multer.fieldname p = "image" /\
        ServerA.fileFilter p = Return true /\
        (Multer.part_size p <= ceiling)%N /\
        err = PropertyOfUndefined "startsWith" /\
        allowed = ServerA.allowedTypes /\
        Fs.writeFile uploadDir filePath
          {| Fs.mtimeMs := Multer.clock e; Fs.data := Multer.buffer p |} fs = Return fs' /\
        ServerA.validateImage dirname fromBuffer filePath fs'
          = (Throw (PropertyOfUndefined "startsWith"), fs')
  | _ => Fs.leq uploadDir fs' fs
  end.
Proof.
  unfold ServerA.post_upload.
  pose proof (single_outcome uploadDir (ServerA.upload dirname) "image" e parts fs) as H.
  fold uploadDir.
  destruct (Multer.single uploadDir (ServerA.upload dirname) "image" e parts fs)
    as [[[u|]|err] fs1].
  - cbn zeta in H. destruct H as (Hparts & Hfield & Hfilter & Hover & Hname & Hpath & Hsize & Hw).
    change (Multer.destination (ServerA.upload dirname)) with uploadDir in Hpath.
    change (Multer.storage_filename (ServerA.upload dirname)) with ServerA.storage_filename in Hname.
    change (Multer.filter_result (ServerA.upload dirname)) with ServerA.fileFilter in Hfilter.
    rewrite <- Hpath.
    pose proof (write_find _ _ _ _ _ Hw) as Hfind.
    assert (Hread : Fs.readFileSync uploadDir (Multer.path u) fs1
                    = Return (Multer.buffer (Multer.file_part u))).
    { unfold Fs.readFileSync. rewrite Hfind.
      revert Hw. unfold Fs.writeFile.
      now destruct (Fs.locate uploadDir (Multer.path u)). }
    pose proof (validateImage_throws _ _ _ Hread) as Hval.
    assert (Hsz : (Multer.part_size (Multer.file_part u) <= ceiling)%N).
    { revert Hover. unfold Multer.over_limit, ceiling. cbn. intros Hc.
      apply N.ltb_ge in Hc. exact Hc. }
    rewrite Hval. rewrite Hpath, Hname in Hw, Hval.
    exists (Multer.file_part u). cbn zeta. repeat split; assumption.
  - destruct H as [-> _]. apply find_leq_refl.
  - destruct err as [| | | |code|]; exact H.
Qed.
End UploadA.

(** ** Generated names *)

Section NameFacts.

Lemma exists_char_app (P : ascii -> bool) (a b : string) :
  Js.exists_char P (a ++ b)%string = Js.exists_char P a || Js.exists_char P b.
Proof.
  induction a as [|c a IH]; simpl; [reflexivity|]. now rewrite IH, orb_assoc.
Qed.

Lemma forall_chars_app (P : ascii -> bool) (a b : string) :
  Js.forall_chars P (a ++ b)%string = Js.forall_chars P a && Js.forall_chars P b.
Proof.
  induction a as [|c a IH]; simpl; [reflexivity|]. now rewrite IH, andb_assoc.
Qed.

Lemma uint_digits (d : Decimal.uint) :
  Js.forall_chars Js.is_digit (NilEmpty.string_of_uint d) = true.
Proof. induction d; simpl; auto. Qed.

Lemma number_toString_digits (n : N) :
  Js.forall_chars Js.is_digit (Js.number_toString n) = true.
Proof.
  unfold Js.number_toString, NilZero.string_of_uint.
  destruct (N.to_uint n) eqn:E; try reflexivity;
    rewrite <- E; apply uint_digits.
Qed.

Lemma number_toString_nonempty (n : N) :
  exists c s, Js.number_toString n = String c s /\ Js.is_digit c = true.
Proof.
  pose proof (number_toString_digits n) as H.
  unfold Js.number_toString, NilZero.string_of_uint in *.
  destruct (N.to_uint n); simpl in *; eauto.
Qed.

Lemma digit_not_slash (c : ascii) : Js.is_digit c = true -> Ascii.eqb "/" c = false.
Proof. destruct c as [[] [] [] [] [] [] [] []]; vm_compute; congruence. Qed.

Lemma digits_no_slash (s : string) :
  Js.forall_chars Js.is_digit s = true -> Js.exists_char (Ascii.eqb "/") s = false.
Proof.
  induction s as [|c s IH]; cbn [Js.exists_char Js.forall_chars]; intros H; [reflexivity|].
  apply andb_true_iff in H as [Hc Hs].
  now rewrite (digit_not_slash _ Hc), (IH Hs).
Qed.

Lemma toLowerCase_slash (s : string) :
  Js.exists_char (Ascii.eqb "/") (Js.toLowerCase s) = Js.exists_char (Ascii.eqb "/") s.
Proof.
  induction s as [|c s IH]; cbn [Js.exists_char Js.toLowerCase]; [reflexivity|].
  rewrite IH. f_equal.
  destruct c as [[] [] [] [] [] [] [] []]; reflexivity.
Qed.

Lemma char_toLowerCase_idempotent (c : ascii) :
  Js.char_toLowerCase (Js.char_toLowerCase c) = Js.char_toLowerCase c.
Proof. destruct c as [[] [] [] [] [] [] [] []]; reflexivity. Qed.

Lemma toLowerCase_idempotent (s : string) :
  Js.toLowerCase (Js.toLowerCase s) = Js.toLowerCase s.
Proof.
  induction s as [|c s IH]; simpl; [reflexivity|].
  now rewrite char_toLowerCase_idempotent, IH.
Qed.

Lemma char_toLowerCase_not_upper (c : ascii) :
  Js.is_upper (Js.char_toLowerCase c) = false.
Proof. destruct c as [[] [] [] [] [] [] [] []]; reflexivity. Qed.

Lemma toLowerCase_no_upper (s : string) :
  Js.exists_char Js.is_upper (Js.toLowerCase s) = false.
Proof.
  induction s as [|c s IH]; cbn [Js.exists_char Js.toLowerCase]; [reflexivity|].
  now rewrite char_toLowerCase_not_upper, IH.
Qed.

Lemma split_segments (sep : ascii) (s seg : string) :
  In seg (Js.split sep s) -> Js.exists_char (Ascii.eqb sep) seg = false.
Proof.
  revert seg. induction s as [|c s IH]; intros seg; cbn [Js.split].
  - intros [<-|[]]. reflexivity.
  - destruct (Ascii.eqb c sep) eqn:E.
    + intros [<-|H]; [reflexivity|now apply IH].
    + destruct (Js.split sep s) as [|seg0 segs].
      * intros [<-|[]]. cbn. now rewrite Ascii.eqb_sym, E.
      * intros [<-|H].
        -- cbn [Js.exists_char]. rewrite (Ascii.eqb_sym sep c), E. apply IH. now left.
        -- apply IH. now right.
Qed.

Lemma last_component_no_slash (p : string) :
  Js.exists_char (Ascii.eqb "/") (Path.last_component p) = false.
Proof.
  unfold Path.last_component.
  set (l := filter _ _).
  assert (Hl : forall seg, In seg l -> Js.exists_char (Ascii.eqb "/") seg = false).
  { intros seg H. apply filter_In in H as [H _]. eapply split_segments; eassumption. }
  clearbody l. induction l as [|a l IH]; [reflexivity|].
  destruct l as [|b l]; [apply Hl; now left|].
  change (last (a :: b :: l) "") with (last (b :: l) "").
  apply IH. intros seg H. apply Hl. now right.
Qed.

Lemma last_dot_app (s pre ext : string) :
  Path.last_dot s = Some (pre, ext) -> s = (pre ++ ext)%string.
Proof.
  revert pre ext. induction s as [|c s IH]; intros pre ext; cbn [Path.last_dot]; [discriminate|].
  destruct (Path.last_dot s) as [[pre' ext']|].
  - intros [= <- <-]. simpl. f_equal. now apply IH.
  - destruct (Ascii.eqb c "."); [|discriminate]. now intros [= <- <-].
Qed.

Lemma extname_no_slash (p : string) :
  Js.exists_char (Ascii.eqb "/") (Path.extname p) = false.
Proof.
  unfold Path.extname. pose proof (last_component_no_slash p) as H.
  destruct (Path.last_dot (Path.last_component p)) as [[pre ext]|] eqn:E; [|reflexivity].
  destruct (_ || _); [reflexivity|].
  apply last_dot_app in E. rewrite E, exists_char_app in H.
  now apply orb_false_iff in H as [_ H].
Qed.

(** A name that starts with a number and has no slash is one path segment:
    joined to a directory it names an entry of that directory. *)
Lemma join_numbered (base : Path.path) (n : N) (rest : string) :
  Js.exists_char (Ascii.eqb "/") rest = false ->
  Path.join base (Js.number_toString n ++ rest)%string
  = base ++ [(Js.number_toString n ++ rest)%string].
Proof.
  intros Hrest.
  destruct (number_toString_nonempty n) as (c & s & E & Hc).
  pose proof (digits_no_slash _ (number_toString_digits n)) as Hn.
  unfold Path.join. rewrite split_no_sep by (now rewrite exists_char_app, Hn, Hrest).
  rewrite E. cbn [fold_left String.append]. unfold Path.join_step.
  assert (Hd : forall t, String.eqb (String c t) "." = false
                         /\ String.eqb (String c t) ".." = false
                         /\ String.eqb (String c t) "" = false).
  { intros t. clear -Hc. cbn [String.eqb].
    destruct c as [[] [] [] [] [] [] [] []]; try discriminate Hc; repeat split. }
  destruct (Hd (s ++ rest)%string) as (-> & -> & ->). reflexivity.
Qed.

End NameFacts.

Lemma string_app_assoc (a b c : string) : ((a ++ b) ++ c = a ++ (b ++ c))%string.
Proof. induction a as [|x a IH]; simpl; [reflexivity|now rewrite IH]. Qed.

Lemma write_entry (dir : Path.path) (name : string) (f : Fs.file) (fs : Fs.t) :
  Fs.writeFile dir (dir ++ [name]) f fs =
  Return {| Fs.store := Fs.put String.eqb name f (Fs.store fs);
            Fs.elsewhere := Fs.elsewhere fs |}.
Proof. unfold Fs.writeFile. now rewrite locate_entry. Qed.

Lemma find_entry (dir : Path.path) (name : string) (fs : Fs.t) :
  Fs.find dir (dir ++ [name]) fs = Fs.lookup String.eqb name (Fs.store fs).
Proof. unfold Fs.find. now rewrite locate_entry. Qed.

(** The names the two programs of src/server.js generate. *)
Lemma unique_name_entry (base : Path.path) (now random : N) (extension : string) :
  Js.exists_char (Ascii.eqb "/") extension = false ->
  Path.join base (Js.number_toString now ++ "-" ++ Js.number_toString random
                  ++ Js.toLowerCase extension)%string
  = base ++ [(Js.number_toString now ++ "-" ++ Js.number_toString random
              ++ Js.toLowerCase extension)%string].
Proof.
  intros H. apply join_numbered.
  change ("-" ++ ?x)%string with (String "-" x).
  cbn [Js.exists_char].
  rewrite exists_char_app, toLowerCase_slash, H.
  now rewrite (digits_no_slash _ (number_toString_digits random)).
Qed.

Lemma unique_name_assoc (a b c : string) :
  ((a ++ "-" ++ b) ++ c = a ++ "-" ++ b ++ c)%string.
Proof. now rewrite string_app_assoc. Qed.

Section UploadB.
Variable dirname : Path.path.
Let uploadDir := ServerB.uploadDir dirname.

(** What [POST /upload] of the second program comes to. *)
Lemma postB_spec (e : Multer.env) (parts : list Multer.part) (fs : Fs.t) :
  let '(r, fs') := ServerB.post_upload dirname e parts fs in
  match r with
  | ServerB.Created name size url mimetype =>
      exists p,
        parts = [p] /\
        Multer.fieldname p = "image" /\
        ServerB.fileFilter p = Return true /\
        (Multer.part_size p <= ceiling)%N /\
        name = ServerB.storage_filename e p /\
        size = Multer.part_size p /\
        url = ("/uploads/" ++ name)%string /\
        mimetype = Multer.mimetype p /\
        Fs.writeFile uploadDir (Path.join uploadDir name)
          {| Fs.mtimeMs := Multer.clock e; Fs.data := Multer.buffer p |} fs = Return fs'
  | _ => Fs.leq uploadDir fs' fs
  end.
Proof.
  unfold ServerB.post_upload.
  pose proof (single_outcome uploadDir (ServerB.upload dirname) "image" e parts fs) as H.
  fold uploadDir.
  destruct (Multer.single uploadDir (ServerB.upload dirname) "image" e parts fs)
    as [[[u|]|err] fs1].
  - cbn zeta in H. destruct H as (Hparts & Hfield & Hfilter & Hover & Hname & Hpath & Hsize & Hw).
    change (Multer.destination (ServerB.upload dirname)) with uploadDir in Hpath.
    change (Multer.storage_filename (ServerB.upload dirname)) with ServerB.storage_filename in Hname.
    change (Multer.filter_result (ServerB.upload dirname)) with ServerB.fileFilter in Hfilter.
    assert (Hsz : (Multer.part_size (Multer.file_part u) <= ceiling)%N).
    { revert Hover. unfold Multer.over_limit, ceiling. cbn. intros Hc.
      apply N.ltb_ge in Hc. exact Hc. }
    rewrite Hpath in Hw.
    exists (Multer.file_part u). repeat split; assumption.
  - destruct H as [-> _]. apply find_leq_refl.
  - destruct err as [| | | |[]|]; exact H.
Qed.
End UploadB.

Section UploadC.
Variable dirname : Path.path.
Let uploadDir := Part000.uploadDir dirname.

(** What [POST /upload] of part_000 comes to. *)
Lemma postC_spec (e : Multer.env) (parts : list Multer.part) (fs : Fs.t) :
  let '(r, fs') := Part000.post_upload dirname e parts fs in
  match r with
  | Part000.Uploaded url =>
      exists p,
        parts = [p] /\
        Multer.fieldname p = "image" /\
        url = ("/uploads/" ++ Part000.storage_filename e p)%string /\
        Fs.writeFile uploadDir (Path.join uploadDir (Part000.storage_filename e p))
          {| Fs.mtimeMs := Multer.clock e; Fs.data := Multer.buffer p |} fs = Return fs'
  | _ => Fs.leq uploadDir fs' fs
  end.
Proof.
  unfold Part000.post_upload.
  pose proof (single_outcome uploadDir (Part000.upload dirname) "image" e parts fs) as H.
  fold uploadDir.
  destruct (Multer.single uploadDir (Part000.upload dirname) "image" e parts fs)
    as [[[u|]|err] fs1].
  - cbn zeta in H. destruct H as (Hparts & Hfield & Hfilter & Hover & Hname & Hpath & Hsize & Hw).
    change (Multer.destination (Part000.upload dirname)) with uploadDir in Hpath.
    change (Multer.storage_filename (Part000.upload dirname)) with Part000.storage_filename in Hname.
    rewrite Hpath, Hname in Hw. rewrite Hname.
    exists (Multer.file_part u). repeat split; assumption.
  - destruct H as [-> _]. apply find_leq_refl.
  - exact H.
Qed.

(** part_000 takes any single file sent in the field [image]. *)
Lemma postC_accepts (e : Multer.env) (p : Multer.part) (fs : Fs.t) :
  Multer.fieldname p = "image" ->
  Part000.post_upload dirname e [p] fs =
    (Part000.Uploaded ("/uploads/" ++ Part000.storage_filename e p)%string,
     {| Fs.store := Fs.put String.eqb (Part000.storage_filename e p)
                      {| Fs.mtimeMs := Multer.clock e; Fs.data := Multer.buffer p |}
                      (Fs.store fs);
        Fs.elsewhere := Fs.elsewhere fs |}).
Proof.
  intros Hf. unfold Part000.post_upload, Multer.single.
  cbn [Multer.run Part000.upload Multer.limit_files Multer.filter_result Multer.fileFilter
       Multer.destination Multer.storage_filename Multer.written Multer.over_limit
       Multer.limit_fileSize].
  rewrite Hf. cbn [String.eqb Ascii.eqb Bool.eqb negb orb N.eqb].
  unfold Part000.storage_filename at 1 2.
  rewrite join_numbered by apply extname_no_slash.
  fold (Part000.storage_filename e p).
  rewrite write_entry. reflexivity.
Qed.
End UploadC.

(** ** The type filters *)

Section RegexFacts.

Lemma startsWith_spec (p s : string) :
  Js.startsWith p s = true <-> exists post, s = (p ++ post)%string.
Proof.
  revert s. induction p as [|a p IH]; intros s; simpl.
  - split; [now exists s|reflexivity].
  - destruct s as [|b s].
    + split; [discriminate|]. now intros [post [=]].
    + rewrite andb_true_iff, Ascii.eqb_eq, IH. split.
      * intros [-> [post ->]]. now exists post.
      * intros [post [= -> ->]]. split; [reflexivity|now exists post].
Qed.

Lemma includes_spec (w s : string) : Js.includes w s = true <-> occurs w s.
Proof.
  unfold occurs. induction s as [|c s IH].
  - cbn [Js.includes]. rewrite orb_false_r, startsWith_spec. split.
    + intros [post ->]. now exists ""%string, post.
    + intros [[|c pre] [post H]]; [now exists post|discriminate].
  - cbn [Js.includes]. rewrite orb_true_iff, startsWith_spec, IH. split.
    + intros [[post ->]|[pre [post ->]]].
      * now exists ""%string, post.
      * now exists (String c pre), post.
    + intros [[|c' pre] [post H]].
      * left. now exists post.
      * right. injection H as -> ->. now exists pre, post.
Qed.

Lemma filetypes_test_spec (s : string) :
  Regex.filetypes_test s = true <-> names_word Regex.filetypes_words s.
Proof.
  unfold Regex.filetypes_test, names_word. rewrite existsb_exists.
  split; intros [w [Hw H]]; exists w; (split; [exact Hw|]); now apply includes_spec.
Qed.

Lemma filetypes_webp_i_test_spec (s : string) :
  Regex.filetypes_webp_i_test s = true
  <-> names_word (Regex.filetypes_words ++ ["webp"%string]) (Js.fold_case s).
Proof.
  unfold Regex.filetypes_webp_i_test, names_word. rewrite existsb_exists.
  split; intros [w [Hw H]]; exists w; (split; [exact Hw|]); now apply includes_spec.
Qed.

Lemma fold_case_app (a b : string) :
  Js.fold_case (a ++ b)%string = (Js.fold_case a ++ Js.fold_case b)%string.
Proof. induction a as [|c a IH]; simpl; [reflexivity|now rewrite IH]. Qed.

Lemma filterA_true (p : Multer.part) :
  ServerA.fileFilter p = Return true <->
  Regex.filetypes_webp_i_test (Multer.mimetype p) = true /\
  Regex.filetypes_webp_i_test (Path.extname (Multer.originalname p)) = true.
Proof.
  unfold ServerA.fileFilter. cbn zeta.
  destruct (Regex.filetypes_webp_i_test (Multer.mimetype p));
    destruct (Regex.filetypes_webp_i_test (Path.extname (Multer.originalname p)));
    cbn; split; try easy; now intros [? ?].
Qed.

Lemma filterB_true (p : Multer.part) :
  ServerB.fileFilter p = Return true <->
  Regex.filetypes_test (Multer.mimetype p) = true /\
  Regex.filetypes_test (Js.toLowerCase (Path.extname (Multer.originalname p))) = true.
Proof.
  unfold ServerB.fileFilter. cbn zeta.
  destruct (Regex.filetypes_test (Multer.mimetype p));
    destruct (Regex.filetypes_test (Js.toLowerCase (Path.extname (Multer.originalname p))));
    cbn; split; try easy; now intros [? ?].
Qed.

End RegexFacts.

(** ** The upload endpoints, case by case *)

Lemma unlink_written (dir : Path.path) (name : string) (f : Fs.file) (fs : Fs.t) :
  Fs.unlinkSync dir (dir ++ [name])
    {| Fs.store := Fs.put String.eqb name f (Fs.store fs); Fs.elsewhere := Fs.elsewhere fs |}
  = Return (minus name fs).
Proof.
  unfold Fs.unlinkSync. rewrite locate_entry. cbn [Fs.store Fs.elsewhere].
  rewrite lookup_put by apply String.eqb_eq.
  unfold minus. now rewrite remove_put by apply String.eqb_eq.
Qed.

Lemma nameB_entry (base : Path.path) (e : Multer.env) (p : Multer.part) :
  Path.join base (ServerB.storage_filename e p) = base ++ [ServerB.storage_filename e p].
Proof.
  unfold ServerB.storage_filename. cbn zeta. rewrite unique_name_assoc.
  apply unique_name_entry, extname_no_slash.
Qed.

Lemma nameA_entry (base : Path.path) (e : Multer.env) (p : Multer.part) :
  Path.join base (ServerA.storage_filename e p) = base ++ [ServerA.storage_filename e p].
Proof.
  unfold ServerA.storage_filename. cbn zeta. rewrite unique_name_assoc.
  apply unique_name_entry, extname_no_slash.
Qed.

Lemma nameC_entry (base : Path.path) (e : Multer.env) (p : Multer.part) :
  Path.join base (Part000.storage_filename e p) = base ++ [Part000.storage_filename e p].
Proof.
  unfold Part000.storage_filename. apply join_numbered, extname_no_slash.
Qed.

Section UploadTables.
Variable dirname : Path.path.

(** [POST /upload] of the second program, case by case: no file, a
    file in another field, a file the type filter refuses (answered 500,
    the filter's error being none of Multer's), a file over the ceiling
    (answered 400, 'File too large'), one file too many, and the accepted
    file, stored with the bytes sent under the generated name. A refusal of
    the field or of the type leaves the file system as it was; the other
    refusals leave it without an entry of the generated name. *)
Lemma postB_cases (e : Multer.env) (parts : list Multer.part) (fs : Fs.t) :
  ServerB.post_upload dirname e parts fs =
  match parts with
  | [] => (ServerB.NoFileUploaded, fs)
  | p :: rest =>
      let name := ServerB.storage_filename e p in
      if negb (String.eqb (Multer.fieldname p) "image")
      then (ServerB.MulterFailure LIMIT_UNEXPECTED_FILE, fs)
      else if negb (Regex.filetypes_test (Multer.mimetype p)
                    && Regex.filetypes_test
                         (Js.toLowerCase (Path.extname (Multer.originalname p))))
      then (ServerB.InternalServerError, fs)
      else if (ceiling <? Multer.part_size p)%N
      then (ServerB.FileTooLarge, minus name fs)
      else
        match rest with
        | _ :: _ => (ServerB.MulterFailure LIMIT_FILE_COUNT, minus name fs)
        | [] =>
            (ServerB.Created name (Multer.part_size p) ("/uploads/" ++ name)%string
               (Multer.mimetype p),
             {| Fs.store := Fs.put String.eqb name
                              {| Fs.mtimeMs := Multer.clock e; Fs.data := Multer.buffer p |}
                              (Fs.store fs);
                Fs.elsewhere := Fs.elsewhere fs |})
        end
  end.
Proof.
  destruct parts as [|p rest]; [reflexivity|].
  unfold ServerB.post_upload, Multer.single.
  cbn [Multer.run ServerB.upload Multer.limit_files Multer.filter_result Multer.fileFilter
       Multer.destination Multer.storage_filename N.leb N.compare].
  cbn zeta.
  destruct (String.eqb (Multer.fieldname p) "image"); cbn [negb orb N.eqb]; [|reflexivity].
  unfold ServerB.fileFilter at 1. cbn zeta.
  destruct (Regex.filetypes_test (Multer.mimetype p)
            && Regex.filetypes_test (Js.toLowerCase (Path.extname (Multer.originalname p))));
    cbn [negb]; [|reflexivity].
  rewrite nameB_entry, write_entry.
  unfold Multer.over_limit, Multer.written.
  cbn [Multer.limit_fileSize ServerB.upload]. fold ceiling.
  destruct (ceiling <? Multer.part_size p)%N.
  - cbn [app Multer.remove_uploaded fold_left]. now rewrite unlink_written.
  - destruct rest as [|q rest]; [reflexivity|].
    cbn [Multer.run Multer.limit_files ServerB.upload Multer.path Multer.remove_uploaded fold_left].
    change (1 <=? 0 + 1)%N with true. cbn iota.
    now rewrite unlink_written.
Qed.

(** [POST /upload] of the first program, case by case: as in the
    second program up to the answers (a redirect to the dashboard for the
    errors of Multer and of the type filter), and then [validateImage],
    which throws on the file Multer has stored: the answer is the 400 of
    the handler's [catch], and the file stays. *)
Lemma postA_cases (fromBuffer : list byte -> option file_type)
    (e : Multer.env) (parts : list Multer.part) (fs : Fs.t) :
  ServerA.post_upload dirname fromBuffer e parts fs =
  match parts with
  | [] => (ServerA.NoFileUploaded, fs)
  | p :: rest =>
      let name := ServerA.storage_filename e p in
      if negb (String.eqb (Multer.fieldname p) "image")
      then (ServerA.RedirectMulterError LIMIT_UNEXPECTED_FILE, fs)
      else if negb (Regex.filetypes_webp_i_test (Multer.mimetype p)
                    && Regex.filetypes_webp_i_test (Path.extname (Multer.originalname p)))
      then (ServerA.RedirectServerError, fs)
      else if (ceiling <? Multer.part_size p)%N
      then (ServerA.RedirectMulterError LIMIT_FILE_SIZE, minus name fs)
      else
        match rest with
        | _ :: _ => (ServerA.RedirectMulterError LIMIT_FILE_COUNT, minus name fs)
        | [] =>
            (ServerA.Rejected (PropertyOfUndefined "startsWith") ServerA.allowedTypes,
             {| Fs.store := Fs.put String.eqb name
                              {| Fs.mtimeMs := Multer.clock e; Fs.data := Multer.buffer p |}
                              (Fs.store fs);
                Fs.elsewhere := Fs.elsewhere fs |})
        end
  end.
Proof.
  destruct parts as [|p rest]; [reflexivity|].
  unfold ServerA.post_upload, Multer.single.
  cbn [Multer.run ServerA.upload Multer.limit_files Multer.filter_result Multer.fileFilter
       Multer.destination Multer.storage_filename N.leb N.compare].
  cbn zeta.
  destruct (String.eqb (Multer.fieldname p) "image"); cbn [negb orb N.eqb]; [|reflexivity].
  unfold ServerA.fileFilter at 1. cbn zeta.
  destruct (Regex.filetypes_webp_i_test (Multer.mimetype p)
            && Regex.filetypes_webp_i_test (Path.extname (Multer.originalname p)));
    cbn [negb]; [|reflexivity].
  rewrite nameA_entry, write_entry.
  unfold Multer.over_limit, Multer.written.
  cbn [Multer.limit_fileSize ServerA.upload]. fold ceiling.
  destruct (ceiling <? Multer.part_size p)%N.
  - cbn [app Multer.remove_uploaded fold_left]. now rewrite unlink_written.
  - destruct rest as [|q rest].
    + cbn [Multer.run Multer.filename]. rewrite nameA_entry.
      unfold ServerA.validateImage, Fs.readFileSync, Fs.find.
      rewrite locate_entry. cbn [Fs.store].
      rewrite lookup_put by apply String.eqb_eq. reflexivity.
    + cbn [Multer.run Multer.limit_files ServerA.upload Multer.path Multer.remove_uploaded
           fold_left].
      change (1 <=? 0 + 1)%N with true. cbn iota.
      now rewrite unlink_written.
Qed.

(** [POST /upload] of part_000, case by case: it takes any single file
    sent in the field [image], whatever its type and size, and writes it
    over what the directory holds under the generated name; a file in
    another field, or a second file, goes to the default error handler. *)
Lemma postC_cases (e : Multer.env) (parts : list Multer.part) (fs : Fs.t) :
  Part000.post_upload dirname e parts fs =
  match parts with
  | [] => (Part000.NoFileUploaded, fs)
  | p :: rest =>
      let name := Part000.storage_filename e p in
      if negb (String.eqb (Multer.fieldname p) "image")
      then (Part000.Unhandled (MulterError LIMIT_UNEXPECTED_FILE), fs)
      else
        match rest with
        | _ :: _ => (Part000.Unhandled (MulterError LIMIT_UNEXPECTED_FILE), minus name fs)
        | [] =>
            (Part000.Uploaded ("/uploads/" ++ name)%string,
             {| Fs.store := Fs.put String.eqb name
                              {| Fs.mtimeMs := Multer.clock e; Fs.data := Multer.buffer p |}
                              (Fs.store fs);
                Fs.elsewhere := Fs.elsewhere fs |})
        end
  end.
Proof.
  destruct parts as [|p rest]; [reflexivity|].
  unfold Part000.post_upload, Multer.single.
  cbn [Multer.run Part000.upload Multer.limit_files Multer.filter_result Multer.fileFilter
       Multer.destination Multer.storage_filename Multer.written Multer.over_limit
       Multer.limit_fileSize].
  cbn zeta.
  destruct (String.eqb (Multer.fieldname p) "image"); cbn [negb orb N.eqb]; [|reflexivity].
  rewrite nameC_entry, write_entry.
  destruct rest as [|q rest]; [reflexivity|].
  cbn [Multer.run Multer.limit_files Part000.upload Multer.path Multer.remove_uploaded fold_left].
  change (1 - 1 =? 0)%N with true. rewrite orb_true_r.
  now rewrite unlink_written.
Qed.
End UploadTables.

(** ** Claims about the upload endpoints *)

(** C3 does not hold of the first program, by a slip in [validateImage]. It
    is written to remove the file and then throw, and does not get there:
    it takes the Promise of [fileType.fromBuffer] for the detected type, and
    [type.mime.startsWith] throws before [fs.unlinkSync] is reached. So a
    single file in the field [image] that passes the filter and is below
    the ceiling, whatever its bytes are, is answered with the 400 of the
    handler's [catch], and is in the directory afterwards, under the
    generated name, with the bytes that were sent. The refusals that come
    before (of the filter and of Multer) leave no file, as the claim says. *)
Theorem C3_rejected_upload_is_left_behind
    (dirname : Path.path) (fromBuffer : list byte -> option file_type)
    (e : Multer.env) (p : Multer.part) (fs : Fs.t) :
  Multer.fieldname p = "image"%string ->
  ServerA.fileFilter p = Return true ->
  (Multer.part_size p < ceiling)%N ->
  let name := ServerA.storage_filename e p in
  let filePath := Path.join (ServerA.uploadDir dirname) name in
  let written := {| Fs.mtimeMs := Multer.clock e; Fs.data := Multer.buffer p |} in
  let '(r, fs') := ServerA.post_upload dirname fromBuffer e [p] fs in
  r = ServerA.Rejected (PropertyOfUndefined "startsWith") ServerA.allowedTypes /\
  ServerA.accepted r = false /\
  fs' = {| Fs.store := Fs.put String.eqb name written (Fs.store fs);
           Fs.elsewhere := Fs.elsewhere fs |} /\
  Fs.find (ServerA.uploadDir dirname) filePath fs' = Some written /\
  In name (Fs.readdirSync fs') /\
  ServerA.validateImage dirname fromBuffer filePath fs'
    = (Throw (PropertyOfUndefined "startsWith"), fs') /\
  forall parts,
    match fst (ServerA.post_upload dirname fromBuffer e parts fs) with
    | ServerA.Rejected _ _ | ServerA.Created _ _ => True
    | _ => Fs.leq (ServerA.uploadDir dirname)
             (snd (ServerA.post_upload dirname fromBuffer e parts fs)) fs
    end.
Proof.
  intros Hfield Hfilter Hsize. cbn zeta.
  apply filterA_true in Hfilter as [Hm He].
  assert (Hlt : (ceiling <? Multer.part_size p)%N = false) by (apply N.ltb_ge; lia).
  rewrite postA_cases. cbn zeta. rewrite Hfield, Hm, He, Hlt.
  change (String.eqb "image" "image") with true. cbn [negb andb].
  assert (Hfind : Fs.find (ServerA.uploadDir dirname)
                    (Path.join (ServerA.uploadDir dirname) (ServerA.storage_filename e p))
                    {| Fs.store := Fs.put String.eqb (ServerA.storage_filename e p)
                                     {| Fs.mtimeMs := Multer.clock e;
                                        Fs.data := Multer.buffer p |} (Fs.store fs);
                       Fs.elsewhere := Fs.elsewhere fs |}
                  = Some {| Fs.mtimeMs := Multer.clock e; Fs.data := Multer.buffer p |}).
  { rewrite nameA_entry, find_entry. cbn [Fs.store]. apply lookup_put, String.eqb_eq. }
  split; [reflexivity|]. split; [reflexivity|]. split; [reflexivity|].
  split; [exact Hfind|]. split; [|split].
  - unfold Fs.readdirSync. cbn [Fs.store].
    eapply lookup_in_keys; [apply String.eqb_eq|]. apply lookup_put, String.eqb_eq.
  - apply (validateImage_throws dirname fromBuffer _ _ (Multer.buffer p)).
    unfold Fs.readFileSync. rewrite Hfind. rewrite nameA_entry, locate_entry. reflexivity.
  - intros parts. pose proof (postA_spec dirname fromBuffer e parts fs) as H.
    destruct (ServerA.post_upload dirname fromBuffer e parts fs) as [r fs']. cbn [fst snd].
    destruct r; try exact I; exact H.
Qed.

Lemma C3_witness :
  let name := ServerA.storage_filename env0 pdf_part in
  let filePath := Path.join (ServerA.uploadDir srv) name in
  let written := {| Fs.mtimeMs := Multer.clock env0; Fs.data := Multer.buffer pdf_part |} in
  let '(r, fs') := ServerA.post_upload srv Magic.fromBuffer env0 [pdf_part] old_fs in
  r = ServerA.Rejected (PropertyOfUndefined "startsWith") ServerA.allowedTypes /\
  ServerA.accepted r = false /\
  fs' = {| Fs.store := Fs.put String.eqb name written (Fs.store old_fs);
           Fs.elsewhere := Fs.elsewhere old_fs |} /\
  Fs.find (ServerA.uploadDir srv) filePath fs' = Some written /\
  In name (Fs.readdirSync fs') /\
  ServerA.validateImage srv Magic.fromBuffer filePath fs'
    = (Throw (PropertyOfUndefined "startsWith"), fs') /\
  forall parts,
    match fst (ServerA.post_upload srv Magic.fromBuffer env0 parts old_fs) with
    | ServerA.Rejected _ _ | ServerA.Created _ _ => True
    | _ => Fs.leq (ServerA.uploadDir srv)
             (snd (ServerA.post_upload srv Magic.fromBuffer env0 parts old_fs)) old_fs
    end.
Proof.
  apply (C3_rejected_upload_is_left_behind srv Magic.fromBuffer env0 pdf_part old_fs);
    reflexivity.
Defined.

(** The other two programs refuse an upload in Multer only, and a refused
    upload leaves no file. *)
Lemma rejected_upload_B (dirname : Path.path) (e : Multer.env)
    (parts : list Multer.part) (fs : Fs.t) :
  ServerB.accepted (fst (ServerB.post_upload dirname e parts fs)) = false ->
  Fs.leq (ServerB.uploadDir dirname) (snd (ServerB.post_upload dirname e parts fs)) fs.
Proof.
  pose proof (postB_spec dirname e parts fs) as H.
  destruct (ServerB.post_upload dirname e parts fs) as [r fs']. simpl.
  now destruct r.
Qed.

Lemma rejected_upload_part000 (dirname : Path.path) (e : Multer.env)
    (parts : list Multer.part) (fs : Fs.t) :
  Part000.accepted (fst (Part000.post_upload dirname e parts fs)) = false ->
  Fs.leq (Part000.uploadDir dirname) (snd (Part000.post_upload dirname e parts fs)) fs.
Proof.
  pose proof (postC_spec dirname e parts fs) as H.
  destruct (Part000.post_upload dirname e parts fs) as [r fs']. simpl.
  now destruct r.
Qed.

(** C4, as stated, fails on part_000: a file sent as [pic.PNG] is stored
    under a name with no hyphen, no random number, and the extension in the
    case it was sent in. *)
Lemma C4_counterexample :
  ~ (forall (e : Multer.env) (p : Multer.part) (fs fs' : Fs.t) (url : string),
       Part000.post_upload srv e [p] fs = (Part000.Uploaded url, fs') ->
       exists name, url = ("/uploads/" ++ name)%string /\
                    In name (Fs.readdirSync fs') /\
                    follows_pattern (Multer.originalname p) name).
Proof.
  intros H.
  destruct (H env0 png_part empty_fs
              {| Fs.store := [("1700000000000.PNG"%string,
                               {| Fs.mtimeMs := 1700000000005; Fs.data := png_bytes |})];
                 Fs.elsewhere := [] |}
              "/uploads/1700000000000.PNG"%string eq_refl)
    as (name & Hurl & _ & ts & rnd & Hname).
  injection Hurl as <-.
  apply (f_equal (Js.exists_char (Ascii.eqb "-"))) in Hname.
  rewrite exists_char_app in Hname.
  change ("-" ++ ?x)%string with (String "-" x) in Hname.
  cbn [Js.exists_char] in Hname. rewrite Ascii.eqb_refl in Hname.
  rewrite orb_true_r in Hname. vm_compute in Hname. discriminate.
Qed.

(** C4, amended. In both programs of src/server.js the name of an accepted
    upload is the timestamp in decimal, a hyphen, the rounded random number
    in decimal, and the extension of the name the file was sent under, in
    lower case; the file is stored under that name. In part_000 the name is
    the timestamp in decimal followed by the extension as it was sent. *)
Theorem C4_generated_name
    (dirname : Path.path) (fromBuffer : list byte -> option file_type)
    (e : Multer.env) (parts : list Multer.part) (fs : Fs.t) :
  (forall name url fs',
     ServerA.post_upload dirname fromBuffer e parts fs = (ServerA.Created name url, fs') ->
     exists p, parts = [p] /\
       name = (Js.number_toString (Multer.now e) ++ "-" ++ Js.number_toString (Multer.random e)
               ++ Js.toLowerCase (Path.extname (Multer.originalname p)))%string /\
       follows_pattern (Multer.originalname p) name /\
       In name (Fs.readdirSync fs')) /\
  (forall name size url mimetype fs',
     ServerB.post_upload dirname e parts fs = (ServerB.Created name size url mimetype, fs') ->
     exists p, parts = [p] /\
       name = (Js.number_toString (Multer.now e) ++ "-" ++ Js.number_toString (Multer.random e)
               ++ Js.toLowerCase (Path.extname (Multer.originalname p)))%string /\
       follows_pattern (Multer.originalname p) name /\
       In name (Fs.readdirSync fs')) /\
  (forall url fs',
     Part000.post_upload dirname e parts fs = (Part000.Uploaded url, fs') ->
     exists p, parts = [p] /\
       url = ("/uploads/" ++ Js.number_toString (Multer.now e)
              ++ Path.extname (Multer.originalname p))%string /\
       In (Js.number_toString (Multer.now e) ++ Path.extname (Multer.originalname p))%string
          (Fs.readdirSync fs')) /\
  Js.forall_chars Js.is_digit (Js.number_toString (Multer.now e)) = true /\
  Js.forall_chars Js.is_digit (Js.number_toString (Multer.random e)) = true /\
  (forall original, Js.exists_char Js.is_upper (Js.toLowerCase (Path.extname original)) = false).
Proof.
  assert (Hpat : forall original,
            follows_pattern original
              (Js.number_toString (Multer.now e) ++ "-" ++ Js.number_toString (Multer.random e)
               ++ Js.toLowerCase (Path.extname original))%string).
  { intros original. now exists (Multer.now e), (Multer.random e). }
  repeat split.
  - intros name url fs' Hrun.
    pose proof (postA_spec dirname fromBuffer e parts fs) as H. rewrite Hrun in H.
    destruct H.
  - intros name size url mimetype fs' Hrun.
    pose proof (postB_spec dirname e parts fs) as H. rewrite Hrun in H.
    destruct H as (p & Hp & _ & _ & _ & Hname & _ & _ & _ & Hw).
    exists p. unfold ServerB.storage_filename in Hname. cbn zeta in Hname.
    rewrite unique_name_assoc in Hname. subst name. repeat split; try assumption.
    + apply Hpat.
    + revert Hw. rewrite unique_name_entry by apply extname_no_slash.
      rewrite write_entry. intros [= <-]. unfold Fs.readdirSync. cbn [Fs.store].
      eapply lookup_in_keys; [apply String.eqb_eq|].
      apply lookup_put, String.eqb_eq.
  - intros url fs' Hrun.
    pose proof (postC_spec dirname e parts fs) as H. rewrite Hrun in H.
    destruct H as (p & Hp & _ & Hurl & Hw).
    exists p. repeat split; try assumption.
    revert Hw. unfold Part000.storage_filename.
    rewrite join_numbered by apply extname_no_slash.
    rewrite write_entry. intros [= <-]. unfold Fs.readdirSync. cbn [Fs.store].
    eapply lookup_in_keys; [apply String.eqb_eq|].
    apply lookup_put, String.eqb_eq.
  - apply number_toString_digits.
  - apply number_toString_digits.
  - intros original. apply toLowerCase_no_upper.
Qed.

Lemma C4_witness :
  (exists p, [png_part] = [p] /\
     "1700000000000-123456789.png"%string
     = (Js.number_toString (Multer.now env0) ++ "-" ++ Js.number_toString (Multer.random env0)
        ++ Js.toLowerCase (Path.extname (Multer.originalname p)))%string /\
     follows_pattern (Multer.originalname p) "1700000000000-123456789.png" /\
     In "1700000000000-123456789.png"%string
        (Fs.readdirSync (snd (ServerB.post_upload srv env0 [png_part] old_fs)))) /\
  (exists p, [png_part] = [p] /\
     "/uploads/1700000000000.PNG"%string
     = ("/uploads/" ++ Js.number_toString (Multer.now env0)
        ++ Path.extname (Multer.originalname p))%string /\
     In (Js.number_toString (Multer.now env0) ++ Path.extname (Multer.originalname p))%string
        (Fs.readdirSync (snd (Part000.post_upload srv env0 [png_part] old_fs)))).
Proof.
  destruct (C4_generated_name srv Magic.fromBuffer env0 [png_part] old_fs)
    as (_ & HB & HC & _).
  split.
  - apply (HB _ 9%N "/uploads/1700000000000-123456789.png"%string "image/png"%string).
    vm_compute. reflexivity.
  - apply HC. vm_compute. reflexivity.
Defined.

(** C5, as stated, fails on part_000, which configures no filter: an HTML
    page declared as [text/html] is accepted although neither its declared
    type nor its extension names an image type. *)
Lemma C5_counterexample :
  ~ (forall (e : Multer.env) (p : Multer.part) (fs : Fs.t),
       Part000.accepted (fst (Part000.post_upload srv e [p] fs)) = true ->
       Regex.filetypes_webp_i_test (Multer.mimetype p) = true /\
       Regex.filetypes_webp_i_test (Path.extname (Multer.originalname p)) = true).
Proof.
  intros H. destruct (H env0 html_part empty_fs eq_refl) as [Hm _].
  vm_compute in Hm. discriminate.
Qed.

(** C5, amended. In both programs of src/server.js an upload is accepted
    only if one of the words of the allow-list pattern occurs somewhere in
    the declared MIME type and one occurs somewhere in the extension of the
    declared file name: [jpg], [jpeg], [png], [gif] or [webp], whatever the
    case of the letters, in the first program; [jpg], [jpeg], [png] or
    [gif] in the MIME type as declared and in the lowercased extension in
    the second. The filters accept exactly then, so a file for which only
    one of the two holds is refused. *)
Theorem C5_both_declared_type_and_extension
    (dirname : Path.path) (fromBuffer : list byte -> option file_type)
    (e : Multer.env) (parts : list Multer.part) (fs : Fs.t) :
  (ServerA.accepted (fst (ServerA.post_upload dirname fromBuffer e parts fs)) = true ->
   exists p, parts = [p] /\
     names_word (Regex.filetypes_words ++ ["webp"%string]) (Js.fold_case (Multer.mimetype p)) /\
     names_word (Regex.filetypes_words ++ ["webp"%string])
       (Js.fold_case (Path.extname (Multer.originalname p)))) /\
  (ServerB.accepted (fst (ServerB.post_upload dirname e parts fs)) = true ->
   exists p, parts = [p] /\
     names_word Regex.filetypes_words (Multer.mimetype p) /\
     names_word Regex.filetypes_words (Js.toLowerCase (Path.extname (Multer.originalname p)))) /\
  (forall p, ServerA.fileFilter p = Return true <->
     names_word (Regex.filetypes_words ++ ["webp"%string]) (Js.fold_case (Multer.mimetype p)) /\
     names_word (Regex.filetypes_words ++ ["webp"%string])
       (Js.fold_case (Path.extname (Multer.originalname p)))) /\
  (forall p, ServerB.fileFilter p = Return true <->
     names_word Regex.filetypes_words (Multer.mimetype p) /\
     names_word Regex.filetypes_words (Js.toLowerCase (Path.extname (Multer.originalname p)))).
Proof.
  assert (HA : forall p, ServerA.fileFilter p = Return true <->
     names_word (Regex.filetypes_words ++ ["webp"%string]) (Js.fold_case (Multer.mimetype p)) /\
     names_word (Regex.filetypes_words ++ ["webp"%string])
       (Js.fold_case (Path.extname (Multer.originalname p)))).
  { intros p. now rewrite filterA_true, !filetypes_webp_i_test_spec. }
  assert (HB : forall p, ServerB.fileFilter p = Return true <->
     names_word Regex.filetypes_words (Multer.mimetype p) /\
     names_word Regex.filetypes_words (Js.toLowerCase (Path.extname (Multer.originalname p)))).
  { intros p. now rewrite filterB_true, !filetypes_test_spec. }
  split; [|split; [|split; assumption]].
  - pose proof (postA_spec dirname fromBuffer e parts fs) as H.
    destruct (ServerA.post_upload dirname fromBuffer e parts fs) as [[] fs'];
      try discriminate.
    intros _. destruct H.
  - pose proof (postB_spec dirname e parts fs) as H.
    destruct (ServerB.post_upload dirname e parts fs) as [[] fs']; try discriminate.
    intros _. destruct H as (p & Hp & _ & Hfilter & _).
    exists p. split; [exact Hp|]. now apply HB.
Qed.

Lemma C5_witness :
  (names_word (Regex.filetypes_words ++ ["webp"%string])
     (Js.fold_case (Multer.mimetype png_part)) /\
   names_word (Regex.filetypes_words ++ ["webp"%string])
     (Js.fold_case (Path.extname (Multer.originalname png_part)))) /\
  (exists p, [png_part] = [p] /\
     names_word Regex.filetypes_words (Multer.mimetype p) /\
     names_word Regex.filetypes_words (Js.toLowerCase (Path.extname (Multer.originalname p)))).
Proof.
  destruct (C5_both_declared_type_and_extension srv Magic.fromBuffer env0 [png_part] old_fs)
    as (_ & HB & HfilterA & _).
  split; [apply HfilterA|apply HB]; vm_compute; reflexivity.
Defined.

(** C6, as stated, fails on part_000, which sets no limits: a file of one
    byte more than 10 MiB is accepted. *)
Lemma C6_counterexample :
  ~ (forall (e : Multer.env) (p : Multer.part) (fs : Fs.t),
       (ceiling < Multer.part_size p)%N ->
       Part000.accepted (fst (Part000.post_upload srv e [p] fs)) = false).
Proof.
  intros H. specialize (H env0 big_part empty_fs).
  rewrite postC_accepts in H by reflexivity.
  assert (Hsize : Multer.part_size big_part = 10485761%N).
  { unfold Multer.part_size, big_part. cbn [Multer.buffer].
    rewrite repeat_length. apply N2Nat.id. }
  rewrite Hsize in H. discriminate H. reflexivity.
Qed.

(** C6, amended. In both programs of src/server.js a request with a file
    of more than 10 * 1024 * 1024 bytes is refused, and in all three
    programs a request that carries more than one file is refused; part_000
    sets no size ceiling. *)
Theorem C6_size_ceiling_and_single_file
    (dirname : Path.path) (fromBuffer : list byte -> option file_type)
    (e : Multer.env) (parts : list Multer.part) (fs : Fs.t) :
  ((exists p, In p parts /\ (ceiling < Multer.part_size p)%N) ->
   ServerA.accepted (fst (ServerA.post_upload dirname fromBuffer e parts fs)) = false /\
   ServerB.accepted (fst (ServerB.post_upload dirname e parts fs)) = false) /\
  ((2 <= List.length parts)%nat ->
   ServerA.accepted (fst (ServerA.post_upload dirname fromBuffer e parts fs)) = false /\
   ServerB.accepted (fst (ServerB.post_upload dirname e parts fs)) = false /\
   Part000.accepted (fst (Part000.post_upload dirname e parts fs)) = false).
Proof.
  assert (HA : (forall p, parts = [p] -> (Multer.part_size p <= ceiling)%N -> False) ->
               ServerA.accepted (fst (ServerA.post_upload dirname fromBuffer e parts fs)) = false).
  { intros Hone. pose proof (postA_spec dirname fromBuffer e parts fs) as H.
    destruct (ServerA.post_upload dirname fromBuffer e parts fs) as [[] fs'];
      try reflexivity.
    destruct H. }
  assert (HB : (forall p, parts = [p] -> (Multer.part_size p <= ceiling)%N -> False) ->
               ServerB.accepted (fst (ServerB.post_upload dirname e parts fs)) = false).
  { intros Hone. pose proof (postB_spec dirname e parts fs) as H.
    destruct (ServerB.post_upload dirname e parts fs) as [[] fs']; try reflexivity.
    destruct H as (p & Hp & _ & _ & Hle & _). destruct (Hone p Hp Hle). }
  split.
  - intros (q & Hin & Hq).
    assert (Hone : forall p, parts = [p] -> (Multer.part_size p <= ceiling)%N -> False).
    { intros p -> Hle. destruct Hin as [<-|[]]. lia. }
    split; [apply HA|apply HB]; exact Hone.
  - intros Hlen.
    assert (Hone : forall p, parts = [p] -> (Multer.part_size p <= ceiling)%N -> False).
    { intros p -> _. simpl in Hlen. lia. }
    split; [apply HA; exact Hone|split; [apply HB; exact Hone|]].
    pose proof (postC_spec dirname e parts fs) as H.
    destruct (Part000.post_upload dirname e parts fs) as [[] fs']; try reflexivity.
    destruct H as (p & -> & _). simpl in Hlen. lia.
Qed.

Lemma big_part_size : Multer.part_size big_part = 10485761%N.
Proof.
  unfold Multer.part_size, big_part. cbn [Multer.buffer].
  rewrite repeat_length. apply N2Nat.id.
Defined.

Lemma C6_witness :
  (ServerA.accepted (fst (ServerA.post_upload srv Magic.fromBuffer env0 [big_part] old_fs)) = false /\
   ServerB.accepted (fst (ServerB.post_upload srv env0 [big_part] old_fs)) = false) /\
  (ServerA.accepted
     (fst (ServerA.post_upload srv Magic.fromBuffer env0 [png_part; png_part] old_fs)) = false /\
   ServerB.accepted (fst (ServerB.post_upload srv env0 [png_part; png_part] old_fs)) = false /\
   Part000.accepted (fst (Part000.post_upload srv env0 [png_part; png_part] old_fs)) = false).
Proof.
  destruct (C6_size_ceiling_and_single_file srv Magic.fromBuffer env0 [big_part] old_fs)
    as [Hbig _].
  destruct (C6_size_ceiling_and_single_file srv Magic.fromBuffer env0 [png_part; png_part] old_fs)
    as [_ Htwo].
  split.
  - apply Hbig. exists big_part. split; [left; reflexivity|].
    rewrite big_part_size. reflexivity.
  - apply Htwo. apply le_n.
Defined.

(** C8, as stated, fails on the second program, which has no content check:
    a PDF document sent under the name [paper.png] and declared as
    [image/png] passes the filter and is accepted, and what is stored are
    the bytes of the document, which sniff as [application/pdf]. *)
Lemma C8_counterexample :
  ~ (forall (e : Multer.env) (parts : list Multer.part) (fs fs' : Fs.t)
            (name : string) (size : N) (url mimetype : string),
       ServerB.post_upload srv e parts fs = (ServerB.Created name size url mimetype, fs') ->
       forall f, Fs.lookup String.eqb name (Fs.store fs') = Some f ->
       exists t, Magic.fromBuffer (Fs.data f) = Some t /\ In (mime t) ServerA.allowedTypes).
Proof.
  intros H.
  destruct (H env0 [pdf_part] empty_fs
              {| Fs.store := [("1700000000000-123456789.png"%string,
                               {| Fs.mtimeMs := 1700000000005; Fs.data := pdf_bytes |})];
                 Fs.elsewhere := [] |}
              "1700000000000-123456789.png"%string 6%N
              "/uploads/1700000000000-123456789.png"%string "image/png"%string eq_refl
              {| Fs.mtimeMs := 1700000000005; Fs.data := pdf_bytes |} eq_refl)
    as (t & Ht & Hin).
  vm_compute in Ht. injection Ht as <-.
  simpl in Hin. repeat (destruct Hin as [Hin|Hin]; [discriminate|]). exact Hin.
Qed.

(** C8, amended. The second program and part_000 examine no bytes. Every
    upload they accept is stored under the generated name with the bytes
    that were sent; and a file that is accepted is accepted with any other
    bytes in their place (in the second program: of less than 10 MiB), and
    stored with those. The content check of the first program is not
    spoken of here. *)
Theorem C8_accepted_content_is_unchecked
    (dirname : Path.path) (e : Multer.env) (p : Multer.part) (bytes : list byte) (fs : Fs.t) :
  (forall parts,
     ServerB.accepted (fst (ServerB.post_upload dirname e parts fs)) = true ->
     exists q, parts = [q] /\
       Fs.find (ServerB.uploadDir dirname)
         (Path.join (ServerB.uploadDir dirname) (ServerB.storage_filename e q))
         (snd (ServerB.post_upload dirname e parts fs))
       = Some {| Fs.mtimeMs := Multer.clock e; Fs.data := Multer.buffer q |}) /\
  (forall parts,
     Part000.accepted (fst (Part000.post_upload dirname e parts fs)) = true ->
     exists q, parts = [q] /\
       Fs.find (Part000.uploadDir dirname)
         (Path.join (Part000.uploadDir dirname) (Part000.storage_filename e q))
         (snd (Part000.post_upload dirname e parts fs))
       = Some {| Fs.mtimeMs := Multer.clock e; Fs.data := Multer.buffer q |}) /\
  (ServerB.accepted (fst (ServerB.post_upload dirname e [p] fs)) = true ->
   (N.of_nat (List.length bytes) < ceiling)%N ->
   ServerB.accepted (fst (ServerB.post_upload dirname e [with_buffer p bytes] fs)) = true /\
   Fs.find (ServerB.uploadDir dirname)
     (Path.join (ServerB.uploadDir dirname) (ServerB.storage_filename e p))
     (snd (ServerB.post_upload dirname e [with_buffer p bytes] fs))
   = Some {| Fs.mtimeMs := Multer.clock e; Fs.data := bytes |}) /\
  (Part000.accepted (fst (Part000.post_upload dirname e [p] fs)) = true ->
   Part000.accepted (fst (Part000.post_upload dirname e [with_buffer p bytes] fs)) = true /\
   Fs.find (Part000.uploadDir dirname)
     (Path.join (Part000.uploadDir dirname) (Part000.storage_filename e p))
     (snd (Part000.post_upload dirname e [with_buffer p bytes] fs))
   = Some {| Fs.mtimeMs := Multer.clock e; Fs.data := bytes |}).
Proof.
  assert (HfindB : forall q f,
            Fs.find (ServerB.uploadDir dirname)
              (Path.join (ServerB.uploadDir dirname) (ServerB.storage_filename e q))
              {| Fs.store := Fs.put String.eqb (ServerB.storage_filename e q) f (Fs.store fs);
                 Fs.elsewhere := Fs.elsewhere fs |} = Some f).
  { intros q f. rewrite nameB_entry, find_entry. apply lookup_put, String.eqb_eq. }
  assert (HfindC : forall q f,
            Fs.find (Part000.uploadDir dirname)
              (Path.join (Part000.uploadDir dirname) (Part000.storage_filename e q))
              {| Fs.store := Fs.put String.eqb (Part000.storage_filename e q) f (Fs.store fs);
                 Fs.elsewhere := Fs.elsewhere fs |} = Some f).
  { intros q f. rewrite nameC_entry, find_entry. apply lookup_put, String.eqb_eq. }
  split; [|split; [|split]].
  - intros parts. rewrite postB_cases.
    destruct parts as [|q [|q' rest]]; cbn zeta; [discriminate| |].
    + destruct (negb (String.eqb _ _)); [discriminate|].
      destruct (negb (_ && _)); [discriminate|].
      destruct (_ <? _)%N; [discriminate|]. intros _. exists q. split; [reflexivity|].
      cbn [snd]. apply HfindB.
    + destruct (negb (String.eqb _ _)); [discriminate|].
      destruct (negb (_ && _)); [discriminate|].
      destruct (_ <? _)%N; discriminate.
  - intros parts. rewrite postC_cases.
    destruct parts as [|q [|q' rest]]; cbn zeta; [discriminate| |].
    + destruct (negb (String.eqb _ _)); [discriminate|]. intros _.
      exists q. split; [reflexivity|]. cbn [snd]. apply HfindC.
    + destruct (negb (String.eqb _ _)); discriminate.
  - rewrite !postB_cases. cbn zeta. cbn [with_buffer Multer.fieldname Multer.mimetype
                                          Multer.originalname].
    destruct (negb (String.eqb _ _)); [discriminate|].
    destruct (negb (_ && _)); [discriminate|].
    destruct (ceiling <? Multer.part_size p)%N; [discriminate|]. intros _ Hlt.
    assert (Hsize : (ceiling <? Multer.part_size (with_buffer p bytes))%N = false).
    { apply N.ltb_ge. unfold Multer.part_size. cbn [with_buffer Multer.buffer]. lia. }
    rewrite Hsize. cbn [fst snd]. split; [reflexivity|].
    change (ServerB.storage_filename e (with_buffer p bytes))
      with (ServerB.storage_filename e p).
    apply HfindB.
  - rewrite !postC_cases. cbn zeta. cbn [with_buffer Multer.fieldname].
    destruct (negb (String.eqb _ _)); [discriminate|]. intros _.
    cbn [fst snd]. split; [reflexivity|].
    change (Part000.storage_filename e (with_buffer p bytes))
      with (Part000.storage_filename e p).
    apply HfindC.
Qed.

Lemma C8_witness :
  (ServerB.accepted (fst (ServerB.post_upload srv env0 [with_buffer png_part pdf_bytes] old_fs))
   = true /\
   Fs.find (ServerB.uploadDir srv)
     (Path.join (ServerB.uploadDir srv) (ServerB.storage_filename env0 png_part))
     (snd (ServerB.post_upload srv env0 [with_buffer png_part pdf_bytes] old_fs))
   = Some {| Fs.mtimeMs := Multer.clock env0; Fs.data := pdf_bytes |}) /\
  (Part000.accepted (fst (Part000.post_upload srv env0 [with_buffer png_part pdf_bytes] old_fs))
   = true /\
   Fs.find (Part000.uploadDir srv)
     (Path.join (Part000.uploadDir srv) (Part000.storage_filename env0 png_part))
     (snd (Part000.post_upload srv env0 [with_buffer png_part pdf_bytes] old_fs))
   = Some {| Fs.mtimeMs := Multer.clock env0; Fs.data := pdf_bytes |}).
Proof.
  destruct (C8_accepted_content_is_unchecked srv env0 png_part pdf_bytes old_fs)
    as (_ & _ & HB & HC).
  split; [apply HB|apply HC]; reflexivity.
Defined.

(** C10. The type filters look for the words of the allow-list anywhere in
    the declared MIME type: whatever stands before and after [png] in it,
    a file named [x.png] passes the filter of either program. So a file
    declared as [application/x-png-fake], which is none of the allowed
    image types, passes both filters. *)
Theorem C10_filter_accepts_foreign_mime_type :
  (forall (pre post field : string) (bytes : list byte),
     let file := {| Multer.fieldname := field; Multer.originalname := "x.png";
                    Multer.mimetype := (pre ++ "png" ++ post)%string;
                    Multer.buffer := bytes |} in
     ServerA.fileFilter file = Return true /\ ServerB.fileFilter file = Return true) /\
  ServerA.fileFilter fake_png_part = Return true /\
  ServerB.fileFilter fake_png_part = Return true /\
  Multer.mimetype fake_png_part = "application/x-png-fake"%string /\
  ~ In (Multer.mimetype fake_png_part) ServerA.allowedTypes.
Proof.
  split; [|repeat split; try reflexivity].
  - intros pre post field bytes file. split.
    + apply filterA_true. split; [|reflexivity].
      apply filetypes_webp_i_test_spec. exists "png"%string. split; [simpl; tauto|].
      cbn [Multer.mimetype file]. rewrite !fold_case_app.
      now exists (Js.fold_case pre), (Js.fold_case post).
    + apply filterB_true. split; [|reflexivity].
      apply filetypes_test_spec. exists "png"%string. split; [simpl; tauto|].
      now exists pre, post.
  - simpl. intros H. repeat (destruct H as [H|H]; [discriminate|]). exact H.
Qed.

(** ** The batch deletion endpoint *)

Section DeleteFacts.
Variable dirname : Path.path.
Let uploadDir := ServerB.uploadDir dirname.

(** Where a name that passes the safe pattern points to: the upload
    directory or its parent for [.] and [..], and else the entry of that
    name. *)
Lemma safe_target (s : string) :
  Regex.safe_name_test s = true ->
  (Fs.locate uploadDir (Path.join uploadDir s) = Fs.Directory /\ (s = "." \/ s = ".."))%string
  \/ (Path.join uploadDir s = uploadDir ++ [s] /\ s <> "."%string /\ s <> ".."%string).
Proof.
  intros Hs. rewrite (join_safe _ _ Hs).
  destruct (String.eqb s ".") eqn:E1.
  - left. apply String.eqb_eq in E1. split; [apply locate_dir|now left].
  - destruct (String.eqb s "..") eqn:E2.
    + left. apply String.eqb_eq in E2. split; [|now right].
      apply locate_ancestor with (r := ["uploads"%string]).
      unfold uploadDir, ServerB.uploadDir. rewrite uploadDir_eq.
      rewrite removelast_app by discriminate. simpl. now rewrite <- app_assoc.
    + right. apply String.eqb_neq in E1, E2. now repeat split.
Qed.

Lemma delete_item_malformed (v : value) (fs : Fs.t) :
  malformed v = true ->
  ServerB.delete_item dirname v fs
  = (fs, [], {| ServerB.filename := v; ServerB.item_status := ServerB.InvalidFilename |}).
Proof.
  unfold malformed, ServerB.delete_item. now intros ->.
Qed.

Lemma stored_file_inv (v : value) (fs : Fs.t) :
  stored_file dirname fs v = true ->
  exists s f, v = Str s /\ Regex.safe_name_test s = true /\
    Path.join uploadDir s = uploadDir ++ [s] /\
    Fs.lookup String.eqb s (Fs.store fs) = Some f.
Proof.
  destruct v as [s|s]; [|discriminate]. cbn [stored_file]. fold uploadDir.
  intros H. apply andb_true_iff in H as [Hs Hf].
  destruct (Fs.find uploadDir (Path.join uploadDir s) fs) as [f|] eqn:Ef; [|discriminate].
  destruct (safe_target s Hs) as [[Hd _]|(Hj & _)].
  - unfold Fs.find in Ef. now rewrite Hd in Ef.
  - rewrite Hj, find_entry in Ef. now exists s, f.
Qed.

Lemma delete_item_stored (v : value) (fs : Fs.t) :
  stored_file dirname fs v = true ->
  exists s, v = Str s /\
    ServerB.delete_item dirname v fs
    = (minus s fs,
       [Fs.ExistsSync (Path.join uploadDir s); Fs.UnlinkSync (Path.join uploadDir s)],
       {| ServerB.filename := v; ServerB.item_status := ServerB.success |}).
Proof.
  intros H. destruct (stored_file_inv _ _ H) as (s & f & -> & Hs & Hj & Hl).
  exists s. split; [reflexivity|].
  unfold ServerB.delete_item. cbn [toString join_value]. rewrite Hs. cbn [negb].
  fold uploadDir. rewrite Hj.
  unfold Fs.existsSync, Fs.unlinkSync, Fs.find. rewrite locate_entry, Hl.
  reflexivity.
Qed.

Lemma delete_item_absent (v : value) (fs : Fs.t) :
  absent_file dirname fs v = true ->
  exists s, v = Str s /\
    ServerB.delete_item dirname v fs
    = (fs, [Fs.ExistsSync (Path.join uploadDir s)],
       {| ServerB.filename := v; ServerB.item_status := ServerB.FileNotFound |}).
Proof.
  destruct v as [s|s]; [|discriminate]. cbn [absent_file]. fold uploadDir.
  intros H. apply andb_true_iff in H as [Hs He]. apply negb_true_iff in He.
  exists s. split; [reflexivity|].
  unfold ServerB.delete_item. cbn [toString join_value]. rewrite Hs. cbn [negb].
  fold uploadDir. now rewrite He.
Qed.

(** The three kinds of items exclude one another. *)
Lemma malformed_not_stored (v : value) (fs : Fs.t) :
  malformed v = true -> stored_file dirname fs v = false.
Proof.
  unfold malformed. destruct v as [s|s]; [|reflexivity]. cbn [toString stored_file].
  intros H. apply negb_true_iff in H. now rewrite H.
Qed.

Lemma absent_not_stored (v : value) (fs : Fs.t) :
  absent_file dirname fs v = true -> stored_file dirname fs v = false.
Proof.
  destruct v as [s|s]; [|reflexivity]. cbn [absent_file stored_file]. fold uploadDir.
  intros H. apply andb_true_iff in H as [Hs He]. apply negb_true_iff in He.
  rewrite Hs. cbn [andb]. revert He. unfold Fs.existsSync, Fs.find.
  destruct (Fs.locate uploadDir (Path.join uploadDir s)); try discriminate;
    now destruct (Fs.lookup _ _ _).
Qed.

Lemma absent_not_malformed (v : value) (fs : Fs.t) :
  absent_file dirname fs v = true -> malformed v = false.
Proof.
  destruct v as [s|s]; [|discriminate]. cbn [absent_file]. unfold malformed. cbn [toString].
  intros H. apply andb_true_iff in H as [-> _]. reflexivity.
Qed.

(** Once the file of [s] is removed, [s] names nothing, and every other
    name stands as before. *)
Lemma stored_after (s : string) (fs : Fs.t) (w : value) :
  Regex.safe_name_test s = true ->
  Path.join uploadDir s = uploadDir ++ [s] ->
  stored_file dirname (minus s fs) w
  = stored_file dirname fs w && (if value_eq_dec (Str s) w then false else true).
Proof.
  intros Hs Hj. destruct w as [t|t]; [|reflexivity].
  cbn [stored_file]. fold uploadDir.
  destruct (Regex.safe_name_test t) eqn:Ht; [|reflexivity]. cbn [andb].
  destruct (safe_target t Ht) as [[Hd Hdot]|(Hjt & _)].
  - unfold Fs.find. rewrite Hd. reflexivity.
  - rewrite Hjt, !find_entry. unfold minus. cbn [Fs.store].
    destruct (value_eq_dec (Str s) (Str t)) as [[= ->]|Hne].
    + rewrite lookup_remove_same. now rewrite andb_false_r.
    + rewrite lookup_remove_other; [now rewrite andb_true_r|apply String.eqb_eq|congruence].
Qed.

Lemma absent_after (s : string) (fs : Fs.t) (w : value) :
  Regex.safe_name_test s = true ->
  Path.join uploadDir s = uploadDir ++ [s] ->
  absent_file dirname (minus s fs) w
  = absent_file dirname fs w || (stored_file dirname fs w
                                 && if value_eq_dec (Str s) w then true else false).
Proof.
  intros Hs Hj. destruct w as [t|t]; [|reflexivity].
  cbn [absent_file stored_file]. fold uploadDir.
  destruct (Regex.safe_name_test t) eqn:Ht; [|reflexivity]. cbn [andb].
  destruct (safe_target t Ht) as [[Hd Hdot]|(Hjt & _)].
  - unfold Fs.existsSync, Fs.find. rewrite Hd. reflexivity.
  - rewrite Hjt. unfold Fs.existsSync. rewrite !find_entry, !locate_entry.
    unfold minus. cbn [Fs.store].
    destruct (value_eq_dec (Str s) (Str t)) as [[= ->]|Hne].
    + rewrite lookup_remove_same.
      now destruct (Fs.lookup String.eqb t (Fs.store fs)).
    + rewrite lookup_remove_other; [|apply String.eqb_eq|congruence].
      now destruct (Fs.lookup String.eqb t (Fs.store fs)).
Qed.
End DeleteFacts.

Section Distinct.
Context {A : Type} (dec : forall a b : A, {a = b} + {a <> b}).

(** The number of distinct elements of a list with [x] in front. *)
Lemma nodup_cons_length (x : A) (l : list A) :
  List.length (nodup dec (x :: l)) = S (List.length (nodup dec (List.remove dec x l))).
Proof.
  change (S (List.length (nodup dec (List.remove dec x l))))
    with (List.length (x :: nodup dec (List.remove dec x l))).
  apply Nat.le_antisymm; apply NoDup_incl_length.
  - apply NoDup_nodup.
  - intros y Hy. apply nodup_In in Hy. destruct (dec x y) as [->|Hne]; [now left|].
    right. apply nodup_In. apply in_in_remove; [congruence|].
    destruct Hy; [congruence|assumption].
  - constructor; [|apply NoDup_nodup].
    rewrite nodup_In. apply remove_In.
  - intros y [<-|Hy]; apply nodup_In; [now left|].
    apply nodup_In, in_remove in Hy. right. tauto.
Qed.

Lemma remove_filter (x : A) (P : A -> bool) (l : list A) :
  List.remove dec x (filter P l)
  = filter (fun y => P y && if dec x y then false else true) l.
Proof.
  induction l as [|a l IH]; simpl; [reflexivity|].
  destruct (P a) eqn:Ea; simpl.
  - destruct (dec x a); simpl; now rewrite IH.
  - exact IH.
Qed.

Lemma nodup_length_pos (l : list A) :
  (1 <= List.length (nodup dec l) <-> 1 <= List.length l)%nat.
Proof.
  destruct l as [|a l]; [simpl; lia|].
  rewrite nodup_cons_length. simpl. lia.
Qed.

Lemma nodup_length_le (l : list A) :
  (List.length (nodup dec l) <= List.length l)%nat.
Proof.
  apply NoDup_incl_length; [apply NoDup_nodup|].
  intros y Hy. now apply nodup_In in Hy.
Qed.
End Distinct.

Section DeleteCounts.
Variable dirname : Path.path.
Let uploadDir := ServerB.uploadDir dirname.

Lemma classified_after (s : string) (fs : Fs.t) (w : value) :
  Regex.safe_name_test s = true ->
  Path.join uploadDir s = uploadDir ++ [s] ->
  classified dirname fs w -> classified dirname (minus s fs) w.
Proof.
  intros Hs Hj. unfold classified.
  rewrite (stored_after dirname s fs w Hs Hj), (absent_after dirname s fs w Hs Hj).
  destruct (stored_file dirname fs w), (malformed w), (absent_file dirname fs w),
    (value_eq_dec (Str s) w); simpl; congruence.
Qed.

(** The outcomes of a batch whose items are stored files, malformed names
    or names of nothing: one success per distinct stored file, one
    invalid-name entry per malformed item, and not-found for the rest. *)
Lemma delete_items_counts (items : list value) :
  forall fs, Forall (classified dirname fs) items ->
  let '(fs', calls, results) := ServerB.delete_items dirname items fs in
  map ServerB.filename results = items /\
  List.length (filter ServerB.is_success results)
    = List.length (nodup value_eq_dec (filter (stored_file dirname fs) items)) /\
  List.length (filter is_invalid_name results) = List.length (filter malformed items) /\
  (List.length (filter is_not_found results)
   + List.length (nodup value_eq_dec (filter (stored_file dirname fs) items))
   + List.length (filter malformed items) = List.length items)%nat.
Proof.
  induction items as [|v items IH]; intros fs Hall; [cbn; auto|].
  inversion Hall as [|? ? Hv Hrest]; subst.
  cbn [ServerB.delete_items].
  unfold classified in Hv.
  destruct (stored_file dirname fs v) eqn:Est.
  - (* a stored file: removed, and later items meet the file system without it *)
    destruct (stored_file_inv dirname _ _ Est) as (s & f & Hveq & Hs & Hj & Hl).
    destruct (delete_item_stored dirname _ _ Est) as (s' & Hveq' & ->).
    rewrite Hveq in Hveq'. injection Hveq' as <-.
    assert (Hall' : Forall (classified dirname (minus s fs)) items).
    { eapply Forall_impl; [|exact Hrest]. intros w. now apply classified_after. }
    specialize (IH _ Hall').
    destruct (ServerB.delete_items dirname items (minus s fs)) as [[fs2 calls2] rs].
    destruct IH as (Hmap & Hsucc & Hinv & Hsum).
    assert (Hfilter : filter (stored_file dirname (minus s fs)) items
                      = List.remove value_eq_dec v (filter (stored_file dirname fs) items)).
    { rewrite remove_filter. apply filter_ext. intros w. rewrite Hveq.
      now apply stored_after. }
    assert (Hmal : malformed v = false).
    { destruct (malformed v) eqn:E; [|reflexivity].
      now rewrite (malformed_not_stored dirname _ fs E) in Est. }
    cbn [filter]. rewrite Est, Hmal.
    cbn [map ServerB.filename filter ServerB.is_success ServerB.item_status
         is_invalid_name is_not_found List.length].
    rewrite nodup_cons_length, <- Hfilter.
    repeat split; [now rewrite Hmap|lia|lia|simpl; lia].
  - destruct (malformed v) eqn:Emal.
    + (* a malformed name: refused, the file system untouched *)
      rewrite (delete_item_malformed dirname _ fs Emal).
      specialize (IH _ Hrest).
      destruct (ServerB.delete_items dirname items fs) as [[fs2 calls2] rs].
      destruct IH as (Hmap & Hsucc & Hinv & Hsum).
      cbn [filter]. rewrite Est, Emal.
      cbn. repeat split; [now rewrite Hmap|lia|simpl; lia|simpl; lia].
    + (* a name of nothing: not found, the file system untouched *)
      cbn [orb] in Hv.
      destruct (delete_item_absent dirname _ _ Hv) as (s & Hveq & ->).
      specialize (IH _ Hrest).
      destruct (ServerB.delete_items dirname items fs) as [[fs2 calls2] rs].
      destruct IH as (Hmap & Hsucc & Hinv & Hsum).
      cbn [filter]. rewrite Est, Emal.
      cbn. repeat split; [now rewrite Hmap|lia|lia|simpl; lia].
Qed.
End DeleteCounts.

(** C2, as stated, fails when a request names a stored file twice: both
    items name an existing stored file, but the second meets the directory
    after the first has removed the file, and is reported not found. *)
Lemma C2_counterexample :
  ~ (forall (items : list value) (fs : Fs.t),
       Forall (classified srv fs) items ->
       List.length (filter ServerB.is_success
                      (details (fst (fst (ServerB.post_delete srv (Some items) fs)))))
       = List.length (filter (stored_file srv fs) items)).
Proof.
  intros H.
  specialize (H [Str "1600000000000-42.png"; Str "1600000000000-42.png"] old_fs).
  assert (Hc : Forall (classified srv old_fs)
                 [Str "1600000000000-42.png"; Str "1600000000000-42.png"]).
  { repeat constructor. }
  specialize (H Hc). vm_compute in H. discriminate.
Qed.

(** C2, amended. For a batch of N items (N at least 1), each a well-formed
    name of a stored file, a malformed name, or a well-formed name of
    nothing that exists, let K be the number of distinct stored files named
    and M the number of malformed items. Every item gets its entry, in
    order: K successes, M invalid-name entries and N - K - M not-found
    entries (a stored file named again is not found the second time). The
    answer is a 200 with the count K, the total N and the entries when K is
    at least 1, and a 400 with the entries when K is 0; and K is at least 1
    exactly when some item names a stored file. *)
Theorem C2_batch_deletion_counts
    (dirname : Path.path) (items : list value) (fs : Fs.t) :
  items <> [] ->
  Forall (classified dirname fs) items ->
  let K := List.length (nodup value_eq_dec (filter (stored_file dirname fs) items)) in
  let M := List.length (filter malformed items) in
  let N := List.length items in
  let '(response, fs', calls) := ServerB.post_delete dirname (Some items) fs in
  map ServerB.filename (details response) = items /\
  List.length (filter ServerB.is_success (details response)) = K /\
  List.length (filter is_invalid_name (details response)) = M /\
  List.length (filter is_not_found (details response)) = (N - K - M)%nat /\
  response = (if (K =? 0)%nat then ServerB.NoFilesDeleted (details response)
              else ServerB.Deleted K N (details response)) /\
  (ServerB.delete_status response = 200%Z <-> (1 <= K)%nat) /\
  (ServerB.delete_status response = 400%Z <-> K = 0%nat) /\
  ((1 <= K)%nat <-> (1 <= List.length (filter (stored_file dirname fs) items))%nat).
Proof.
  intros Hne Hall K M N.
  pose proof (delete_items_counts dirname items fs Hall) as H.
  unfold ServerB.post_delete.
  destruct items as [|v items]; [congruence|].
  change (List.length (v :: items) =? 0)%nat with false. cbn iota.
  destruct (ServerB.delete_items dirname (v :: items) fs) as [[fs' calls] rs].
  destruct H as (Hmap & Hsucc & Hinv & Hsum).
  fold K in Hsucc, Hsum. fold M in Hinv, Hsum. fold N in Hsum.
  rewrite Hsucc.
  assert (Hpos : (1 <= K)%nat <-> (1 <= List.length (filter (stored_file dirname fs) (v :: items)))%nat).
  { apply nodup_length_pos. }
  destruct (K =? 0)%nat eqn:EK.
  - apply Nat.eqb_eq in EK. cbn [details ServerB.delete_status].
    repeat split; try assumption; try lia; try congruence.
  - apply Nat.eqb_neq in EK. cbn [details ServerB.delete_status].
    repeat split; try assumption; try lia; try congruence.
Qed.

Lemma C2_witness :
  let K := List.length (nodup value_eq_dec (filter (stored_file srv old_fs) batch0)) in
  let M := List.length (filter malformed batch0) in
  let N := List.length batch0 in
  let '(response, fs', calls) := ServerB.post_delete srv (Some batch0) old_fs in
  map ServerB.filename (details response) = batch0 /\
  List.length (filter ServerB.is_success (details response)) = K /\
  List.length (filter is_invalid_name (details response)) = M /\
  List.length (filter is_not_found (details response)) = (N - K - M)%nat /\
  response = (if (K =? 0)%nat then ServerB.NoFilesDeleted (details response)
              else ServerB.Deleted K N (details response)) /\
  (ServerB.delete_status response = 200%Z <-> (1 <= K)%nat) /\
  (ServerB.delete_status response = 400%Z <-> K = 0%nat) /\
  ((1 <= K)%nat <-> (1 <= List.length (filter (stored_file srv old_fs) batch0))%nat).
Proof.
  apply (C2_batch_deletion_counts srv batch0 old_fs).
  - discriminate.
  - repeat constructor.
Defined.

Example batch0_run :
  ServerB.post_delete srv (Some batch0) old_fs
  = (ServerB.Deleted 1 4
       [ {| ServerB.filename := Str "1600000000000-42.png";
            ServerB.item_status := ServerB.success |};
         {| ServerB.filename := Str "../etc/passwd";
            ServerB.item_status := ServerB.InvalidFilename |};
         {| ServerB.filename := Str "nope.png";
            ServerB.item_status := ServerB.FileNotFound |};
         {| ServerB.filename := Str "1600000000000-42.png";
            ServerB.item_status := ServerB.FileNotFound |} ],
     empty_fs,
     [ Fs.ExistsSync ["srv"; "app"; "public"; "uploads"; "1600000000000-42.png"];
       Fs.UnlinkSync ["srv"; "app"; "public"; "uploads"; "1600000000000-42.png"];
       Fs.ExistsSync ["srv"; "app"; "public"; "uploads"; "nope.png"];
       Fs.ExistsSync ["srv"; "app"; "public"; "uploads"; "1600000000000-42.png"] ]).
Proof. vm_compute. reflexivity. Qed.

Section DeleteIndex.
Variable dirname : Path.path.
Let uploadDir := ServerB.uploadDir dirname.

Lemma leq_exists (fs1 fs : Fs.t) (p : Path.path) :
  Fs.leq uploadDir fs1 fs ->
  Fs.existsSync uploadDir p fs = false -> Fs.existsSync uploadDir p fs1 = false.
Proof.
  intros Hle. unfold Fs.existsSync.
  destruct (Fs.locate uploadDir p) eqn:El; try discriminate;
    destruct (Fs.find uploadDir p fs1) as [f|] eqn:Ef; try reflexivity;
    now rewrite (Hle _ _ Ef).
Qed.

Lemma delete_item_leq (v : value) (fs : Fs.t) :
  Fs.leq uploadDir (fst (fst (ServerB.delete_item dirname v fs))) fs.
Proof.
  unfold ServerB.delete_item. fold uploadDir.
  destruct (negb _); [apply find_leq_refl|].
  destruct (join_value uploadDir v) as [p|err]; [|apply find_leq_refl].
  destruct (Fs.existsSync uploadDir p fs); [|apply find_leq_refl].
  destruct (Fs.unlinkSync uploadDir p fs) as [fs1|err] eqn:Eu; [|apply find_leq_refl].
  eapply unlink_leq; eassumption.
Qed.

Lemma delete_item_calls (v : value) (fs : Fs.t) (c : Fs.call) :
  In c (snd (fst (ServerB.delete_item dirname v fs))) ->
  exists s, v = Str s /\ Regex.safe_name_test s = true /\
            Fs.call_path c = Path.join uploadDir s.
Proof.
  unfold ServerB.delete_item. fold uploadDir.
  destruct (Regex.safe_name_test (toString v)) eqn:Hs; cbn [negb]; [|intros []].
  destruct v as [s|s]; cbn [join_value toString] in *; [|intros []].
  intros Hin. exists s. split; [reflexivity|]. split; [exact Hs|].
  destruct (Fs.existsSync uploadDir (Path.join uploadDir s) fs).
  - destruct (Fs.unlinkSync uploadDir (Path.join uploadDir s) fs);
      cbn in Hin; destruct Hin as [<-|[<-|[]]]; reflexivity.
  - cbn in Hin. destruct Hin as [<-|[]]. reflexivity.
Qed.

(** The entry of the item at index [i] is what [delete_item] makes of it
    on the file system the earlier items have left, which holds nothing
    that the file system of the request did not hold. *)
Lemma delete_items_nth (items : list value) :
  forall fs i v, nth_error items i = Some v ->
  exists fs_i,
    Fs.leq uploadDir fs_i fs /\
    nth_error (snd (ServerB.delete_items dirname items fs)) i
    = Some (snd (ServerB.delete_item dirname v fs_i)).
Proof.
  induction items as [|a items IH]; intros fs [|i] v H; try discriminate.
  - injection H as ->. exists fs. split; [apply find_leq_refl|].
    cbn [ServerB.delete_items].
    destruct (ServerB.delete_item dirname v fs) as [[fs1 c1] r].
    now destruct (ServerB.delete_items dirname items fs1) as [[fs2 c2] rs].
  - cbn [nth_error] in H. cbn [ServerB.delete_items].
    pose proof (delete_item_leq a fs) as Hle.
    destruct (ServerB.delete_item dirname a fs) as [[fs1 c1] r]. cbn [fst] in Hle.
    destruct (IH fs1 i v H) as (fs_i & Hle_i & Hnth).
    exists fs_i. split; [eapply find_leq_trans; eassumption|].
    now destruct (ServerB.delete_items dirname items fs1) as [[fs2 c2] rs].
Qed.

Lemma delete_items_calls (items : list value) :
  forall fs c, In c (snd (fst (ServerB.delete_items dirname items fs))) ->
  exists s, In (Str s) items /\ Regex.safe_name_test s = true /\
            Fs.call_path c = Path.join uploadDir s.
Proof.
  induction items as [|a items IH]; intros fs c; cbn [ServerB.delete_items]; [intros []|].
  pose proof (delete_item_calls a fs c) as Ha.
  destruct (ServerB.delete_item dirname a fs) as [[fs1 c1] r]. cbn [fst snd] in Ha.
  specialize (IH fs1 c).
  destruct (ServerB.delete_items dirname items fs1) as [[fs2 c2] rs]. cbn [fst snd] in *.
  intros Hin. apply in_app_or in Hin as [Hin|Hin].
  - destruct (Ha Hin) as (s & -> & Hs & Hp). exists s. repeat split; [now left|assumption..].
  - destruct (IH Hin) as (s & Hs_in & Hs & Hp). exists s. repeat split; [now right|assumption..].
Qed.

(** What [POST /delete] answers for a batch that is not empty. *)
Lemma post_delete_details (items : list value) (fs : Fs.t) :
  items <> [] ->
  details (fst (fst (ServerB.post_delete dirname (Some items) fs)))
    = snd (ServerB.delete_items dirname items fs)
  /\ snd (ServerB.post_delete dirname (Some items) fs)
    = snd (fst (ServerB.delete_items dirname items fs))
  /\ snd (fst (ServerB.post_delete dirname (Some items) fs))
    = fst (fst (ServerB.delete_items dirname items fs)).
Proof.
  intros Hne. unfold ServerB.post_delete.
  destruct items as [|v items]; [congruence|].
  change (List.length (v :: items) =? 0)%nat with false. cbn iota.
  destruct (ServerB.delete_items dirname (v :: items) fs) as [[fs' calls] rs].
  now destruct (List.length (filter ServerB.is_success rs) =? 0)%nat.
Qed.

Lemma safe_no_null (s : string) :
  Regex.safe_name_test s = true -> Part000.has_null_byte s = false.
Proof.
  unfold Regex.safe_name_test, Part000.has_null_byte.
  intros H. apply andb_true_iff in H as [_ H].
  induction s as [|c s IH]; cbn [Js.exists_char Js.forall_chars] in *; [reflexivity|].
  apply andb_true_iff in H as [Hc Hs]. rewrite (IH Hs), orb_false_r.
  clear -Hc. destruct c as [[] [] [] [] [] [] [] []]; try discriminate Hc; reflexivity.
Qed.
Lemma endsWith_exists (c : ascii) (s : string) :
  Js.endsWith c s = true -> Js.exists_char (Ascii.eqb c) s = true.
Proof.
  induction s as [|a s IH]; [discriminate|].
  cbn [Js.endsWith Js.exists_char]. destruct s as [|b s].
  - intros H. now rewrite Ascii.eqb_sym, H.
  - intros H. rewrite (IH H). apply orb_true_r.
Qed.

Lemma safe_no_trailing_slash (s : string) :
  Regex.safe_name_test s = true -> Js.endsWith "/" s = false.
Proof.
  unfold Regex.safe_name_test. intros H. apply andb_true_iff in H as [_ H].
  apply safe_chars_no_slash in H.
  destruct (Js.endsWith "/" s) eqn:E; [|reflexivity].
  apply endsWith_exists in E. congruence.
Qed.
End DeleteIndex.

(** ** Claims about the deletion endpoints *)

(** C1, as stated, fails on the single-item form, which checks no name: a
    file whose name has a space in it, which the safe pattern refuses, is
    unlinked all the same and the answer is a success. *)
Lemma C1_counterexample :
  ~ (forall (name : string) (fs : Fs.t),
       Regex.safe_name_test name = false ->
       snd (Part000.delete_image srv name fs) = [] /\
       snd (fst (Part000.delete_image srv name fs)) = fs).
Proof.
  intros H. destruct (H "my photo.png"%string spaced_fs eq_refl) as [Hcalls _].
  vm_compute in Hcalls. discriminate.
Qed.

(** C1, amended. In the batch form an item that fails the safe pattern is
    refused before any path is made: its entry is invalid-name, the item
    makes no file-system call and leaves the file system as it was, and
    every call of the batch is made for an item that passes the pattern.
    The single-item form has no such check: unless the name has a null
    byte, it calls [unlink] on the path the name joins to. *)
Theorem C1_malformed_name_in_batch
    (dirname : Path.path) (items : list value) (fs : Fs.t) (i : nat) (v : value) :
  nth_error items i = Some v ->
  Regex.safe_name_test (toString v) = false ->
  let '(response, fs', calls) := ServerB.post_delete dirname (Some items) fs in
  nth_error (details response) i
    = Some {| ServerB.filename := v; ServerB.item_status := ServerB.InvalidFilename |} /\
  (forall fs0, ServerB.delete_item dirname v fs0
     = (fs0, [], {| ServerB.filename := v; ServerB.item_status := ServerB.InvalidFilename |})) /\
  (forall c, In c calls ->
     exists s, In (Str s) items /\ Regex.safe_name_test s = true /\
               Fs.call_path c = Path.join (ServerB.uploadDir dirname) s) /\
  (forall fs0, snd (Part000.delete_image dirname (toString v) fs0)
     = if Part000.has_null_byte (toString v) then []
       else [Fs.Unlink (Path.join (Part000.uploadDir dirname) (toString v))]).
Proof.
  intros Hnth Hbad.
  assert (Hmal : malformed v = true) by (unfold malformed; now rewrite Hbad).
  assert (Hne : items <> []) by (intros ->; now destruct i).
  destruct (post_delete_details dirname items fs Hne) as (Hd & Hc & _).
  destruct (delete_items_nth dirname items fs i v Hnth) as (fs_i & _ & Hi).
  pose proof (delete_items_calls dirname items fs) as Hcalls.
  destruct (ServerB.post_delete dirname (Some items) fs) as [[response fs'] calls].
  cbn [fst snd] in Hd, Hc. rewrite Hd, Hc, Hi.
  rewrite (delete_item_malformed dirname v fs_i Hmal).
  repeat split.
  - intros fs0. now apply delete_item_malformed.
  - exact Hcalls.
  - intros fs0. unfold Part000.delete_image.
    destruct (Part000.has_null_byte (toString v)); [reflexivity|].
    now destruct (Part000.unlink _ _ _ fs0).
Qed.

Lemma C1_witness :
  let '(response, fs', calls) := ServerB.post_delete srv (Some batch0) old_fs in
  nth_error (details response) 1
    = Some {| ServerB.filename := Str "../etc/passwd";
              ServerB.item_status := ServerB.InvalidFilename |} /\
  (forall fs0, ServerB.delete_item srv (Str "../etc/passwd") fs0
     = (fs0, [], {| ServerB.filename := Str "../etc/passwd";
                    ServerB.item_status := ServerB.InvalidFilename |})) /\
  (forall c, In c calls ->
     exists s, In (Str s) batch0 /\ Regex.safe_name_test s = true /\
               Fs.call_path c = Path.join (ServerB.uploadDir srv) s) /\
  (forall fs0, snd (Part000.delete_image srv (toString (Str "../etc/passwd")) fs0)
     = if Part000.has_null_byte (toString (Str "../etc/passwd")) then []
       else [Fs.Unlink (Path.join (Part000.uploadDir srv) (toString (Str "../etc/passwd")))]).
Proof.
  apply (C1_malformed_name_in_batch srv batch0 old_fs 1 (Str "../etc/passwd")); reflexivity.
Defined.

(** C7, as stated, fails on the single-item form: asked to delete a
    well-formed name that names no file, it answers 500. *)
Lemma C7_counterexample :
  ~ (forall (name : string) (fs : Fs.t),
       Regex.safe_name_test name = true ->
       Fs.existsSync (Part000.uploadDir srv) (Path.join (Part000.uploadDir srv) name) fs = false ->
       Part000.delete_status (fst (fst (Part000.delete_image srv name fs))) <> 500%Z).
Proof.
  intros H. apply (H "missing.png"%string empty_fs); reflexivity.
Qed.

(** C7, amended. In the batch form a well-formed name that names nothing
    in the file system of the request gets a not-found entry, whatever the
    other items are, and the item leaves the file system as it was. The
    single-item form answers such a name with a 500, 'Failed to delete'. *)
Theorem C7_absent_file_is_not_found
    (dirname : Path.path) (items : list value) (fs : Fs.t) (i : nat) (s : string) :
  nth_error items i = Some (Str s) ->
  Regex.safe_name_test s = true ->
  Fs.existsSync (ServerB.uploadDir dirname) (Path.join (ServerB.uploadDir dirname) s) fs = false ->
  let '(response, fs', calls) := ServerB.post_delete dirname (Some items) fs in
  nth_error (details response) i
    = Some {| ServerB.filename := Str s; ServerB.item_status := ServerB.FileNotFound |} /\
  ServerB.delete_item dirname (Str s) fs
    = (fs, [Fs.ExistsSync (Path.join (ServerB.uploadDir dirname) s)],
       {| ServerB.filename := Str s; ServerB.item_status := ServerB.FileNotFound |}) /\
  Part000.delete_image dirname s fs
    = (Part000.FailedToDelete, fs,
       [Fs.Unlink (Path.join (Part000.uploadDir dirname) s)]) /\
  Part000.delete_status Part000.FailedToDelete = 500%Z.
Proof.
  intros Hnth Hs Habs.
  assert (Hne : items <> []) by (intros ->; now destruct i).
  assert (Hitem : forall fs0,
            Fs.existsSync (ServerB.uploadDir dirname)
              (Path.join (ServerB.uploadDir dirname) s) fs0 = false ->
            ServerB.delete_item dirname (Str s) fs0
            = (fs0, [Fs.ExistsSync (Path.join (ServerB.uploadDir dirname) s)],
               {| ServerB.filename := Str s; ServerB.item_status := ServerB.FileNotFound |})).
  { intros fs0 H0. unfold ServerB.delete_item. cbn [toString join_value].
    rewrite Hs. cbn [negb]. now rewrite H0. }
  destruct (post_delete_details dirname items fs Hne) as (Hd & _ & _).
  destruct (delete_items_nth dirname items fs i _ Hnth) as (fs_i & Hle & Hi).
  destruct (ServerB.post_delete dirname (Some items) fs) as [[response fs'] calls].
  cbn [fst snd] in Hd. rewrite Hd, Hi.
  rewrite (Hitem fs_i (leq_exists dirname _ _ _ Hle Habs)).
  repeat split.
  - now apply Hitem.
  - unfold Part000.delete_image, Part000.unlink.
    rewrite (safe_no_null _ Hs), (safe_no_trailing_slash _ Hs).
    change (Part000.uploadDir dirname) with (ServerB.uploadDir dirname).
    revert Habs. unfold Fs.existsSync, Fs.unlinkSync, Fs.find.
    destruct (Fs.locate (ServerB.uploadDir dirname)
                (Path.join (ServerB.uploadDir dirname) s)); try discriminate;
      now destruct (Fs.lookup _ _ _).
Qed.

Lemma C7_witness :
  let '(response, fs', calls) := ServerB.post_delete srv (Some batch0) old_fs in
  nth_error (details response) 2
    = Some {| ServerB.filename := Str "nope.png"; ServerB.item_status := ServerB.FileNotFound |} /\
  ServerB.delete_item srv (Str "nope.png") old_fs
    = (old_fs, [Fs.ExistsSync (Path.join (ServerB.uploadDir srv) "nope.png")],
       {| ServerB.filename := Str "nope.png"; ServerB.item_status := ServerB.FileNotFound |}) /\
  Part000.delete_image srv "nope.png" old_fs
    = (Part000.FailedToDelete, old_fs,
       [Fs.Unlink (Path.join (Part000.uploadDir srv) "nope.png")]) /\
  Part000.delete_status Part000.FailedToDelete = 500%Z.
Proof.
  apply (C7_absent_file_is_not_found srv batch0 old_fs 2 "nope.png"); reflexivity.
Defined.

(** ** Sorting and the listings *)

Section SortFacts.
Context {A : Type} (key : A -> Z).

(** The comparison functions of the listings: [key b - key a]. *)
Let comparefn (a b : A) : Z := (key b - key a)%Z.

Lemma insert_perm (x : A) (l : list A) :
  Permutation (JsArray.insert comparefn x l) (x :: l).
Proof.
  induction l as [|y l IH]; simpl; [reflexivity|].
  destruct (comparefn x y <=? 0)%Z; [reflexivity|].
  rewrite IH. apply perm_swap.
Qed.

Lemma sort_perm (l : list A) : Permutation (JsArray.sort comparefn l) l.
Proof.
  induction l as [|x l IH]; simpl; [reflexivity|].
  rewrite insert_perm. now constructor.
Qed.

Let ge_key (a b : A) : Prop := (key a >= key b)%Z.

Lemma insert_sorted (x : A) (l : list A) :
  StronglySorted ge_key l -> StronglySorted ge_key (JsArray.insert comparefn x l).
Proof.
  induction 1 as [|y l Hl IH Hy]; simpl; [repeat constructor|].
  destruct (comparefn x y <=? 0)%Z eqn:E.
  - apply Z.leb_le in E. unfold comparefn in E.
    constructor; [now constructor|].
    constructor; [unfold ge_key; lia|].
    eapply Forall_impl; [|exact Hy]. unfold ge_key. intros z Hz. lia.
  - apply Z.leb_gt in E. unfold comparefn in E.
    constructor; [exact IH|].
    apply (Permutation_Forall (Permutation_sym (insert_perm x l))).
    constructor; [unfold ge_key; lia|exact Hy].
Qed.

Lemma sort_sorted (l : list A) : StronglySorted ge_key (JsArray.sort comparefn l).
Proof.
  induction l as [|x l IH]; simpl; [constructor|]. now apply insert_sorted.
Qed.

(** The sort is stable: elements of equal key keep their order. *)
Lemma insert_stable (k : Z) (x : A) (l : list A) :
  filter (fun a => (key a =? k)%Z) (JsArray.insert comparefn x l)
  = filter (fun a => (key a =? k)%Z) (x :: l).
Proof.
  induction l as [|y l IH]; [reflexivity|].
  cbn [JsArray.insert]. destruct (comparefn x y <=? 0)%Z eqn:E; [reflexivity|].
  apply Z.leb_gt in E. unfold comparefn in E.
  cbn [filter] in *. rewrite IH.
  destruct (key x =? k)%Z eqn:Ex; [|reflexivity].
  apply Z.eqb_eq in Ex.
  assert (Hy : (key y =? k)%Z = false) by (apply Z.eqb_neq; lia).
  now rewrite Hy.
Qed.

Lemma sort_stable (k : Z) (l : list A) :
  filter (fun a => (key a =? k)%Z) (JsArray.sort comparefn l)
  = filter (fun a => (key a =? k)%Z) l.
Proof.
  induction l as [|x l IH]; [reflexivity|].
  cbn [JsArray.sort fold_right]. rewrite insert_stable.
  cbn [filter]. fold (JsArray.sort comparefn l). now rewrite IH.
Qed.
End SortFacts.

(** A listing that filters the entries by extension and sorts them by
    descending modification time. *)
Lemma listing_spec (is_image : string -> bool) (extensions : list string) (fs : Fs.t) :
  (forall file, is_image file = true
     <-> In (Js.toLowerCase (Path.extname file)) extensions) ->
  let compare := fun a b : string => (Fs.entry_mtimeMs fs b - Fs.entry_mtimeMs fs a)%Z in
  let images := JsArray.sort compare (filter is_image (Fs.readdirSync fs)) in
  Permutation images (filter is_image (Fs.readdirSync fs)) /\
  (forall file, In file images
     <-> In file (Fs.readdirSync fs) /\ In (Js.toLowerCase (Path.extname file)) extensions) /\
  StronglySorted (fun a b => (Fs.entry_mtimeMs fs a >= Fs.entry_mtimeMs fs b)%Z) images /\
  (forall t, filter (fun a => (Fs.entry_mtimeMs fs a =? t)%Z) images
     = filter (fun a => (Fs.entry_mtimeMs fs a =? t)%Z) (filter is_image (Fs.readdirSync fs))).
Proof.
  intros Hext compare images.
  pose proof (sort_perm (Fs.entry_mtimeMs fs) (filter is_image (Fs.readdirSync fs))) as Hperm.
  fold compare images in Hperm.
  split; [exact Hperm|]. split; [|split].
  - intros file. split.
    + intros Hin. apply (Permutation_in _ Hperm) in Hin.
      apply filter_In in Hin as [Hin Himg]. split; [exact Hin|now apply Hext].
    + intros [Hin Himg]. apply (Permutation_in _ (Permutation_sym Hperm)).
      apply filter_In. split; [exact Hin|now apply Hext].
  - apply (sort_sorted (Fs.entry_mtimeMs fs)).
  - intros t. apply (sort_stable (Fs.entry_mtimeMs fs)).
Qed.

Lemma existsb_eqb (extensions : list string) (e : string) :
  existsb (String.eqb e) extensions = true <-> In e extensions.
Proof.
  rewrite existsb_exists. split.
  - intros (x & Hx & Heq). apply String.eqb_eq in Heq. now subst.
  - intros Hin. exists e. split; [exact Hin|apply String.eqb_refl].
Qed.

(** C9, as stated, fails on the dashboard of part_000, which neither
    filters nor sorts: it lists a text file, and it lists an older picture
    before a newer one. *)
Lemma C9_counterexample :
  ~ (forall fs, forall file, In file (map Part000.name (Part000.images fs)) ->
       ServerA.is_image file = true) /\
  ~ (forall fs, StronglySorted (fun a b => (Fs.entry_mtimeMs fs a >= Fs.entry_mtimeMs fs b)%Z)
                  (map Part000.name (Part000.images fs))).
Proof.
  split; intros H.
  - specialize (H mixed_fs "notes.txt"%string). cbn in H.
    assert (Hin : "notes.txt"%string = "notes.txt"%string \/
                  "old.png"%string = "notes.txt"%string \/
                  "new.JPG"%string = "notes.txt"%string \/
                  "anim.webp"%string = "notes.txt"%string \/ False) by now left.
    specialize (H Hin). vm_compute in H. discriminate.
  - specialize (H mixed_fs). cbn in H.
    inversion H as [|? ? Htail _]; subst.
    inversion Htail as [|? ? _ Hall]; subst.
    inversion Hall as [|? ? Hge _]; subst.
    vm_compute in Hge. now apply Hge.
Qed.

(** C9, amended. The gallery of either program of src/server.js lists
    exactly the entries of the upload directory whose lowercased extension
    is one of [.jpg], [.jpeg], [.png], [.gif] (and [.webp] in the first
    program), each as often as the directory enumerates it, by descending
    modification time, entries of equal time in the order of enumeration.
    The dashboard of part_000 lists every entry in the order of
    enumeration. *)
Theorem C9_gallery_listing (fs : Fs.t) :
  (Permutation (ServerA.images fs) (filter ServerA.is_image (Fs.readdirSync fs)) /\
   (forall file, In file (ServerA.images fs)
      <-> In file (Fs.readdirSync fs) /\
          In (Js.toLowerCase (Path.extname file)) ServerA.image_extensions) /\
   StronglySorted (fun a b => (Fs.entry_mtimeMs fs a >= Fs.entry_mtimeMs fs b)%Z)
     (ServerA.images fs) /\
   (forall t, filter (fun a => (Fs.entry_mtimeMs fs a =? t)%Z) (ServerA.images fs)
      = filter (fun a => (Fs.entry_mtimeMs fs a =? t)%Z)
          (filter ServerA.is_image (Fs.readdirSync fs)))) /\
  (Permutation (ServerB.images fs) (filter ServerB.is_image (Fs.readdirSync fs)) /\
   (forall file, In file (ServerB.images fs)
      <-> In file (Fs.readdirSync fs) /\
          In (Js.toLowerCase (Path.extname file)) ServerB.image_extensions) /\
   StronglySorted (fun a b => (Fs.entry_mtimeMs fs a >= Fs.entry_mtimeMs fs b)%Z)
     (ServerB.images fs) /\
   (forall t, filter (fun a => (Fs.entry_mtimeMs fs a =? t)%Z) (ServerB.images fs)
      = filter (fun a => (Fs.entry_mtimeMs fs a =? t)%Z)
          (filter ServerB.is_image (Fs.readdirSync fs)))) /\
  map Part000.name (Part000.images fs) = Fs.readdirSync fs.
Proof.
  split; [|split].
  - apply (listing_spec ServerA.is_image ServerA.image_extensions fs).
    intros file. apply existsb_eqb.
  - apply (listing_spec ServerB.is_image ServerB.image_extensions fs).
    intros file. apply existsb_eqb.
  - unfold Part000.images. cbn zeta. rewrite map_map. cbn [Part000.name]. apply map_id.
Qed.

Example mixed_listing :
  ServerA.images mixed_fs = ["new.JPG"; "anim.webp"; "old.png"]%string /\
  ServerB.images mixed_fs = ["new.JPG"; "old.png"]%string /\
  map Part000.name (Part000.images mixed_fs)
    = ["notes.txt"; "old.png"; "new.JPG"; "anim.webp"]%string.
Proof. repeat split. Qed.


(** * Further properties *)

(** ** [POST /delete]: what it changes *)

Lemma filter_all {A : Type} (f : A -> bool) (l : list A) :
  (forall x, In x l -> f x = true) -> filter f l = l.
Proof.
  induction l as [|a l IH]; intros H; [reflexivity|].
  cbn [filter]. rewrite (H a) by now left.
  f_equal. apply IH. intros x Hx. apply H. now right.
Qed.

Lemma filter_twice {A : Type} (f g : A -> bool) (l : list A) :
  filter f (filter g l) = filter (fun x => g x && f x) l.
Proof.
  induction l as [|a l IH]; [reflexivity|].
  cbn [filter]. destruct (g a); cbn [andb filter]; [destruct (f a)|]; now rewrite IH.
Qed.

Lemma fs_eta (fs : Fs.t) :
  {| Fs.store := Fs.store fs; Fs.elsewhere := Fs.elsewhere fs |} = fs.
Proof. now destruct fs. Qed.

Lemma lookup_none_filter (s : string) (l : list (string * Fs.file)) :
  Fs.lookup String.eqb s l = None ->
  filter (fun e => negb (String.eqb (fst e) s)) l = l.
Proof. intros H. now apply (remove_absent String.eqb). Qed.

Section DeleteEffect.
Variable dirname : Path.path.
Let uploadDir := ServerB.uploadDir dirname.

(** The outcome of one item of a batch, case by case. *)
Lemma delete_item_cases (v : value) (fs : Fs.t) :
  ServerB.delete_item dirname v fs =
  if negb (Regex.safe_name_test (toString v))
  then (fs, [], {| ServerB.filename := v; ServerB.item_status := ServerB.InvalidFilename |})
  else
    match v with
    | NotStr _ =>
        (fs, [], {| ServerB.filename := v;
                    ServerB.item_status := ServerB.error InvalidArgType |})
    | Str s =>
        let filePath := Path.join (ServerB.uploadDir dirname) s in
        if String.eqb s "." || String.eqb s ".."
        then (fs, [Fs.ExistsSync filePath; Fs.UnlinkSync filePath],
              {| ServerB.filename := v;
                 ServerB.item_status := ServerB.error (FsError EISDIR "unlink" filePath) |})
        else
          match Fs.lookup String.eqb s (Fs.store fs) with
          | Some _ =>
              (minus s fs, [Fs.ExistsSync filePath; Fs.UnlinkSync filePath],
               {| ServerB.filename := v; ServerB.item_status := ServerB.success |})
          | None =>
              (fs, [Fs.ExistsSync filePath],
               {| ServerB.filename := v; ServerB.item_status := ServerB.FileNotFound |})
          end
    end.
Proof.
  unfold ServerB.delete_item.
  destruct (Regex.safe_name_test (toString v)) eqn:Hs; cbn [negb]; [|reflexivity].
  destruct v as [s|s]; cbn [join_value toString] in *; [|reflexivity].
  cbn zeta. fold uploadDir.
  destruct (safe_target dirname s Hs) as [[Hd Hdot]|(Hj & Hn1 & Hn2)].
  - assert (Hor : String.eqb s "." || String.eqb s ".." = true).
    { destruct Hdot as [-> | ->]; reflexivity. }
    fold uploadDir in Hd. rewrite Hor.
    unfold Fs.existsSync, Fs.unlinkSync. now rewrite Hd.
  - apply String.eqb_neq in Hn1, Hn2. rewrite Hn1, Hn2. cbn [orb].
    fold uploadDir in Hj. rewrite Hj.
    unfold Fs.existsSync, Fs.unlinkSync, Fs.find. rewrite locate_entry.
    now destruct (Fs.lookup String.eqb s (Fs.store fs)).
Qed.

Lemma target_other (v : value) (name : string) :
  Regex.safe_name_test (toString v) = false -> target v name = false.
Proof. destruct v as [s|s]; [|reflexivity]. cbn. now intros ->. Qed.

Lemma delete_item_effect (v : value) (fs : Fs.t) :
  fst (fst (ServerB.delete_item dirname v fs))
  = {| Fs.store := filter (fun e => negb (target v (fst e))) (Fs.store fs);
       Fs.elsewhere := Fs.elsewhere fs |}.
Proof.
  rewrite delete_item_cases.
  destruct (Regex.safe_name_test (toString v)) eqn:Hs; cbn [negb fst].
  - destruct v as [s|s]; cbn [toString] in Hs.
    + cbn zeta. cbn [target]. rewrite Hs. cbn [andb].
      destruct (String.eqb s ".") eqn:E1; cbn [orb negb andb fst].
      { rewrite filter_all by reflexivity. symmetry. apply fs_eta. }
      destruct (String.eqb s "..") eqn:E2; cbn [orb negb andb fst].
      { rewrite filter_all by reflexivity. symmetry. apply fs_eta. }
      destruct (Fs.lookup String.eqb s (Fs.store fs)) eqn:El; cbn [fst].
      * reflexivity.
      * rewrite (lookup_none_filter _ _ El). symmetry. apply fs_eta.
    + cbn [target]. rewrite filter_all by reflexivity. symmetry. apply fs_eta.
  - rewrite filter_all; [symmetry; apply fs_eta|].
    intros x _. now rewrite target_other.
Qed.

Lemma delete_items_effect (items : list value) :
  forall fs,
    fst (fst (ServerB.delete_items dirname items fs))
    = {| Fs.store := filter (fun e => negb (targeted items (fst e))) (Fs.store fs);
         Fs.elsewhere := Fs.elsewhere fs |}.
Proof.
  induction items as [|v items IH]; intros fs; cbn [ServerB.delete_items].
  - cbn. rewrite filter_all by reflexivity. symmetry. apply fs_eta.
  - pose proof (delete_item_effect v fs) as Hv.
    destruct (ServerB.delete_item dirname v fs) as [[fs1 c1] r]. cbn [fst] in Hv.
    specialize (IH fs1).
    destruct (ServerB.delete_items dirname items fs1) as [[fs2 c2] rs]. cbn [fst] in *.
    rewrite IH, Hv. cbn [Fs.store Fs.elsewhere]. rewrite filter_twice.
    f_equal. apply filter_ext. intros e. unfold targeted. cbn [existsb].
    now rewrite negb_orb.
Qed.

Lemma lookup_filter_names (T : string -> bool) (name : string)
    (l : list (string * Fs.file)) :
  Fs.lookup String.eqb name (filter (fun e => negb (T (fst e))) l)
  = if T name then None else Fs.lookup String.eqb name l.
Proof.
  induction l as [|[k f] l IH]; cbn [filter Fs.lookup fst].
  - now destruct (T name).
  - destruct (T k) eqn:Ek; cbn [negb Fs.lookup].
    + rewrite IH. destruct (String.eqb k name) eqn:E; [|reflexivity].
      apply String.eqb_eq in E. subst. now rewrite Ek.
    + rewrite IH. destruct (String.eqb k name) eqn:E; [|reflexivity].
      apply String.eqb_eq in E. subst. now rewrite Ek.
Qed.

Lemma post_delete_state (body : option (list value)) (fs : Fs.t) :
  snd (fst (ServerB.post_delete dirname body fs))
  = {| Fs.store := filter (fun e => negb (targeted (items_of body) (fst e))) (Fs.store fs);
       Fs.elsewhere := Fs.elsewhere fs |}.
Proof.
  unfold ServerB.post_delete. fold (items_of body).
  destruct (items_of body) as [|v items] eqn:Eitems.
  - cbn. rewrite filter_all by reflexivity. symmetry. apply fs_eta.
  - change (List.length (v :: items) =? 0)%nat with false. cbn iota.
    pose proof (delete_items_effect (v :: items) fs) as H.
    destruct (ServerB.delete_items dirname (v :: items) fs) as [[fs' calls] rs].
    cbn [fst] in H.
    now destruct (List.length (filter ServerB.is_success rs) =? 0)%nat.
Qed.

(** X1. After [POST /delete] the upload directory holds the entries it held
    before, in their order, but those whose name the request gives as a
    string that passes the safe pattern and is neither [.] nor [..]; the
    files outside of the directory are as they were. *)
Theorem post_delete_effect (body : option (list value)) (fs : Fs.t) :
  let fs' := snd (fst (ServerB.post_delete dirname body fs)) in
  Fs.store fs' = filter (fun e => negb (targeted (items_of body) (fst e))) (Fs.store fs) /\
  Fs.elsewhere fs' = Fs.elsewhere fs /\
  forall name,
    Fs.lookup String.eqb name (Fs.store fs')
    = if targeted (items_of body) name then None
      else Fs.lookup String.eqb name (Fs.store fs).
Proof.
  cbn zeta. rewrite post_delete_state. cbn [Fs.store Fs.elsewhere].
  repeat split. intros name. apply lookup_filter_names.
Qed.

End DeleteEffect.

Lemma existsb_never {A : Type} (f : A -> bool) (l : list A) :
  (forall x, f x = false) -> existsb f l = false.
Proof.
  intros H. induction l as [|a l IH]; [reflexivity|]. cbn [existsb]. now rewrite H, IH.
Qed.

Section DeleteAgain.
Variable dirname : Path.path.
Let uploadDir := ServerB.uploadDir dirname.

Lemma lookup_exists (s : string) (l : list (string * Fs.file)) :
  (match Fs.lookup String.eqb s l with Some _ => true | None => false end)
  = existsb (fun e => String.eqb (fst e) s) l.
Proof.
  induction l as [|[k f] l IH]; [reflexivity|].
  cbn [Fs.lookup existsb fst]. now destruct (String.eqb k s).
Qed.

(** An item succeeds exactly when it looks for an entry that is there. *)
Lemma delete_item_success (v : value) (fs : Fs.t) :
  ServerB.is_success (snd (ServerB.delete_item dirname v fs))
  = existsb (fun e => target v (fst e)) (Fs.store fs).
Proof.
  rewrite delete_item_cases.
  destruct (Regex.safe_name_test (toString v)) eqn:Hs; cbn [negb snd].
  - destruct v as [s|s]; cbn [toString] in Hs.
    + cbn zeta. cbn [target]. rewrite Hs. cbn [andb].
      destruct (String.eqb s ".") eqn:E1; cbn [orb negb andb snd].
      { cbn. symmetry. now apply existsb_never. }
      destruct (String.eqb s "..") eqn:E2; cbn [orb negb andb snd].
      { cbn. symmetry. now apply existsb_never. }
      rewrite <- lookup_exists.
      now destruct (Fs.lookup String.eqb s (Fs.store fs)).
    + cbn. symmetry. now apply existsb_never.
  - cbn. symmetry. apply existsb_never. intros e. now apply target_other.
Qed.

(** An item that does not succeed leaves the file system as it is. *)
Lemma delete_item_failure (v : value) (fs : Fs.t) :
  ServerB.is_success (snd (ServerB.delete_item dirname v fs)) = false ->
  fst (fst (ServerB.delete_item dirname v fs)) = fs.
Proof.
  rewrite delete_item_cases.
  destruct (negb (Regex.safe_name_test (toString v))); [reflexivity|].
  destruct v as [s|s]; [|reflexivity]. cbn zeta.
  destruct (String.eqb s "." || String.eqb s ".."); [reflexivity|].
  now destruct (Fs.lookup String.eqb s (Fs.store fs)).
Qed.

Lemma delete_items_nothing (items : list value) (fs : Fs.t) :
  (forall v, In v items -> existsb (fun e => target v (fst e)) (Fs.store fs) = false) ->
  fst (fst (ServerB.delete_items dirname items fs)) = fs /\
  filter ServerB.is_success (snd (ServerB.delete_items dirname items fs)) = [].
Proof.
  induction items as [|v items IH]; intros H; [now split|].
  cbn [ServerB.delete_items].
  pose proof (delete_item_success v fs) as Hs.
  pose proof (delete_item_failure v fs) as Hf.
  rewrite (H v) in Hs by now left.
  destruct (ServerB.delete_item dirname v fs) as [[fs1 c1] r]. cbn [fst snd] in *.
  rewrite (Hf Hs) in *.
  destruct IH as [IH1 IH2]; [intros w Hw; apply H; now right|].
  destruct (ServerB.delete_items dirname items fs) as [[fs2 c2] rs]. cbn [fst snd] in *.
  split; [exact IH1|]. cbn [filter]. now rewrite Hs.
Qed.

(** X4. Sending the same batch again deletes nothing: the second answer is
    a 400, no entry of it is a success, and the file system stays as the
    first request left it. *)
Theorem post_delete_again (body : option (list value)) (fs : Fs.t) :
  let '(response1, fs1, calls1) := ServerB.post_delete dirname body fs in
  let '(response2, fs2, calls2) := ServerB.post_delete dirname body fs1 in
  fs2 = fs1 /\
  filter ServerB.is_success (details response2) = [] /\
  ServerB.delete_status response2 = 400%Z /\
  List.length (details response2) = List.length (details response1).
Proof.
  unfold ServerB.post_delete. fold (items_of body).
  destruct (items_of body) as [|v items] eqn:Eitems; [cbn; auto|].
  change (List.length (v :: items) =? 0)%nat with false. cbn iota.
  pose proof (delete_items_effect dirname (v :: items) fs) as H.
  assert (Hlen : forall fs0, List.length (snd (ServerB.delete_items dirname (v :: items) fs0))
                             = List.length (v :: items)).
  { intros fs0. generalize (v :: items). clear. intros l. revert fs0.
    induction l as [|a l IH]; intros fs0; [reflexivity|].
    cbn [ServerB.delete_items].
    destruct (ServerB.delete_item dirname a fs0) as [[fs1 c1] r].
    specialize (IH fs1).
    destruct (ServerB.delete_items dirname l fs1) as [[fs2 c2] rs].
    cbn [snd List.length] in *. now rewrite IH. }
  pose proof (Hlen fs) as Hlen1.
  destruct (ServerB.delete_items dirname (v :: items) fs) as [[fs1 calls1] rs1].
  cbn [fst snd] in H, Hlen1.
  assert (Hnone : forall w, In w (v :: items) ->
            existsb (fun e => target w (fst e)) (Fs.store fs1) = false).
  { intros w Hw. rewrite H. cbn [Fs.store].
    destruct (existsb _ _) eqn:E; [|reflexivity].
    apply existsb_exists in E as (e & He & Ht).
    apply filter_In in He as [_ He]. apply negb_true_iff in He.
    assert (Hin : targeted (v :: items) (fst e) = true).
    { unfold targeted. apply existsb_exists. now exists w. }
    congruence. }
  destruct (delete_items_nothing (v :: items) fs1 Hnone) as [Hfs Hsucc].
  pose proof (Hlen fs1) as Hlen2.
  assert (Hgoal : forall r1 : ServerB.delete_response,
            details r1 = rs1 ->
            let '(response2, fs2, calls2) :=
              (let '(fs', calls, results) := ServerB.delete_items dirname (v :: items) fs1 in
               if (List.length (filter ServerB.is_success results) =? 0)%nat
               then (ServerB.NoFilesDeleted results, fs', calls)
               else (ServerB.Deleted (List.length (filter ServerB.is_success results))
                       (List.length (v :: items)) results, fs', calls)) in
            fs2 = fs1 /\
            filter ServerB.is_success (details response2) = [] /\
            ServerB.delete_status response2 = 400%Z /\
            List.length (details response2) = List.length (details r1)).
  { intros r1 Hr1.
    destruct (ServerB.delete_items dirname (v :: items) fs1) as [[fs2 calls2] rs2].
    cbn [fst snd] in *. rewrite Hsucc. cbn [List.length Nat.eqb details ServerB.delete_status].
    rewrite Hr1. repeat split; congruence. }
  destruct (List.length (filter ServerB.is_success rs1) =? 0)%nat; now apply Hgoal.
Qed.

Lemma remove_one (s : string) (f : Fs.file) (l : list (string * Fs.file)) :
  NoDup (map fst l) -> Fs.lookup String.eqb s l = Some f ->
  S (List.length (Fs.remove String.eqb s l)) = List.length l.
Proof.
  induction l as [|[k g] l IH]; cbn [map fst Fs.lookup]; [discriminate|].
  intros Hnd Hl. inversion Hnd as [|? ? Hk Hnd']; subst.
  unfold Fs.remove in *. cbn [filter fst].
  destruct (String.eqb k s) eqn:E; cbn [negb List.length].
  - apply String.eqb_eq in E. subst k. f_equal.
    fold (Fs.remove String.eqb s l).
    rewrite (remove_absent String.eqb); [reflexivity|].
    destruct (Fs.lookup String.eqb s l) eqn:El; [|reflexivity].
    exfalso. apply Hk. eapply lookup_in_keys; [apply String.eqb_eq|eassumption].
  - f_equal. now apply IH.
Qed.

Lemma NoDup_keys_filter (P : string * Fs.file -> bool) (l : list (string * Fs.file)) :
  NoDup (map fst l) -> NoDup (map fst (filter P l)).
Proof.
  induction l as [|e l IH]; cbn [map filter]; intros H; [constructor|].
  inversion H as [|? ? He Hl]; subst.
  destruct (P e); cbn [map]; [|now apply IH].
  constructor; [|now apply IH].
  intros Hin. apply He. apply in_map_iff in Hin as (x & Hx & Hin).
  apply filter_In in Hin as [Hin _]. apply in_map_iff. now exists x.
Qed.

Lemma delete_items_removed (items : list value) :
  forall fs, NoDup (map fst (Fs.store fs)) ->
  let '(fs', calls, results) := ServerB.delete_items dirname items fs in
  (List.length (Fs.store fs') + List.length (filter ServerB.is_success results)
   = List.length (Fs.store fs))%nat /\
  List.length results = List.length items.
Proof.
  induction items as [|v items IH]; intros fs Hnd; [cbn; lia|].
  cbn [ServerB.delete_items].
  pose proof (delete_item_cases dirname v fs) as Ht.
  pose proof (delete_item_effect dirname v fs) as He.
  destruct (ServerB.delete_item dirname v fs) as [[fs1 c1] r]. cbn [fst] in He.
  assert (Hnd1 : NoDup (map fst (Fs.store fs1))).
  { rewrite He. cbn [Fs.store]. now apply NoDup_keys_filter. }
  assert (Hstep : (List.length (Fs.store fs1) + (if ServerB.is_success r then 1 else 0)
                   = List.length (Fs.store fs))%nat).
  { destruct (negb (Regex.safe_name_test (toString v))).
    - injection Ht as -> _ ->. cbn. lia.
    - destruct v as [s|s].
      + cbn zeta in Ht. destruct (String.eqb s "." || String.eqb s "..").
        * injection Ht as -> _ ->. cbn. lia.
        * destruct (Fs.lookup String.eqb s (Fs.store fs)) as [f|] eqn:El.
          -- injection Ht as -> _ ->. cbn. rewrite <- (remove_one s f _ Hnd El). lia.
          -- injection Ht as -> _ ->. cbn. lia.
      + injection Ht as -> _ ->. cbn. lia. }
  specialize (IH fs1 Hnd1).
  destruct (ServerB.delete_items dirname items fs1) as [[fs2 c2] rs].
  destruct IH as [IH1 IH2]. cbn [filter List.length].
  destruct (ServerB.is_success r); cbn [List.length]; lia.
Qed.

(** X5. When the names of the directory are distinct, the count [deleted]
    of a 200 answer is the number of entries that left the directory,
    [total] is the number of items of the request, and each item has its
    entry; after a 400 answer the directory holds as many entries as
    before. *)
Theorem post_delete_count (items : list value) (fs : Fs.t) :
  NoDup (Fs.readdirSync fs) ->
  let '(response, fs', calls) := ServerB.post_delete dirname (Some items) fs in
  match response with
  | ServerB.Deleted deleted total results =>
      (deleted + List.length (Fs.readdirSync fs') = List.length (Fs.readdirSync fs))%nat /\
      (1 <= deleted)%nat /\
      total = List.length items /\
      List.length results = total
  | ServerB.NoFilesDeleted results =>
      List.length (Fs.readdirSync fs') = List.length (Fs.readdirSync fs) /\
      List.length results = List.length items
  | ServerB.NoImagesSelected => items = [] /\ fs' = fs
  end.
Proof.
  intros Hnd. unfold ServerB.post_delete, Fs.readdirSync in *.
  destruct items as [|v items]; [now cbn|].
  change (List.length (v :: items) =? 0)%nat with false. cbn iota.
  pose proof (delete_items_removed (v :: items) fs Hnd) as H.
  destruct (ServerB.delete_items dirname (v :: items) fs) as [[fs' calls] rs].
  destruct H as [H1 H2]. rewrite length_map in *.
  destruct (List.length (filter ServerB.is_success rs) =? 0)%nat eqn:E.
  - apply Nat.eqb_eq in E. rewrite length_map. split; [lia|exact H2].
  - apply Nat.eqb_neq in E. rewrite length_map. repeat split; lia || exact H2.
Qed.

(** X6. Whatever the request, every file-system call of the batch form is
    made on the upload directory, on its parent, or on an entry of the
    upload directory whose name passes the safe pattern: no call leaves
    [<dirname>/public]. *)
Theorem post_delete_stays_inside (body : option (list value)) (fs : Fs.t) (c : Fs.call) :
  In c (snd (ServerB.post_delete dirname body fs)) ->
  Fs.call_path c = dirname ++ ["public"%string] \/
  Fs.call_path c = dirname ++ ["public"; "uploads"]%string \/
  exists s, Regex.safe_name_test s = true /\
            Fs.call_path c = dirname ++ ["public"; "uploads"; s]%string.
Proof.
  unfold ServerB.post_delete.
  destruct (match body with Some l => l | None => [] end) as [|v items] eqn:Eitems;
    [intros []|].
  change (List.length (v :: items) =? 0)%nat with false. cbn iota.
  pose proof (delete_items_calls dirname (v :: items) fs c) as H.
  destruct (ServerB.delete_items dirname (v :: items) fs) as [[fs' calls] rs].
  cbn [fst snd] in H.
  intros Hin.
  assert (Hin' : In c calls).
  { now destruct (List.length (filter ServerB.is_success rs) =? 0)%nat. }
  destruct (H Hin') as (s & _ & Hs & Hp).
  rewrite Hp, (join_safe _ _ Hs). unfold ServerB.uploadDir. rewrite uploadDir_eq.
  destruct (String.eqb s "."); [now right; left|].
  destruct (String.eqb s "..").
  - left. rewrite removelast_app by discriminate. reflexivity.
  - right. right. exists s. split; [exact Hs|]. now rewrite <- app_assoc.
Qed.
End DeleteAgain.

Lemma post_delete_count_witness :
  let '(response, fs', calls) := ServerB.post_delete srv (Some batch0) old_fs in
  match response with
  | ServerB.Deleted deleted total results =>
      (deleted + List.length (Fs.readdirSync fs') = List.length (Fs.readdirSync old_fs))%nat /\
      (1 <= deleted)%nat /\
      total = List.length batch0 /\
      List.length results = total
  | ServerB.NoFilesDeleted results =>
      List.length (Fs.readdirSync fs') = List.length (Fs.readdirSync old_fs) /\
      List.length results = List.length batch0
  | ServerB.NoImagesSelected => batch0 = [] /\ fs' = old_fs
  end.
Proof.
  apply (post_delete_count srv batch0 old_fs). repeat constructor. intros [].
Defined.

Lemma post_delete_stays_inside_witness :
  let c := Fs.UnlinkSync ["srv"; "app"; "public"; "uploads"; "1600000000000-42.png"]%string in
  Fs.call_path c = srv ++ ["public"%string] \/
  Fs.call_path c = srv ++ ["public"; "uploads"]%string \/
  exists s, Regex.safe_name_test s = true /\
            Fs.call_path c = srv ++ ["public"; "uploads"; s]%string.
Proof.
  apply (post_delete_stays_inside srv (Some batch0) old_fs).
  vm_compute. right. left. reflexivity.
Defined.

Section OddItems.
Variable dirname : Path.path.

(** X2. The names [.] and [..] pass the safe pattern: the item is joined to
    the upload directory itself or to its parent, [existsSync] finds it,
    [unlinkSync] throws on the directory, and the item is reported with
    that error; nothing is deleted. *)
Theorem delete_item_dot_names (s : string) (fs : Fs.t) :
  s = "."%string \/ s = ".."%string ->
  let dir := if String.eqb s "." then dirname ++ ["public"; "uploads"]%string
             else dirname ++ ["public"%string] in
  Regex.safe_name_test s = true /\
  ServerB.delete_item dirname (Str s) fs
  = (fs, [Fs.ExistsSync dir; Fs.UnlinkSync dir],
     {| ServerB.filename := Str s;
        ServerB.item_status := ServerB.error (FsError EISDIR "unlink" dir) |}).
Proof.
  intros Hs. rewrite delete_item_cases. unfold ServerB.uploadDir. rewrite uploadDir_eq.
  assert (Hj : removelast (dirname ++ ["public"; "uploads"]%string) = dirname ++ ["public"%string]).
  { change ["public"; "uploads"]%string with (["public"%string] ++ ["uploads"%string])%list.
    rewrite app_assoc. apply removelast_last. }
  destruct Hs as [-> | ->]; cbn [toString]; (split; [reflexivity|]).
  - cbn. reflexivity.
  - cbn. rewrite Hj. reflexivity.
Qed.

(** X3. An item that is no string but prints as a safe name (a number, say)
    passes the pattern test, which coerces it; [path.join] then throws on
    it, and the item is reported with that error: no call is made on the
    file system, also when a file of that name is stored. *)
Theorem delete_item_not_a_string (printed : string) (fs : Fs.t) :
  Regex.safe_name_test printed = true ->
  ServerB.delete_item dirname (NotStr printed) fs
  = (fs, [], {| ServerB.filename := NotStr printed;
                ServerB.item_status := ServerB.error InvalidArgType |}).
Proof.
  intros Hs. rewrite delete_item_cases. cbn [toString]. now rewrite Hs.
Qed.

End OddItems.

Lemma delete_item_dot_names_witness :
  Regex.safe_name_test ".." = true /\
  ServerB.delete_item srv (Str "..") old_fs
  = (old_fs, [Fs.ExistsSync ["srv"; "app"; "public"]%string;
              Fs.UnlinkSync ["srv"; "app"; "public"]%string],
     {| ServerB.filename := Str "..";
        ServerB.item_status :=
          ServerB.error (FsError EISDIR "unlink" ["srv"; "app"; "public"]%string) |}).
Proof.
  apply (delete_item_dot_names srv ".." old_fs). right. reflexivity.
Defined.

Lemma delete_item_not_a_string_witness :
  ServerB.delete_item srv (NotStr "1600000000000") old_fs
  = (old_fs, [], {| ServerB.filename := NotStr "1600000000000";
                    ServerB.item_status := ServerB.error InvalidArgType |}).
Proof.
  apply (delete_item_not_a_string srv "1600000000000" old_fs). reflexivity.
Defined.

(** ** The upload endpoints, case by case *)

Lemma lookup_put_other {K V : Type} (eqb : K -> K -> bool)
    (eqb_spec : forall a b, eqb a b = true <-> a = b)
    (k k' : K) (v : V) (l : list (K * V)) :
  k <> k' -> Fs.lookup eqb k' (Fs.put eqb k v l) = Fs.lookup eqb k' l.
Proof.
  intros Hne. unfold Fs.put.
  assert (Hd : eqb k k' = false) by (now apply eqb_diff).
  destruct (Fs.lookup eqb k l) eqn:E.
  - clear E. induction l as [|[k0 w0] l IH]; [reflexivity|].
    cbn [Fs.replace]. destruct (eqb k0 k) eqn:E0; cbn [Fs.lookup]; rewrite IH.
    + apply eqb_spec in E0. subst k0. now rewrite Hd.
    + reflexivity.
  - clear E. induction l as [|[k0 w0] l IH]; cbn [app Fs.lookup].
    + now rewrite Hd.
    + now rewrite IH.
Qed.

Lemma keys_put {K V : Type} (eqb : K -> K -> bool) (k : K) (v : V) (l : list (K * V)) :
  incl (map fst l) (map fst (Fs.put eqb k v l)).
Proof.
  unfold Fs.put. destruct (Fs.lookup eqb k l).
  - assert (H : map fst (Fs.replace eqb k v l) = map fst l).
    { induction l as [|[k0 w0] l IH]; [reflexivity|].
      cbn [Fs.replace]. destruct (eqb k0 k); cbn [map fst]; now rewrite IH. }
    rewrite H. apply incl_refl.
  - rewrite map_app. now apply incl_appl, incl_refl.
Qed.

(** Writing an entry and unlinking it: the directory without it. *)

(** ** The extension of a generated name *)

Section Extension.

Lemma last_dot_none (s : string) :
  Js.exists_char (Ascii.eqb ".") s = false -> Path.last_dot s = None.
Proof.
  induction s as [|c s IH]; cbn [Js.exists_char Path.last_dot]; [reflexivity|].
  intros H. apply orb_false_iff in H as [Hc Hs].
  rewrite (IH Hs). rewrite Ascii.eqb_sym in Hc. now rewrite Hc.
Qed.

Lemma last_dot_stem (stem r : string) :
  Js.exists_char (Ascii.eqb ".") r = false ->
  Path.last_dot (stem ++ String "." r) = Some (stem, String "." r).
Proof.
  intros Hr. induction stem as [|c stem IH].
  - cbn [String.append Path.last_dot]. now rewrite (last_dot_none _ Hr).
  - cbn [String.append Path.last_dot]. now rewrite IH.
Qed.

Lemma last_dot_shape (s pre ext : string) :
  Path.last_dot s = Some (pre, ext) ->
  exists r, ext = String "." r /\ Js.exists_char (Ascii.eqb ".") r = false.
Proof.
  revert pre ext. induction s as [|c s IH]; intros pre ext; cbn [Path.last_dot]; [discriminate|].
  destruct (Path.last_dot s) as [[pre' ext']|] eqn:E.
  - intros [= <- <-]. eapply IH. reflexivity.
  - destruct (Ascii.eqb c ".") eqn:Ec; [|discriminate].
    apply Ascii.eqb_eq in Ec. subst c. intros [= <- <-].
    exists s. split; [reflexivity|].
    clear IH. induction s as [|d s IH]; [reflexivity|].
    cbn [Path.last_dot] in E. cbn [Js.exists_char].
    destruct (Path.last_dot s) as [[? ?]|]; [discriminate|].
    destruct (Ascii.eqb d ".") eqn:Ed; [discriminate|].
    rewrite Ascii.eqb_sym, Ed. now apply IH.
Qed.

(** [path.extname] gives nothing, or a dot and then neither dot nor slash. *)
Lemma extname_shape (p : string) :
  Path.extname p = ""%string \/
  exists r, Path.extname p = String "." r /\
            Js.exists_char (Ascii.eqb ".") r = false /\
            Js.exists_char (Ascii.eqb "/") r = false.
Proof.
  pose proof (extname_no_slash p) as Hslash. revert Hslash.
  unfold Path.extname.
  destruct (Path.last_dot (Path.last_component p)) as [[pre ext]|] eqn:E; [|now left].
  destruct (_ || _); [now left|].
  destruct (last_dot_shape _ _ _ E) as (r & -> & Hr).
  intros Hs. right. exists r. repeat split; [exact Hr|].
  cbn [Js.exists_char] in Hs. now apply orb_false_iff in Hs as [_ Hs].
Qed.

Lemma last_component_plain (s : string) :
  Js.exists_char (Ascii.eqb "/") s = false -> s <> ""%string ->
  Path.last_component s = s.
Proof.
  intros Hs Hne. unfold Path.last_component. rewrite (split_no_sep _ _ Hs).
  cbn [filter]. apply String.eqb_neq in Hne. now rewrite Hne.
Qed.

(** The extension of a name made of a number, more text without dot or
    slash, and an extension, is that extension. *)
Lemma extname_numbered (n : N) (mid e : string) :
  Js.exists_char (Ascii.eqb ".") mid = false ->
  Js.exists_char (Ascii.eqb "/") mid = false ->
  (e = ""%string \/
   exists r, e = String "." r /\ Js.exists_char (Ascii.eqb ".") r = false /\
             Js.exists_char (Ascii.eqb "/") r = false) ->
  Path.extname (Js.number_toString n ++ mid ++ e) = e.
Proof.
  intros Hmd Hms He.
  destruct (number_toString_nonempty n) as (c & s & En & Hc).
  pose proof (number_toString_digits n) as Hdig.
  assert (Hnd : Js.exists_char (Ascii.eqb ".") (Js.number_toString n) = false).
  { clear -Hdig. induction (Js.number_toString n) as [|d t IH]; [reflexivity|].
    cbn [Js.forall_chars Js.exists_char] in *. apply andb_true_iff in Hdig as [Hd Ht].
    rewrite (IH Ht), orb_false_r. clear -Hd.
    destruct d as [[] [] [] [] [] [] [] []]; try discriminate Hd; reflexivity. }
  pose proof (digits_no_slash _ Hdig) as Hns.
  assert (Hstart : forall t, (Js.number_toString n ++ t = String c (s ++ t))%string).
  { intros t. now rewrite En. }
  assert (Hnotdots : forall t, String.eqb (String c t) ".." = false).
  { intros t. clear -Hc. cbn [String.eqb].
    destruct c as [[] [] [] [] [] [] [] []]; try discriminate Hc; reflexivity. }
  unfold Path.extname.
  destruct He as [-> | (r & -> & Hrd & Hrs)].
  - rewrite last_component_plain.
    + rewrite last_dot_none; [reflexivity|].
      now rewrite !exists_char_app, Hnd, Hmd.
    + now rewrite !exists_char_app, Hns, Hms.
    + rewrite Hstart. discriminate.
  - rewrite last_component_plain.
    + rewrite <- string_app_assoc, last_dot_stem by exact Hrd.
      rewrite Hstart. cbn [String.append]. rewrite Hnotdots. cbn [String.eqb orb]. reflexivity.
    + rewrite !exists_char_app, Hns, Hms. cbn [Js.exists_char]. now rewrite Hrs.
    + rewrite Hstart. discriminate.
Qed.

Lemma toLowerCase_dot (s : string) :
  Js.exists_char (Ascii.eqb ".") (Js.toLowerCase s) = Js.exists_char (Ascii.eqb ".") s.
Proof.
  induction s as [|c s IH]; cbn [Js.exists_char Js.toLowerCase]; [reflexivity|].
  rewrite IH. f_equal.
  destruct c as [[] [] [] [] [] [] [] []]; reflexivity.
Qed.

Lemma lower_extname_shape (p : string) :
  let e := Js.toLowerCase (Path.extname p) in
  e = ""%string \/
  exists r, e = String "." r /\ Js.exists_char (Ascii.eqb ".") r = false /\
            Js.exists_char (Ascii.eqb "/") r = false.
Proof.
  cbn zeta. destruct (extname_shape p) as [-> | (r & -> & Hd & Hs)]; [now left|].
  right. exists (Js.toLowerCase r). split; [reflexivity|].
  now rewrite toLowerCase_dot, toLowerCase_slash.
Qed.

Lemma hyphen_number (n : N) :
  Js.exists_char (Ascii.eqb ".") ("-" ++ Js.number_toString n) = false /\
  Js.exists_char (Ascii.eqb "/") ("-" ++ Js.number_toString n) = false.
Proof.
  pose proof (number_toString_digits n) as Hdig.
  change ("-" ++ Js.number_toString n)%string with (String "-" (Js.number_toString n)).
  cbn [Js.exists_char]. rewrite (digits_no_slash _ Hdig). split; [|reflexivity].
  clear -Hdig. induction (Js.number_toString n) as [|d t IH]; [reflexivity|].
  cbn [Js.forall_chars Js.exists_char] in *. apply andb_true_iff in Hdig as [Hd Ht].
  rewrite orb_false_l in *. rewrite (IH Ht), orb_false_r. clear -Hd.
  destruct d as [[] [] [] [] [] [] [] []]; try discriminate Hd; reflexivity.
Qed.

Lemma extname_nameB (e : Multer.env) (p : Multer.part) :
  Path.extname (ServerB.storage_filename e p)
  = Js.toLowerCase (Path.extname (Multer.originalname p)).
Proof.
  unfold ServerB.storage_filename. cbn zeta. rewrite string_app_assoc.
  change ("-" ++ Js.number_toString (Multer.random e))%string
    with (String "-" (Js.number_toString (Multer.random e))).
  change (String "-" (Js.number_toString (Multer.random e))
          ++ Js.toLowerCase (Path.extname (Multer.originalname p)))%string
    with (("-" ++ Js.number_toString (Multer.random e))
          ++ Js.toLowerCase (Path.extname (Multer.originalname p)))%string.
  apply extname_numbered; try apply hyphen_number. apply lower_extname_shape.
Qed.

Lemma extname_nameA (e : Multer.env) (p : Multer.part) :
  Path.extname (ServerA.storage_filename e p)
  = Js.toLowerCase (Path.extname (Multer.originalname p)).
Proof. exact (extname_nameB e p). Qed.

Lemma extname_nameC (e : Multer.env) (p : Multer.part) :
  Path.extname (Part000.storage_filename e p) = Path.extname (Multer.originalname p).
Proof.
  unfold Part000.storage_filename.
  change (Js.number_toString (Multer.now e) ++ Path.extname (Multer.originalname p))%string
    with (Js.number_toString (Multer.now e) ++ "" ++ Path.extname (Multer.originalname p))%string.
  apply extname_numbered; try reflexivity. apply extname_shape.
Qed.

(** X7. The extension of the name an upload is stored under is the
    extension of the name it was sent under: lowercased in the two programs
    of src/server.js, as it was sent in part_000. *)
Theorem generated_name_keeps_extension (e : Multer.env) (p : Multer.part) :
  Path.extname (ServerA.storage_filename e p)
    = Js.toLowerCase (Path.extname (Multer.originalname p)) /\
  Path.extname (ServerB.storage_filename e p)
    = Js.toLowerCase (Path.extname (Multer.originalname p)) /\
  Path.extname (Part000.storage_filename e p) = Path.extname (Multer.originalname p).
Proof.
  split; [apply extname_nameA|]. split; [apply extname_nameB|apply extname_nameC].
Qed.

End Extension.

(** ** What an upload does to the directory *)

Lemma keys_replace {K V : Type} (eqb : K -> K -> bool) (k : K) (v : V) (l : list (K * V)) :
  map fst (Fs.replace eqb k v l) = map fst l.
Proof.
  induction l as [|[k0 w0] l IH]; cbn [Fs.replace map fst]; [reflexivity|].
  destruct (eqb k0 k); cbn [map fst]; now rewrite IH.
Qed.

Lemma keys_put_cases {K V : Type} (eqb : K -> K -> bool) (k : K) (v : V) (l : list (K * V)) :
  map fst (Fs.put eqb k v l)
  = match Fs.lookup eqb k l with
    | Some _ => map fst l
    | None => (map fst l ++ [k])%list
    end.
Proof.
  unfold Fs.put. destruct (Fs.lookup eqb k l).
  - apply keys_replace.
  - now rewrite map_app.
Qed.

Lemma listed_iff (is_image : string -> bool) (fs : Fs.t) (name : string) :
  In name (JsArray.sort (fun a b => (Fs.entry_mtimeMs fs b - Fs.entry_mtimeMs fs a)%Z)
             (filter is_image (Fs.readdirSync fs)))
  <-> In name (Fs.readdirSync fs) /\ is_image name = true.
Proof.
  pose proof (sort_perm (Fs.entry_mtimeMs fs) (filter is_image (Fs.readdirSync fs))) as Hperm.
  rewrite <- filter_In. split; intros H.
  - exact (Permutation_in _ Hperm H).
  - exact (Permutation_in _ (Permutation_sym Hperm) H).
Qed.

Section UploadProperties.
Variable dirname : Path.path.


Lemma minus_frame (name other : string) (fs : Fs.t) :
  other <> name ->
  Fs.lookup String.eqb other (Fs.store (minus name fs)) = Fs.lookup String.eqb other (Fs.store fs).
Proof.
  intros Hne. cbn [minus Fs.store].
  apply (lookup_remove_other String.eqb String.eqb_eq). congruence.
Qed.

Lemma put_frame (name other : string) (f : Fs.file) (l : list (string * Fs.file)) :
  other <> name ->
  Fs.lookup String.eqb other (Fs.put String.eqb name f l) = Fs.lookup String.eqb other l.
Proof.
  intros Hne. apply (lookup_put_other String.eqb String.eqb_eq). congruence.
Qed.

(** X9. Whatever a request to [POST /upload] of either program of
    src/server.js carries, and whether it is accepted or refused, the only
    entry of the upload directory it can add, change or remove is the one
    of the name generated for its first file; the files outside of the
    directory stay as they are. *)
Theorem upload_touches_one_name (fromBuffer : list byte -> option file_type)
    (e : Multer.env) (p : Multer.part) (rest : list Multer.part) (fs : Fs.t)
    (other : string) :
  other <> ServerB.storage_filename e p ->
  let fsA := snd (ServerA.post_upload dirname fromBuffer e (p :: rest) fs) in
  let fsB := snd (ServerB.post_upload dirname e (p :: rest) fs) in
  Fs.lookup String.eqb other (Fs.store fsA) = Fs.lookup String.eqb other (Fs.store fs) /\
  Fs.elsewhere fsA = Fs.elsewhere fs /\
  Fs.lookup String.eqb other (Fs.store fsB) = Fs.lookup String.eqb other (Fs.store fs) /\
  Fs.elsewhere fsB = Fs.elsewhere fs.
Proof.
  intros Hne. cbn zeta. rewrite postA_cases, postB_cases. cbn zeta.
  change (ServerA.storage_filename e p) with (ServerB.storage_filename e p).
  pose proof (minus_frame _ _ fs Hne) as Hm.
  pose proof (put_frame _ _ {| Fs.mtimeMs := Multer.clock e; Fs.data := Multer.buffer p |}
                (Fs.store fs) Hne) as Hp.
  repeat split.
  - repeat match goal with
           | |- context [if ?b then _ else _] => destruct b
           | |- context [match ?l with [] => _ | _ :: _ => _ end] => destruct l
           end; cbn [snd Fs.store]; try reflexivity; assumption.
  - repeat match goal with
           | |- context [if ?b then _ else _] => destruct b
           | |- context [match ?l with [] => _ | _ :: _ => _ end] => destruct l
           end; reflexivity.
  - repeat match goal with
           | |- context [if ?b then _ else _] => destruct b
           | |- context [match ?l with [] => _ | _ :: _ => _ end] => destruct l
           end; cbn [snd Fs.store]; try reflexivity; assumption.
  - repeat match goal with
           | |- context [if ?b then _ else _] => destruct b
           | |- context [match ?l with [] => _ | _ :: _ => _ end] => destruct l
           end; reflexivity.
Qed.

(** X10. The same for [POST /upload] of part_000, with the name it
    generates. *)
Theorem upload_touches_one_name_part000
    (e : Multer.env) (p : Multer.part) (rest : list Multer.part) (fs : Fs.t)
    (other : string) :
  other <> Part000.storage_filename e p ->
  let fs' := snd (Part000.post_upload dirname e (p :: rest) fs) in
  Fs.lookup String.eqb other (Fs.store fs') = Fs.lookup String.eqb other (Fs.store fs) /\
  Fs.elsewhere fs' = Fs.elsewhere fs.
Proof.
  intros Hne. cbn zeta. rewrite postC_cases. cbn zeta.
  pose proof (minus_frame _ _ fs Hne) as Hm.
  pose proof (put_frame _ _ {| Fs.mtimeMs := Multer.clock e; Fs.data := Multer.buffer p |}
                (Fs.store fs) Hne) as Hp.
  split.
  - repeat match goal with
           | |- context [if ?b then _ else _] => destruct b
           | |- context [match ?l with [] => _ | _ :: _ => _ end] => destruct l
           end; cbn [snd Fs.store]; try reflexivity; assumption.
  - repeat match goal with
           | |- context [if ?b then _ else _] => destruct b
           | |- context [match ?l with [] => _ | _ :: _ => _ end] => destruct l
           end; reflexivity.
Qed.

End UploadProperties.


Lemma upload_touches_one_name_witness :
  let fsA := snd (ServerA.post_upload srv Magic.fromBuffer env0 [png_part; html_part] old_fs) in
  let fsB := snd (ServerB.post_upload srv env0 [png_part; html_part] old_fs) in
  Fs.lookup String.eqb "1600000000000-42.png" (Fs.store fsA)
    = Fs.lookup String.eqb "1600000000000-42.png" (Fs.store old_fs) /\
  Fs.elsewhere fsA = Fs.elsewhere old_fs /\
  Fs.lookup String.eqb "1600000000000-42.png" (Fs.store fsB)
    = Fs.lookup String.eqb "1600000000000-42.png" (Fs.store old_fs) /\
  Fs.elsewhere fsB = Fs.elsewhere old_fs.
Proof.
  apply (upload_touches_one_name srv Magic.fromBuffer env0 png_part [html_part] old_fs).
  vm_compute. discriminate.
Defined.

Lemma upload_touches_one_name_part000_witness :
  let fs' := snd (Part000.post_upload srv env0 [html_part] old_fs) in
  Fs.lookup String.eqb "1600000000000-42.png" (Fs.store fs')
    = Fs.lookup String.eqb "1600000000000-42.png" (Fs.store old_fs) /\
  Fs.elsewhere fs' = Fs.elsewhere old_fs.
Proof.
  apply (upload_touches_one_name_part000 srv env0 html_part [] old_fs).
  vm_compute. discriminate.
Defined.

(** ** An upload and the gallery, an upload and its deletion *)

Lemma generated_name_safe (n r : N) (ext : string) :
  Js.forall_chars Regex.safe_char ext = true ->
  Regex.safe_name_test (Js.number_toString n ++ "-" ++ Js.number_toString r ++ ext) = true.
Proof.
  intros Hext. unfold Regex.safe_name_test.
  assert (Hd : forall s, Js.forall_chars Js.is_digit s = true ->
                         Js.forall_chars Regex.safe_char s = true).
  { induction s as [|c s IH]; cbn [Js.forall_chars]; [reflexivity|].
    intros H. apply andb_true_iff in H as [Hc Hs]. rewrite (IH Hs), andb_true_r.
    clear -Hc. destruct c as [[] [] [] [] [] [] [] []]; try discriminate Hc; reflexivity. }
  destruct (number_toString_nonempty n) as (c & s & En & Hc).
  apply andb_true_iff. split.
  - now rewrite En.
  - rewrite forall_chars_app, (Hd _ (number_toString_digits n)).
    change ("-" ++ Js.number_toString r ++ ext)%string
      with (String "-" (Js.number_toString r ++ ext)).
    cbn [Js.forall_chars andb].
    rewrite forall_chars_app, (Hd _ (number_toString_digits r)), Hext. reflexivity.
Qed.

Lemma generated_name_unsafe (n r : N) (ext : string) :
  Js.forall_chars Regex.safe_char ext = false ->
  Regex.safe_name_test (Js.number_toString n ++ "-" ++ Js.number_toString r ++ ext) = false.
Proof.
  intros Hext. unfold Regex.safe_name_test. apply andb_false_iff. right.
  rewrite forall_chars_app.
  change ("-" ++ Js.number_toString r ++ ext)%string
    with (String "-" (Js.number_toString r ++ ext)).
  cbn [Js.forall_chars]. rewrite forall_chars_app, Hext.
  now rewrite !andb_false_r.
Qed.

Lemma generated_name_not_dots (n : N) (rest : string) :
  String.eqb (Js.number_toString n ++ rest) "." = false /\
  String.eqb (Js.number_toString n ++ rest) ".." = false.
Proof.
  destruct (number_toString_nonempty n) as (c & s & -> & Hc).
  cbn [String.append String.eqb].
  destruct c as [[] [] [] [] [] [] [] []]; try discriminate Hc; now split.
Qed.

Lemma target_unsafe (items : list value) (name : string) :
  Regex.safe_name_test name = false -> targeted items name = false.
Proof.
  intros Hn. unfold targeted. apply existsb_never. intros v.
  destruct v as [s|s]; [|reflexivity]. cbn [target].
  destruct (String.eqb name s) eqn:E; [|apply andb_false_r].
  apply String.eqb_eq in E. subst s. now rewrite Hn.
Qed.

Section UploadAndGallery.
Variable dirname : Path.path.

(** X11. What a 201 of the second program says of the file: one file was
    sent; [size] is the number of bytes stored under the name, which are
    the bytes sent; [mimetype] is the type the client declared; the
    directory lists what it listed before, and one name more unless the
    generated name was there already, in which case that file is
    overwritten. *)
Theorem created_upload_B (e : Multer.env) (parts : list Multer.part) (fs fs' : Fs.t)
    (name : string) (size : N) (url mimetype : string) :
  ServerB.post_upload dirname e parts fs = (ServerB.Created name size url mimetype, fs') ->
  exists p,
    parts = [p] /\
    Fs.find (ServerB.uploadDir dirname) (Path.join (ServerB.uploadDir dirname) name) fs'
      = Some {| Fs.mtimeMs := Multer.clock e; Fs.data := Multer.buffer p |} /\
    size = N.of_nat (List.length (Multer.buffer p)) /\
    mimetype = Multer.mimetype p /\
    url = ("/uploads/" ++ name)%string /\
    Fs.readdirSync fs'
      = match Fs.lookup String.eqb name (Fs.store fs) with
        | Some _ => Fs.readdirSync fs
        | None => (Fs.readdirSync fs ++ [name])%list
        end.
Proof.
  rewrite postB_cases. destruct parts as [|p [|q rest]]; cbn zeta.
  - discriminate.
  - destruct (negb _); [discriminate|]. destruct (negb _); [discriminate|].
    destruct (_ <? _)%N; [discriminate|].
    intros [= <- <- <- <- <-]. exists p. split; [reflexivity|].
    rewrite nameB_entry, find_entry. cbn [Fs.store].
    rewrite (lookup_put String.eqb String.eqb_eq). split; [reflexivity|].
    repeat split. unfold Fs.readdirSync. cbn [Fs.store]. apply keys_put_cases.
  - destruct (negb _); [discriminate|]. destruct (negb _); [discriminate|].
    destruct (_ <? _)%N; discriminate.
Qed.

(** X12. A file the second program accepted shows in its gallery exactly
    when the lowercased extension of the name it was sent under is one of
    [.jpg], [.jpeg], [.png] and [.gif]: the filter looks for these words
    anywhere in the extension, the gallery wants the extension to be one of
    them. The same for the first program, with [.webp]. *)
Theorem accepted_upload_listed (fromBuffer : list byte -> option file_type)
    (e : Multer.env) (p : Multer.part) (fs : Fs.t) :
  (ServerB.accepted (fst (ServerB.post_upload dirname e [p] fs)) = true ->
   (In (ServerB.storage_filename e p)
       (ServerB.images (snd (ServerB.post_upload dirname e [p] fs)))
    <-> In (Js.toLowerCase (Path.extname (Multer.originalname p)))
           ServerB.image_extensions)) /\
  (ServerA.accepted (fst (ServerA.post_upload dirname fromBuffer e [p] fs)) = true ->
   (In (ServerA.storage_filename e p)
       (ServerA.images (snd (ServerA.post_upload dirname fromBuffer e [p] fs)))
    <-> In (Js.toLowerCase (Path.extname (Multer.originalname p)))
           ServerA.image_extensions)).
Proof.
  split.
  - rewrite postB_cases. cbn zeta.
    destruct (negb _); [discriminate|]. destruct (negb _); [discriminate|].
    destruct (_ <? _)%N; [discriminate|]. intros _. cbn [snd].
    unfold ServerB.images, ServerB.by_mtime_desc. cbn zeta. rewrite listed_iff.
    unfold ServerB.is_image. cbn zeta.
    rewrite extname_nameB, toLowerCase_idempotent, existsb_eqb.
    split; [now intros [_ H]|]. intros H. split; [|exact H].
    unfold Fs.readdirSync. cbn [Fs.store].
    eapply (lookup_in_keys String.eqb String.eqb_eq).
    apply (lookup_put String.eqb String.eqb_eq).
  - rewrite postA_cases. cbn zeta.
    destruct (negb _); [discriminate|]. destruct (negb _); [discriminate|].
    destruct (_ <? _)%N; discriminate.
Qed.

(** X13. Upload, then delete: when the lowercased extension of the name a
    file was sent under has safe characters only, a batch that names the
    file the second program has just stored deletes it, answers 200 with
    one success of one, and leaves the directory without that name; if the
    name was new, the file system is what it was before the upload. *)
Theorem upload_then_delete (e : Multer.env) (p : Multer.part) (fs : Fs.t) :
  ServerB.accepted (fst (ServerB.post_upload dirname e [p] fs)) = true ->
  Js.forall_chars Regex.safe_char (Js.toLowerCase (Path.extname (Multer.originalname p)))
    = true ->
  let name := ServerB.storage_filename e p in
  let filePath := (dirname ++ ["public"; "uploads"; name])%list in
  ServerB.post_delete dirname (Some [Str name])
    (snd (ServerB.post_upload dirname e [p] fs))
  = (ServerB.Deleted 1 1
       [{| ServerB.filename := Str name; ServerB.item_status := ServerB.success |}],
     minus name fs,
     [Fs.ExistsSync filePath; Fs.UnlinkSync filePath]) /\
  (Fs.lookup String.eqb name (Fs.store fs) = None -> minus name fs = fs).
Proof.
  intros Hacc Hext. cbn zeta. split.
  - revert Hacc. rewrite postB_cases. cbn zeta.
    destruct (negb _); [discriminate|]. destruct (negb _); [discriminate|].
    destruct (_ <? _)%N; [discriminate|]. intros _. cbn [snd].
    unfold ServerB.post_delete. change (List.length [Str (ServerB.storage_filename e p)] =? 0)%nat with false.
    cbn iota. cbn [ServerB.delete_items]. rewrite delete_item_cases. cbn [toString].
    assert (Hsafe : Regex.safe_name_test (ServerB.storage_filename e p) = true).
    { unfold ServerB.storage_filename. cbn zeta. rewrite unique_name_assoc.
      now apply generated_name_safe. }
    rewrite Hsafe. cbn [negb]. cbn zeta.
    destruct (generated_name_not_dots (Multer.now e)
                ("-" ++ Js.number_toString (Multer.random e)
                 ++ Js.toLowerCase (Path.extname (Multer.originalname p)))) as [H1 H2].
    assert (Hname : ServerB.storage_filename e p
                    = (Js.number_toString (Multer.now e) ++ "-"
                       ++ Js.number_toString (Multer.random e)
                       ++ Js.toLowerCase (Path.extname (Multer.originalname p)))%string).
    { unfold ServerB.storage_filename. cbn zeta. apply unique_name_assoc. }
    rewrite <- Hname in H1, H2. rewrite H1, H2. cbn [orb Fs.store].
    rewrite (lookup_put String.eqb String.eqb_eq).
    rewrite nameB_entry. unfold ServerB.uploadDir. rewrite uploadDir_eq, <- app_assoc.
    cbn [app length filter ServerB.is_success ServerB.item_status Nat.eqb].
    unfold minus. cbn [Fs.store Fs.elsewhere].
    rewrite (remove_put String.eqb String.eqb_eq). reflexivity.
  - intros Hnew. unfold minus. rewrite (remove_absent String.eqb) by exact Hnew.
    apply fs_eta.
Qed.

(** X14. When that extension has a character that is not safe (a space,
    say: the filter only looks for a word inside it), the second program
    accepts and stores the file, and no request to [POST /delete] deletes
    it: after any batch it is stored as it was. *)
Theorem unsafe_extension_never_deleted (e : Multer.env) (p : Multer.part) (fs : Fs.t)
    (body : option (list value)) :
  ServerB.accepted (fst (ServerB.post_upload dirname e [p] fs)) = true ->
  Js.forall_chars Regex.safe_char (Js.toLowerCase (Path.extname (Multer.originalname p)))
    = false ->
  let name := ServerB.storage_filename e p in
  let fs1 := snd (ServerB.post_upload dirname e [p] fs) in
  let fs2 := snd (fst (ServerB.post_delete dirname body fs1)) in
  Fs.lookup String.eqb name (Fs.store fs1)
    = Some {| Fs.mtimeMs := Multer.clock e; Fs.data := Multer.buffer p |} /\
  Fs.lookup String.eqb name (Fs.store fs2)
    = Some {| Fs.mtimeMs := Multer.clock e; Fs.data := Multer.buffer p |}.
Proof.
  intros Hacc Hext. cbn zeta.
  assert (Hunsafe : Regex.safe_name_test (ServerB.storage_filename e p) = false).
  { unfold ServerB.storage_filename. cbn zeta. rewrite unique_name_assoc.
    now apply generated_name_unsafe. }
  rewrite post_delete_state. cbn [Fs.store].
  rewrite lookup_filter_names, (target_unsafe _ _ Hunsafe).
  revert Hacc. rewrite postB_cases. cbn zeta.
  destruct (negb _); [discriminate|]. destruct (negb _); [discriminate|].
  destruct (_ <? _)%N; [discriminate|]. intros _. cbn [snd Fs.store].
  rewrite (lookup_put String.eqb String.eqb_eq). now split.
Qed.

End UploadAndGallery.

Lemma created_upload_B_witness :
  exists p,
    [png_part] = [p] /\
    Fs.find (ServerB.uploadDir srv)
      (Path.join (ServerB.uploadDir srv) "1700000000000-123456789.png")
      {| Fs.store := Fs.store old_fs ++
                     [("1700000000000-123456789.png"%string,
                       {| Fs.mtimeMs := 1700000000005; Fs.data := png_bytes |})];
         Fs.elsewhere := [] |}
      = Some {| Fs.mtimeMs := Multer.clock env0; Fs.data := Multer.buffer p |} /\
    9%N = N.of_nat (List.length (Multer.buffer p)) /\
    "image/png"%string = Multer.mimetype p /\
    "/uploads/1700000000000-123456789.png"%string
      = ("/uploads/" ++ "1700000000000-123456789.png")%string /\
    Fs.readdirSync
      {| Fs.store := Fs.store old_fs ++
                     [("1700000000000-123456789.png"%string,
                       {| Fs.mtimeMs := 1700000000005; Fs.data := png_bytes |})];
         Fs.elsewhere := [] |}
      = match Fs.lookup String.eqb "1700000000000-123456789.png" (Fs.store old_fs) with
        | Some _ => Fs.readdirSync old_fs
        | None => (Fs.readdirSync old_fs ++ ["1700000000000-123456789.png"%string])%list
        end.
Proof.
  apply (created_upload_B srv env0 [png_part] old_fs). reflexivity.
Defined.

Lemma accepted_upload_listed_witness :
  In (ServerB.storage_filename env0 png_part)
     (ServerB.images (snd (ServerB.post_upload srv env0 [png_part] old_fs)))
  <-> In (Js.toLowerCase (Path.extname (Multer.originalname png_part)))
         ServerB.image_extensions.
Proof.
  destruct (accepted_upload_listed srv Magic.fromBuffer env0 png_part old_fs) as [HB _].
  apply HB. reflexivity.
Defined.

Lemma upload_then_delete_witness :
  let name := ServerB.storage_filename env0 png_part in
  let filePath := (srv ++ ["public"%string; "uploads"%string; name])%list in
  ServerB.post_delete srv (Some [Str name])
    (snd (ServerB.post_upload srv env0 [png_part] old_fs))
  = (ServerB.Deleted 1 1
       [{| ServerB.filename := Str name; ServerB.item_status := ServerB.success |}],
     minus name old_fs,
     [Fs.ExistsSync filePath; Fs.UnlinkSync filePath]) /\
  (Fs.lookup String.eqb name (Fs.store old_fs) = None -> minus name old_fs = old_fs).
Proof.
  apply (upload_then_delete srv env0 png_part old_fs); reflexivity.
Defined.

Lemma unsafe_extension_never_deleted_witness :
  let name := ServerB.storage_filename env0 spaced_part in
  let fs1 := snd (ServerB.post_upload srv env0 [spaced_part] old_fs) in
  let fs2 := snd (fst (ServerB.post_delete srv (Some [Str name]) fs1)) in
  Fs.lookup String.eqb name (Fs.store fs1)
    = Some {| Fs.mtimeMs := Multer.clock env0; Fs.data := Multer.buffer spaced_part |} /\
  Fs.lookup String.eqb name (Fs.store fs2)
    = Some {| Fs.mtimeMs := Multer.clock env0; Fs.data := Multer.buffer spaced_part |}.
Proof.
  apply (unsafe_extension_never_deleted srv env0 spaced_part old_fs
           (Some [Str (ServerB.storage_filename env0 spaced_part)])); reflexivity.
Defined.

(** ** part_000: deletion by path parameter *)

Lemma locate_entry_inv (dir p : Path.path) (name : string) :
  Fs.locate dir p = Fs.Entry name -> p = (dir ++ [name])%list.
Proof.
  unfold Fs.locate. destruct (Fs.strip p dir); [discriminate|].
  destruct (Fs.strip dir p) as [[|n [|? ?]]|] eqn:E; try discriminate.
  intros [= <-]. now apply strip_some.
Qed.

Lemma locate_elsewhere_inv (dir p q : Path.path) :
  Fs.locate dir p = Fs.Elsewhere q -> q = p.
Proof.
  unfold Fs.locate. destruct (Fs.strip p dir); [discriminate|].
  destruct (Fs.strip dir p) as [[|n [|? ?]]|]; try discriminate; now intros [= <-].
Qed.

Lemma unlink_other (dir p q : Path.path) (fs fs' : Fs.t) :
  Fs.unlinkSync dir p fs = Return fs' -> q <> p -> Fs.find dir q fs' = Fs.find dir q fs.
Proof.
  unfold Fs.unlinkSync, Fs.find. intros H Hne.
  destruct (Fs.locate dir p) as [n| |p'] eqn:Ep; [| discriminate |].
  - destruct (Fs.lookup String.eqb n (Fs.store fs)); [|discriminate].
    injection H as <-. cbn [Fs.store Fs.elsewhere].
    destruct (Fs.locate dir q) as [m| |q'] eqn:Eq; try reflexivity.
    apply (lookup_remove_other String.eqb String.eqb_eq).
    intros ->. apply locate_entry_inv in Ep, Eq. congruence.
  - destruct (Fs.lookup Fs.path_eqb p' (Fs.elsewhere fs)); [|discriminate].
    injection H as <-. cbn [Fs.store Fs.elsewhere].
    destruct (Fs.locate dir q) as [m| |q'] eqn:Eq; try reflexivity.
    apply (lookup_remove_other Fs.path_eqb path_eqb_spec).
    intros ->. apply locate_elsewhere_inv in Ep, Eq. congruence.
Qed.

Lemma unlink_succeeds_iff (dir p : Path.path) (fs : Fs.t) :
  match Fs.unlinkSync dir p fs with
  | Return _ => Fs.find dir p fs <> None
  | Throw _ => Fs.find dir p fs = None
  end.
Proof.
  unfold Fs.unlinkSync, Fs.find.
  destruct (Fs.locate dir p) as [n| |p']; [| reflexivity |].
  - now destruct (Fs.lookup String.eqb n (Fs.store fs)).
  - now destruct (Fs.lookup Fs.path_eqb p' (Fs.elsewhere fs)).
Qed.

Section DeleteImage.
Variable dirname : Path.path.
Let uploadDir := Part000.uploadDir dirname.

(** X15. [DELETE /image/:filename] answers 200 exactly when the name has no
    null byte, does not end in a slash, and the path it joins to names a
    stored file, in the upload directory or anywhere else; then that file
    is gone and every other path holds what it held. In every other case
    the answer is a 500 and the file system is as it was. *)
Theorem delete_image_outcome (filename : string) (fs : Fs.t) :
  let filePath := Path.join (Part000.uploadDir dirname) filename in
  let '(response, fs', calls) := Part000.delete_image dirname filename fs in
  (response = Part000.DeleteSuccess <->
     Part000.has_null_byte filename = false /\ Js.endsWith "/" filename = false /\
     Fs.find (Part000.uploadDir dirname) filePath fs <> None) /\
  (response <> Part000.DeleteSuccess ->
     Part000.delete_status response = 500%Z /\ fs' = fs) /\
  (response = Part000.DeleteSuccess ->
     Fs.find (Part000.uploadDir dirname) filePath fs' = None /\
     forall q, q <> filePath ->
       Fs.find (Part000.uploadDir dirname) q fs' = Fs.find (Part000.uploadDir dirname) q fs).
Proof.
  cbn zeta. unfold Part000.delete_image. cbn zeta. fold uploadDir.
  destruct (Part000.has_null_byte filename) eqn:Hnull.
  { split; [split; [discriminate|now intros [? _]]|]. split; [now intros _|discriminate]. }
  unfold Part000.unlink. fold uploadDir.
  destruct (Js.endsWith "/" filename) eqn:Hslash.
  { split; [split; [discriminate|now intros (_ & ? & _)]|]. split; [now intros _|discriminate]. }
  pose proof (unlink_succeeds_iff uploadDir (Path.join uploadDir filename) fs) as Hiff.
  destruct (Fs.unlinkSync uploadDir (Path.join uploadDir filename) fs) as [fs'|err] eqn:Hun.
  - split; [split; [now intros _|reflexivity]|]. split; [now intros H|].
    intros _. split.
    + eapply unlink_find. exact Hun.
    + intros q Hq. eapply unlink_other; eassumption.
  - split; [split; [discriminate|now intros (_ & _ & ?)]|]. split; [now intros _|discriminate].
Qed.

Lemma nameC_no_slash (e : Multer.env) (p : Multer.part) :
  Js.exists_char (Ascii.eqb "/") (Part000.storage_filename e p) = false.
Proof.
  unfold Part000.storage_filename.
  now rewrite exists_char_app, (digits_no_slash _ (number_toString_digits _)), extname_no_slash.
Qed.

Lemma split_chars (P : ascii -> bool) (sep : ascii) (s seg : string) :
  In seg (Js.split sep s) -> Js.exists_char P seg = true -> Js.exists_char P s = true.
Proof.
  revert seg. induction s as [|c s IH]; intros seg; cbn [Js.split].
  - intros [<-|[]]. discriminate.
  - cbn [Js.exists_char]. destruct (Ascii.eqb c sep).
    + intros [<-|Hin]; [discriminate|]. intros H. rewrite (IH _ Hin H). apply orb_true_r.
    + destruct (Js.split sep s) as [|seg0 segs] eqn:E.
      * intros [<-|[]]. cbn [Js.exists_char]. rewrite orb_false_r. now intros ->.
      * intros [<-|Hin].
        -- cbn [Js.exists_char]. intros H. apply orb_true_iff in H as [H|H].
           ++ now rewrite H.
           ++ rewrite (IH seg0 (or_introl eq_refl) H). apply orb_true_r.
        -- intros H. rewrite (IH seg (or_intror Hin) H). apply orb_true_r.
Qed.

Lemma last_in {A : Type} (l : list A) (d : A) : l <> [] -> In (last l d) l.
Proof.
  induction l as [|a l IH]; [easy|]. intros _. destruct l as [|b l]; [now left|].
  right. apply IH. discriminate.
Qed.

Lemma extname_chars (P : ascii -> bool) (s : string) :
  Js.exists_char P (Path.extname s) = true -> Js.exists_char P s = true.
Proof.
  unfold Path.extname.
  destruct (Path.last_dot (Path.last_component s)) as [[pre ext]|] eqn:E; [|discriminate].
  destruct (_ || _); [discriminate|]. intros Hext.
  apply last_dot_app in E.
  assert (Hcomp : Js.exists_char P (Path.last_component s) = true).
  { rewrite E, exists_char_app, Hext. apply orb_true_r. }
  unfold Path.last_component in *.
  destruct (filter (fun seg => negb (String.eqb seg "")) (Js.split "/" s)) as [|a l] eqn:Ef.
  - discriminate.
  - assert (Hin : In (last (a :: l) ""%string) (a :: l)) by (apply last_in; discriminate).
    rewrite <- Ef in Hin at 2. apply filter_In in Hin as [Hin _].
    eapply split_chars; eassumption.
Qed.

Lemma nameC_no_null (e : Multer.env) (p : Multer.part) :
  Part000.has_null_byte (Multer.originalname p) = false ->
  Part000.has_null_byte (Part000.storage_filename e p) = false.
Proof.
  unfold Part000.has_null_byte, Part000.storage_filename. intros H.
  rewrite exists_char_app. apply orb_false_iff. split.
  - pose proof (number_toString_digits (Multer.now e)) as Hd.
    induction (Js.number_toString (Multer.now e)) as [|c s IH]; [reflexivity|].
    cbn [Js.forall_chars Js.exists_char] in *. apply andb_true_iff in Hd as [Hc Hs].
    rewrite (IH Hs), orb_false_r. clear -Hc.
    destruct c as [[] [] [] [] [] [] [] []]; try discriminate Hc; reflexivity.
  - destruct (Js.exists_char (fun c => Ascii.eqb c "000")
                (Path.extname (Multer.originalname p))) eqn:E; [|reflexivity].
    apply extname_chars in E. congruence.
Qed.

(** X16. Upload, then delete, in part_000: a request to
    [DELETE /image/<name>] for the name under which a file was just stored
    succeeds and leaves the directory without that name; if the name was
    new, the file system is what it was before the upload. *)
Theorem upload_then_delete_part000 (e : Multer.env) (p : Multer.part) (fs : Fs.t) :
  Multer.fieldname p = "image"%string ->
  Part000.has_null_byte (Multer.originalname p) = false ->
  let name := Part000.storage_filename e p in
  Part000.delete_image dirname name (snd (Part000.post_upload dirname e [p] fs))
  = (Part000.DeleteSuccess, minus name fs,
     [Fs.Unlink (dirname ++ ["public"; "uploads"; name])%list]) /\
  (Fs.lookup String.eqb name (Fs.store fs) = None -> minus name fs = fs).
Proof.
  intros Hfield Hnull. cbn zeta. split.
  - rewrite (postC_accepts dirname e p fs Hfield). cbn [snd].
    unfold Part000.delete_image. cbn zeta.
    rewrite (nameC_no_null e p Hnull).
    unfold Part000.unlink.
    assert (Hslash : Js.endsWith "/" (Part000.storage_filename e p) = false).
    { destruct (Js.endsWith "/" (Part000.storage_filename e p)) eqn:E; [|reflexivity].
      apply endsWith_exists in E. now rewrite nameC_no_slash in E. }
    rewrite Hslash, nameC_entry, unlink_written.
    unfold Part000.uploadDir. now rewrite uploadDir_eq, <- app_assoc.
  - intros Hnew. unfold minus. rewrite (remove_absent String.eqb) by exact Hnew.
    apply fs_eta.
Qed.


End DeleteImage.

Lemma delete_image_outcome_witness :
  let fs' := snd (fst (Part000.delete_image srv "../../server.js" spaced_fs)) in
  Fs.find (Part000.uploadDir srv) ["srv"; "app"; "server.js"]%string spaced_fs <> None /\
  Fs.find (Part000.uploadDir srv) ["srv"; "app"; "server.js"]%string fs' = None /\
  Fs.find (Part000.uploadDir srv) ["srv"; "app"; "public"; "uploads"; "my photo.png"]%string fs'
  = Fs.find (Part000.uploadDir srv) ["srv"; "app"; "public"; "uploads"; "my photo.png"]%string
      spaced_fs.
Proof.
  generalize (delete_image_outcome srv "../../server.js" spaced_fs).
  change (Part000.delete_image srv "../../server.js" spaced_fs)
    with (Part000.DeleteSuccess,
          {| Fs.store := Fs.store spaced_fs; Fs.elsewhere := [] |},
          [Fs.Unlink ["srv"; "app"; "server.js"]%string]).
  change (Path.join (Part000.uploadDir srv) "../../server.js")
    with ["srv"; "app"; "server.js"]%string.
  cbn zeta. cbn iota. intros (Hiff & _ & Hdone).
  destruct Hiff as [Hiff _]. destruct (Hiff eq_refl) as (_ & _ & Hfound).
  destruct (Hdone eq_refl) as [Hgone Hothers].
  split; [exact Hfound|]. split; [exact Hgone|].
  apply Hothers. discriminate.
Defined.

Lemma upload_then_delete_part000_witness :
  let name := Part000.storage_filename env0 html_part in
  Part000.delete_image srv name (snd (Part000.post_upload srv env0 [html_part] old_fs))
  = (Part000.DeleteSuccess, minus name old_fs,
     [Fs.Unlink (srv ++ ["public"%string; "uploads"%string; name])%list]) /\
  (Fs.lookup String.eqb name (Fs.store old_fs) = None -> minus name old_fs = old_fs).
Proof.
  apply (upload_then_delete_part000 srv env0 html_part old_fs); reflexivity.
Defined.


(** ** When two generated names are the same *)

Lemma digits_prefix_unique (a b x y : string) :
  Js.forall_chars Js.is_digit a = true -> Js.forall_chars Js.is_digit b = true ->
  no_digit_ahead x -> no_digit_ahead y ->
  (a ++ x = b ++ y)%string -> a = b /\ x = y.
Proof.
  revert b. induction a as [|c a IH]; intros [|d b] Ha Hb Hx Hy; cbn [String.append].
  - now intros ->.
  - intros ->. cbn [no_digit_ahead Js.forall_chars] in *.
    apply andb_true_iff in Hb as [Hd _]. congruence.
  - intros <-. cbn [no_digit_ahead Js.forall_chars] in *.
    apply andb_true_iff in Ha as [Hc _]. congruence.
  - intros [= -> H]. cbn [Js.forall_chars] in *.
    apply andb_true_iff in Ha as [_ Ha]. apply andb_true_iff in Hb as [_ Hb].
    destruct (IH b Ha Hb Hx Hy H) as [-> ->]. now split.
Qed.

Lemma number_toString_inj (n m : N) :
  Js.number_toString n = Js.number_toString m -> n = m.
Proof.
  unfold Js.number_toString. intros H.
  assert (Hnil : forall k, N.to_uint k <> Decimal.Nil).
  { intros [|q]; [discriminate|]. apply DecimalPos.Unsigned.to_uint_nonnil. }
  apply DecimalN.Unsigned.to_uint_inj.
  pose proof (NilZero.usu _ (Hnil n)) as Hn. pose proof (NilZero.usu _ (Hnil m)) as Hm.
  rewrite H in Hn. congruence.
Qed.

Lemma extension_no_digit_ahead (original : string) :
  no_digit_ahead (Js.toLowerCase (Path.extname original)).
Proof.
  destruct (lower_extname_shape original) as [-> | (r & -> & _)]; [exact I|reflexivity].
Qed.

(** X18. The names the two programs of src/server.js generate are the same
    for two uploads exactly when the millisecond is the same, the random
    number is the same, and the lowercased extensions are the same:
    nothing else of the request or of the directory enters the name, and
    nothing checks whether the name is taken. *)
Theorem generated_names_equal_iff (e1 e2 : Multer.env) (p1 p2 : Multer.part) :
  ServerB.storage_filename e1 p1 = ServerB.storage_filename e2 p2
  <-> Multer.now e1 = Multer.now e2 /\
      Multer.random e1 = Multer.random e2 /\
      Js.toLowerCase (Path.extname (Multer.originalname p1))
      = Js.toLowerCase (Path.extname (Multer.originalname p2)).
Proof.
  unfold ServerB.storage_filename. cbn zeta. split.
  - rewrite !unique_name_assoc. intros H.
    apply digits_prefix_unique in H as [Hn H];
      try apply number_toString_digits; try reflexivity.
    injection H as H.
    apply digits_prefix_unique in H as [Hr Hx];
      try apply number_toString_digits; try apply extension_no_digit_ahead.
    apply number_toString_inj in Hn, Hr. now repeat split.
  - now intros (-> & -> & ->).
Qed.

(** ** The two filters of src/server.js *)

Lemma occurs_fold_case (w s : string) :
  occurs w s -> occurs (Js.fold_case w) (Js.fold_case s).
Proof.
  intros (pre & post & ->). exists (Js.fold_case pre), (Js.fold_case post).
  now rewrite !fold_case_app.
Qed.

Lemma fold_case_lower (s : string) : Js.fold_case (Js.toLowerCase s) = Js.toLowerCase s.
Proof.
  induction s as [|c s IH]; cbn [Js.fold_case Js.toLowerCase]; [reflexivity|].
  rewrite IH. f_equal. destruct c as [[] [] [] [] [] [] [] []]; reflexivity.
Qed.

Lemma startsWith_lower_fold (w s : string) :
  Js.forall_chars Js.is_lower w = true ->
  Js.startsWith w (Js.toLowerCase s) = true -> Js.startsWith w (Js.fold_case s) = true.
Proof.
  revert s. induction w as [|a w IH]; intros s Hw; [reflexivity|].
  destruct s as [|c s]; cbn [Js.toLowerCase Js.fold_case Js.startsWith]; [discriminate|].
  cbn [Js.forall_chars] in Hw. apply andb_true_iff in Hw as [Ha Hw].
  intros H. apply andb_true_iff in H as [Hc Hs].
  rewrite (IH s Hw Hs), andb_true_r.
  apply Ascii.eqb_eq in Hc. subst a. apply Ascii.eqb_eq.
  destruct c as [[] [] [] [] [] [] [] []]; try discriminate Ha; reflexivity.
Qed.

Lemma includes_lower_fold (w s : string) :
  Js.forall_chars Js.is_lower w = true ->
  Js.includes w (Js.toLowerCase s) = true -> Js.includes w (Js.fold_case s) = true.
Proof.
  intros Hw. induction s as [|c s IH]; cbn [Js.toLowerCase Js.fold_case Js.includes].
  - intros H. apply orb_true_iff in H as [H|H]; [|discriminate].
    now rewrite H.
  - intros H. apply orb_true_iff in H as [H|H].
    + change (String (Js.char_toLowerCase c) (Js.toLowerCase s))
        with (Js.toLowerCase (String c s)) in H.
      apply (startsWith_lower_fold w _ Hw) in H. cbn [Js.fold_case] in H.
      now rewrite H.
    + rewrite (IH H). apply orb_true_r.
Qed.

Lemma filetypes_words_lower :
  forall w, In w Regex.filetypes_words -> Js.forall_chars Js.is_lower w = true.
Proof. intros w [<-|[<-|[<-|[<-|[]]]]]; reflexivity. Qed.

Lemma type_test_inclusion (s : string) :
  Regex.filetypes_test s = true -> Regex.filetypes_webp_i_test s = true.
Proof.
  unfold Regex.filetypes_test, Regex.filetypes_webp_i_test.
  rewrite !existsb_exists. intros (w & Hw & Hm).
  exists w. split; [apply in_or_app; now left|].
  apply includes_spec. apply includes_spec in Hm. apply occurs_fold_case in Hm.
  assert (Hfold : Js.fold_case w = w).
  { destruct Hw as [<-|[<-|[<-|[<-|[]]]]]; reflexivity. }
  now rewrite Hfold in Hm.
Qed.

Lemma extension_test_inclusion (s : string) :
  Regex.filetypes_test (Js.toLowerCase s) = true -> Regex.filetypes_webp_i_test s = true.
Proof.
  unfold Regex.filetypes_test, Regex.filetypes_webp_i_test.
  rewrite !existsb_exists. intros (v & Hv & He).
  exists v. split; [apply in_or_app; now left|].
  apply includes_lower_fold; [now apply filetypes_words_lower|exact He].
Qed.

(** X19. The filter of the second program is the stricter one: every file
    it accepts, the filter of the first program accepts. *)
Theorem second_filter_is_stricter (p : Multer.part) :
  ServerB.fileFilter p = Return true -> ServerA.fileFilter p = Return true.
Proof.
  unfold ServerB.fileFilter, ServerA.fileFilter. cbn zeta.
  destruct (Regex.filetypes_test (Multer.mimetype p)) eqn:Hm; [|discriminate].
  destruct (Regex.filetypes_test (Js.toLowerCase (Path.extname (Multer.originalname p))))
    eqn:He; [|discriminate].
  intros _.
  now rewrite (type_test_inclusion _ Hm), (extension_test_inclusion _ He).
Qed.

Lemma second_filter_is_stricter_witness : ServerA.fileFilter png_part = Return true.
Proof. apply (second_filter_is_stricter png_part). reflexivity. Defined.

(** ** part_000: the dashboard *)

Section DashboardFacts.
Variable dirname : Path.path.

Lemma join_entry_name (base : Path.path) (s : string) :
  entry_name s = true -> Path.join base s = (base ++ [s])%list.
Proof.
  unfold entry_name. intros H.
  apply andb_true_iff in H as [H _]. apply andb_true_iff in H as [H Hslash].
  apply andb_true_iff in H as [H H2]. apply andb_true_iff in H as [H0 H1].
  apply negb_true_iff in H0, H1, H2, Hslash.
  unfold Path.join. rewrite (split_no_sep _ _ Hslash). cbn [fold_left].
  unfold Path.join_step. now rewrite H0, H1, H2.
Qed.

Lemma delete_image_entry (name : string) (fs : Fs.t) :
  entry_name name = true ->
  Part000.delete_image dirname name fs
  = match Fs.lookup String.eqb name (Fs.store fs) with
    | Some _ => (Part000.DeleteSuccess, minus name fs,
                 [Fs.Unlink (Part000.uploadDir dirname ++ [name])%list])
    | None => (Part000.FailedToDelete, fs,
               [Fs.Unlink (Part000.uploadDir dirname ++ [name])%list])
    end.
Proof.
  intros H. unfold Part000.delete_image. cbn zeta. rewrite (join_entry_name _ _ H).
  unfold entry_name in H.
  apply andb_true_iff in H as [H Hnull]. apply andb_true_iff in H as [_ Hslash].
  apply negb_true_iff in Hnull, Hslash. rewrite Hnull.
  unfold Part000.unlink.
  assert (Hend : Js.endsWith "/" name = false).
  { destruct (Js.endsWith "/" name) eqn:E; [|reflexivity].
    apply endsWith_exists in E. congruence. }
  rewrite Hend. unfold Fs.unlinkSync. rewrite locate_entry.
  now destruct (Fs.lookup String.eqb name (Fs.store fs)).
Qed.

Lemma delete_each_all (el : list (Path.path * Fs.file)) (l : list (string * Fs.file)) :
  Forall (fun n => entry_name n = true) (map fst l) ->
  NoDup (map fst l) ->
  delete_each dirname (map fst l) {| Fs.store := l; Fs.elsewhere := el |}
  = (map (fun _ => Part000.DeleteSuccess) l, {| Fs.store := []; Fs.elsewhere := el |}).
Proof.
  induction l as [|[k v] l IH]; cbn [map fst delete_each]; [reflexivity|].
  intros Hall Hnd. inversion Hall as [|? ? Hk Hl]; subst.
  inversion Hnd as [|? ? Hnotin Hnd']; subst.
  rewrite (delete_image_entry _ _ Hk). cbn [Fs.store Fs.lookup].
  rewrite String.eqb_refl.
  assert (Hrem : minus k {| Fs.store := (k, v) :: l; Fs.elsewhere := el |}
                 = {| Fs.store := l; Fs.elsewhere := el |}).
  { unfold minus. cbn [Fs.store Fs.elsewhere]. f_equal.
    unfold Fs.remove. cbn [filter fst]. rewrite String.eqb_refl. cbn [negb].
    fold (Fs.remove String.eqb k l). apply (remove_absent String.eqb).
    destruct (Fs.lookup String.eqb k l) eqn:E; [|reflexivity].
    apply (lookup_in_keys String.eqb String.eqb_eq) in E. contradiction. }
  rewrite Hrem, (IH Hl Hnd'). reflexivity.
Qed.

(** X20. The dashboard of part_000, then [DELETE /image/<name>] for each
    name it shows: when the directory enumerates distinct entry names,
    every request succeeds, the directory is empty afterwards, the files
    outside of it are untouched, and the dashboard then renders the
    paragraph for no images, not the grid. *)
Theorem dashboard_after_deleting_all (fs : Fs.t) :
  Forall (fun n => entry_name n = true) (Fs.readdirSync fs) ->
  NoDup (Fs.readdirSync fs) ->
  let '(responses, fs') :=
    delete_each dirname (map Part000.name (Part000.images fs)) fs in
  responses = map (fun _ => Part000.DeleteSuccess) (Part000.images fs) /\
  Fs.readdirSync fs' = [] /\
  Fs.elsewhere fs' = Fs.elsewhere fs /\
  Dashboard.render (Part000.images fs') = Dashboard.NoImages /\
  (Dashboard.render (Part000.images fs) = Dashboard.NoImages <-> Fs.readdirSync fs = []).
Proof.
  destruct fs as [l el]. intros Hall Hnd.
  assert (Hnames : map Part000.name (Part000.images {| Fs.store := l; Fs.elsewhere := el |})
                   = map fst l).
  { unfold Part000.images, Fs.readdirSync. cbn zeta. rewrite map_map.
    cbn [Part000.name Fs.store]. apply map_id. }
  rewrite Hnames. unfold Fs.readdirSync in *. cbn [Fs.store] in *.
  rewrite (delete_each_all el l Hall Hnd).
  cbn [Fs.store Fs.elsewhere]. repeat split.
  - unfold Part000.images, Fs.readdirSync. cbn zeta. cbn [Fs.store]. now rewrite !map_map.
  - unfold Dashboard.render, Part000.images, Fs.readdirSync. cbn zeta. cbn [Fs.store].
    rewrite !length_map. destruct l; [reflexivity|discriminate].
  - unfold Dashboard.render, Part000.images, Fs.readdirSync. cbn zeta. cbn [Fs.store].
    rewrite !length_map. destruct l; [reflexivity|discriminate].
Qed.

End DashboardFacts.

Lemma dashboard_after_deleting_all_witness :
  let '(responses, fs') :=
    delete_each srv (map Part000.name (Part000.images mixed_fs)) mixed_fs in
  responses = map (fun _ => Part000.DeleteSuccess) (Part000.images mixed_fs) /\
  Fs.readdirSync fs' = [] /\
  Fs.elsewhere fs' = Fs.elsewhere mixed_fs /\
  Dashboard.render (Part000.images fs') = Dashboard.NoImages /\
  (Dashboard.render (Part000.images mixed_fs) = Dashboard.NoImages
   <-> Fs.readdirSync mixed_fs = []).
Proof.
  apply (dashboard_after_deleting_all srv mixed_fs).
  - repeat constructor.
  - repeat constructor; cbn; intuition discriminate.
Defined.

(** ** What a refusal by the filter is answered with *)

Section FilterRefusal.
Variable dirname : Path.path.

(** X21. A request of which the first file is in the field [image] and is
    refused by the filter of the first program is refused by both programs
    of src/server.js, whatever follows that file in the request, and not
    with the 400 that lists the allowed types: the error of the filter
    goes to the error-handling middleware, which in the first program
    redirects with [Server error] and in the second answers 500. Nothing
    is written. The 400 with the allowed types is answered only to a
    single file that passed the filter, and it carries the error that
    [validateImage] threw on its way to the check. *)
Theorem filter_refusal_answer (fromBuffer : list byte -> option file_type)
    (e : Multer.env) (p : Multer.part) (rest : list Multer.part) (fs : Fs.t) :
  Multer.fieldname p = "image"%string ->
  ServerA.fileFilter p <> Return true ->
  ServerA.post_upload dirname fromBuffer e (p :: rest) fs = (ServerA.RedirectServerError, fs) /\
  ServerB.post_upload dirname e (p :: rest) fs = (ServerB.InternalServerError, fs) /\
  forall parts err allowed,
    fst (ServerA.post_upload dirname fromBuffer e parts fs) = ServerA.Rejected err allowed ->
    err = PropertyOfUndefined "startsWith" /\ allowed = ServerA.allowedTypes /\
    exists q, parts = [q] /\ ServerA.fileFilter q = Return true.
Proof.
  intros Hfield HA.
  rewrite filterA_true in HA.
  assert (HB : ~ (Regex.filetypes_test (Multer.mimetype p) = true /\
                  Regex.filetypes_test
                    (Js.toLowerCase (Path.extname (Multer.originalname p))) = true)).
  { intros [Hm He]. apply HA. split.
    - now apply type_test_inclusion.
    - now apply extension_test_inclusion. }
  rewrite postA_cases, postB_cases. cbn zeta. rewrite Hfield. cbn [String.eqb negb].
  change (String.eqb "image" "image") with true. cbn [negb].
  split; [|split].
  - destruct (Regex.filetypes_webp_i_test (Multer.mimetype p));
      destruct (Regex.filetypes_webp_i_test (Path.extname (Multer.originalname p)));
      cbn [andb negb]; try reflexivity. now destruct HA.
  - destruct (Regex.filetypes_test (Multer.mimetype p));
      destruct (Regex.filetypes_test (Js.toLowerCase (Path.extname (Multer.originalname p))));
      cbn [andb negb]; try reflexivity. now destruct HB.
  - intros parts err allowed. rewrite postA_cases.
    destruct parts as [|q [|q' parts]]; cbn zeta; [discriminate| |].
    + destruct (negb (String.eqb _ _)); [discriminate|].
      destruct (Regex.filetypes_webp_i_test (Multer.mimetype q)
                && Regex.filetypes_webp_i_test (Path.extname (Multer.originalname q))) eqn:Ef;
        cbn [negb]; [|discriminate].
      destruct (_ <? _)%N; [discriminate|].
      cbn [fst]. intros [= <- <-]. split; [reflexivity|]. split; [reflexivity|].
      exists q. split; [reflexivity|].
      apply filterA_true. now apply andb_true_iff in Ef.
    + destruct (negb (String.eqb _ _)); [discriminate|].
      destruct (negb _); [discriminate|].
      destruct (_ <? _)%N; discriminate.
Qed.

End FilterRefusal.

Lemma filter_refusal_answer_witness :
  ServerA.post_upload srv Magic.fromBuffer env0 [html_part; png_part] old_fs
    = (ServerA.RedirectServerError, old_fs) /\
  ServerB.post_upload srv env0 [html_part; png_part] old_fs
    = (ServerB.InternalServerError, old_fs) /\
  forall parts err allowed,
    fst (ServerA.post_upload srv Magic.fromBuffer env0 parts old_fs)
      = ServerA.Rejected err allowed ->
    err = PropertyOfUndefined "startsWith" /\ allowed = ServerA.allowedTypes /\
    exists q, parts = [q] /\ ServerA.fileFilter q = Return true.
Proof.
  apply (filter_refusal_answer srv Magic.fromBuffer env0 html_part [png_part] old_fs).
  - reflexivity.
  - discriminate.
Defined.

(** ** Runs on concrete inputs *)

Example extname_upper : Path.extname "pic.PNG" = ".PNG".
Proof. reflexivity. Qed.
Example extname_hidden : Path.extname ".bashrc" = "".
Proof. reflexivity. Qed.
Example extname_dotdot : Path.extname ".." = "".
Proof. reflexivity. Qed.
Example extname_two : Path.extname "a/b.c/archive.tar.gz" = ".gz".
Proof. reflexivity. Qed.
Example extname_dir : Path.extname "a.b/c" = "".
Proof. reflexivity. Qed.
Example join_up : Path.join ["app"; "public"; "uploads"] "../../server.js" = ["app"; "server.js"].
Proof. reflexivity. Qed.
Example lower_ex : Js.toLowerCase ".PNG" = ".png".
Proof. reflexivity. Qed.
Example num_ex : Js.number_toString 1700000000000 = "1700000000000".
Proof. reflexivity. Qed.
Example safe_ex : Regex.safe_name_test "a-b_c.png" = true /\ Regex.safe_name_test "../x" = false
  /\ Regex.safe_name_test ".." = true /\ Regex.safe_name_test "" = false.
Proof. repeat split. Qed.
Example ft_ex : Regex.filetypes_webp_i_test "application/x-PNG-fake" = true
  /\ Regex.filetypes_test "application/x-PNG-fake" = false
  /\ Regex.filetypes_test "image/jpeg" = true.
Proof. repeat split. Qed.

(** A genuine PNG sent to the first program: [validateImage] throws on it,
    and the file stays. *)
Example upload_png_run :
  ServerA.post_upload srv Magic.fromBuffer env0 [png_part] old_fs
  = (ServerA.Rejected (PropertyOfUndefined "startsWith") ServerA.allowedTypes,
     {| Fs.store := Fs.store old_fs ++
                    [("1700000000000-123456789.png"%string,
                      {| Fs.mtimeMs := 1700000000005; Fs.data := png_bytes |})];
        Fs.elsewhere := [] |}).
Proof. vm_compute. reflexivity. Qed.

Example upload_html_run :
  ServerA.post_upload srv Magic.fromBuffer env0 [html_part] old_fs
  = (ServerA.RedirectServerError, old_fs).
Proof. vm_compute. reflexivity. Qed.

Example upload_two_files_run :
  ServerA.post_upload srv Magic.fromBuffer env0 [png_part; png_part] old_fs
  = (ServerA.RedirectMulterError LIMIT_FILE_COUNT, old_fs).
Proof. vm_compute. reflexivity. Qed.

Example upload_other_field_run :
  Part000.post_upload srv env0
    [{| Multer.fieldname := "avatar"; Multer.originalname := "a.png";
        Multer.mimetype := "image/png"; Multer.buffer := png_bytes |}] old_fs
  = (Part000.Unhandled (MulterError LIMIT_UNEXPECTED_FILE), old_fs).
Proof. vm_compute. reflexivity. Qed.

Example upload_fake_png_run :
  ServerB.post_upload srv env0 [fake_png_part] empty_fs
  = (ServerB.Created "1700000000000-123456789.png" 9 "/uploads/1700000000000-123456789.png"
       "application/x-png-fake",
     {| Fs.store := [("1700000000000-123456789.png"%string,
                      {| Fs.mtimeMs := 1700000000005; Fs.data := png_bytes |})];
        Fs.elsewhere := [] |}).
Proof. vm_compute. reflexivity. Qed.

Example delete_dotdot_run :
  ServerB.delete_item srv (Str "..") old_fs
  = (old_fs,
     [Fs.ExistsSync ["srv"; "app"; "public"]; Fs.UnlinkSync ["srv"; "app"; "public"]],
     {| ServerB.filename := Str "..";
        ServerB.item_status :=
          ServerB.error (FsError EISDIR "unlink" ["srv"; "app"; "public"]) |}).
Proof. vm_compute. reflexivity. Qed.

Example delete_number_run :
  ServerB.delete_item srv (NotStr "42") old_fs
  = (old_fs, [],
     {| ServerB.filename := NotStr "42"; ServerB.item_status := ServerB.error InvalidArgType |}).
Proof. vm_compute. reflexivity. Qed.

Example delete_no_array_run :
  ServerB.post_delete srv None old_fs = (ServerB.NoImagesSelected, old_fs, []).
Proof. reflexivity. Qed.

Example delete_spaced_run :
  Part000.delete_image srv "my photo.png" spaced_fs
  = (Part000.DeleteSuccess,
     {| Fs.store := []; Fs.elsewhere := Fs.elsewhere spaced_fs |},
     [Fs.Unlink ["srv"; "app"; "public"; "uploads"; "my photo.png"]]).
Proof. vm_compute. reflexivity. Qed.

Example delete_traversal_run :
  Part000.delete_image srv "../../server.js" spaced_fs
  = (Part000.DeleteSuccess,
     {| Fs.store := Fs.store spaced_fs; Fs.elsewhere := [] |},
     [Fs.Unlink ["srv"; "app"; "server.js"]]).
Proof. vm_compute. reflexivity. Qed.

Example delete_trailing_slash_run :
  Part000.delete_image srv "my photo.png/" spaced_fs
  = (Part000.FailedToDelete, spaced_fs,
     [Fs.Unlink ["srv"; "app"; "public"; "uploads"; "my photo.png"]]).
Proof. vm_compute. reflexivity. Qed.

(** An animated PNG passes the filter of the second program and is stored,
    and the gallery does not show it. *)
Example upload_apng_run :
  let '(response, fs') := ServerB.post_upload srv env0 [apng_part] old_fs in
  response = ServerB.Created "1700000000000-123456789.apng" 9
               "/uploads/1700000000000-123456789.apng" "image/apng" /\
  Fs.readdirSync fs' = ["1600000000000-42.png"; "1700000000000-123456789.apng"]%string /\
  ServerB.images fs' = ["1600000000000-42.png"%string].
Proof. vm_compute. repeat split. Qed.

(** A file sent as [shot.png (1)] is stored under a name with a space in
    it, which [POST /delete] calls invalid. *)
Example upload_spaced_run :
  let '(response, fs') := ServerB.post_upload srv env0 [spaced_part] empty_fs in
  response = ServerB.Created "1700000000000-123456789.png (1)" 9
               "/uploads/1700000000000-123456789.png (1)" "image/png" /\
  ServerB.post_delete srv (Some [Str "1700000000000-123456789.png (1)"]) fs'
  = (ServerB.NoFilesDeleted
       [{| ServerB.filename := Str "1700000000000-123456789.png (1)";
           ServerB.item_status := ServerB.InvalidFilename |}],
     fs', []).
Proof. vm_compute. repeat split. Qed.

(** The number 42 in a batch, with a file [42] stored. *)
Example delete_number_item_run :
  let fs := {| Fs.store := [("42"%string, {| Fs.mtimeMs := 1; Fs.data := [] |})];
               Fs.elsewhere := [] |} in
  ServerB.post_delete srv (Some [NotStr "42"]) fs
  = (ServerB.NoFilesDeleted
       [{| ServerB.filename := NotStr "42";
           ServerB.item_status := ServerB.error InvalidArgType |}],
     fs, []).
Proof. reflexivity. Qed.
